(** * Verification of [pyrogram/methods/advanced/save_file.py]

    A shallow embedding of the chunked file upload of Pyrogram
    ([file_upload_worker], [make_progress_callback], [open_media_file] and
    [SaveFile.save_file]) together with the properties of its upload
    protocol: validation, mode selection, the producer loop, the worker
    pool shutdown, progress notifications and the MD5 checksum.

    The Python code is sequential on the producer side; its effects
    (the stream, the capacity-1 queue with its workers, the log, the
    progress callback) are threaded through a state monad whose
    computations complete normally, by [return], by an exception, or not
    at all. *)

From Stdlib Require Import ZArith Lia Ascii String.
From Stdlib.Strings Require Import Byte.
From stdpp Require Import base tactics option list strings gmap.

Local Open Scope Z_scope.

(** ** hashlib.md5

    The digest function of the standard library, after RFC 1321, on bytes
    given by their values.  It is executable, so that concrete uploads can
    be evaluated down to their checksum. *)
Module MD5.

Definition w32 (x : Z) : Z := x mod 2 ^ 32.

Definition rotl (x c : Z) : Z :=
  w32 (Z.lor (Z.shiftl x c) (Z.shiftr x (32 - c))).

Definition not32 (x : Z) : Z := Z.lxor x (2 ^ 32 - 1).

Definition K : list Z :=
  [ 3614090360; 3905402710; 606105819; 3250441966;
    4118548399; 1200080426; 2821735955; 4249261313;
    1770035416; 2336552879; 4294925233; 2304563134;
    1804603682; 4254626195; 2792965006; 1236535329;
    4129170786; 3225465664; 643717713; 3921069994;
    3593408605; 38016083; 3634488961; 3889429448;
    568446438; 3275163606; 4107603335; 1163531501;
    2850285829; 4243563512; 1735328473; 2368359562;
    4294588738; 2272392833; 1839030562; 4259657740;
    2763975236; 1272893353; 4139469664; 3200236656;
    681279174; 3936430074; 3572445317; 76029189;
    3654602809; 3873151461; 530742520; 3299628645;
    4096336452; 1126891415; 2878612391; 4237533241;
    1700485571; 2399980690; 4293915773; 2240044497;
    1873313359; 4264355552; 2734768916; 1309151649;
    4149444226; 3174756917; 718787259; 3951481745 ].

Definition R : list Z :=
  [ 7; 12; 17; 22; 7; 12; 17; 22; 7; 12; 17; 22; 7; 12; 17; 22;
    5; 9; 14; 20; 5; 9; 14; 20; 5; 9; 14; 20; 5; 9; 14; 20;
    4; 11; 16; 23; 4; 11; 16; 23; 4; 11; 16; 23; 4; 11; 16; 23;
    6; 10; 15; 21; 6; 10; 15; 21; 6; 10; 15; 21; 6; 10; 15; 21 ].

Definition at_ (l : list Z) (i : Z) : Z := nth (Z.to_nat i) l 0.

(** Little-endian words. *)
Definition le_word (bs : list Z) : Z :=
  fold_right (fun b acc => b + 256 * acc) 0 bs.

Fixpoint le_bytes (n : nat) (w : Z) : list Z :=
  match n with
  | O => []
  | S n' => w mod 256 :: le_bytes n' (w / 256)
  end.

Definition pad (msg : list Z) : list Z :=
  let n := Z.of_nat (length msg) in
  msg ++ [128] ++ replicate (Z.to_nat ((55 - n) mod 64)) 0
      ++ le_bytes 8 ((8 * n) mod 2 ^ 64).

Fixpoint words (n : nat) (bs : list Z) : list Z :=
  match n with
  | O => []
  | S n' => le_word (take 4 bs) :: words n' (drop 4 bs)
  end.

Record regs := Regs { rA : Z; rB : Z; rC : Z; rD : Z }.

Definition step (M : list Z) (r : regs) (i : Z) : regs :=
  let '(Regs a b c d) := r in
  let '(f, g) :=
    if i <? 16 then (Z.lor (Z.land b c) (Z.land (not32 b) d), i)
    else if i <? 32 then (Z.lor (Z.land d b) (Z.land (not32 d) c), (5 * i + 1) mod 16)
    else if i <? 48 then (Z.lxor (Z.lxor b c) d, (3 * i + 5) mod 16)
    else (Z.lxor c (Z.lor b (not32 d)), (7 * i) mod 16) in
  let f' := w32 (f + a + at_ K i + at_ M g) in
  Regs d (w32 (b + rotl f' (at_ R i))) b c.

Definition block (r : regs) (bs : list Z) : regs :=
  let M := words 16 bs in
  let r' := fold_left (step M) (map Z.of_nat (seq 0 64)) r in
  Regs (w32 (rA r + rA r')) (w32 (rB r + rB r'))
       (w32 (rC r + rC r')) (w32 (rD r + rD r')).

Fixpoint blocks (n : nat) (r : regs) (bs : list Z) : regs :=
  match n with
  | O => r
  | S n' => blocks n' (block r (take 64 bs)) (drop 64 bs)
  end.

Definition init : regs := Regs 1732584193 4023233417 2562383102 271733878.

Definition digest_values (msg : list Z) : list Z :=
  let p := pad msg in
  let r := blocks (Nat.div (length p) 64) init p in
  le_bytes 4 (rA r) ++ le_bytes 4 (rB r) ++ le_bytes 4 (rC r) ++ le_bytes 4 (rD r).

End MD5.

Definition byte_val (b : byte) : Z := Z.of_N (Byte.to_N b).

Definition byte_of_val (z : Z) : byte :=
  default x00 (Byte.of_N (Z.to_N z)).

(** [md5(data).digest()] *)
Definition md5_digest (data : list byte) : list byte :=
  map byte_of_val (MD5.digest_values (map byte_val data)).

(** ** Rendering the digest

    [hex(i)[2:].zfill(2)] for each byte [i] of the digest, joined. *)

Definition hex_digit (d : Z) : ascii :=
  nth (Z.to_nat d) (list_ascii_of_string "0123456789abcdef") "0"%char.

(** [hex(i)[2:]] for [0 <= i < 256]: the digits of [i] without leading zero. *)
Definition py_hex_tail (i : Z) : string :=
  if i <? 16 then String (hex_digit i) EmptyString
  else String (hex_digit (i / 16)) (String (hex_digit (i mod 16)) EmptyString).

(** [str.zfill(width)] on a string without sign. *)
Definition zfill (width : nat) (s : string) : string :=
  string_of_list_ascii (replicate (width - String.length s)%nat "0"%char) +:+ s.

(** ["".join([hex(i)[2:].zfill(2) for i in digest])] *)
Definition join_hex (digest : list byte) : string :=
  fold_right (fun b acc => zfill 2 (py_hex_tail (byte_val b)) +:+ acc) EmptyString digest.

(** The canonical lowercase hexadecimal form ([hexdigest()]): two digits per
    byte, high nibble first. *)
Definition hexdigest (digest : list byte) : string :=
  fold_right (fun b acc =>
                String (hex_digit (byte_val b / 16))
                       (String (hex_digit (byte_val b mod 16)) acc))
             EmptyString digest.

Definition bytes_of_string (s : string) : list byte :=
  map byte_of_ascii (list_ascii_of_string s).

(** ** Exceptions

    [open_media_file] raises [ValueError] with three messages; the
    specification names them [InvalidInputError], [EmptyFileError] and
    [SizeLimitExceededError]. *)
Inductive value_error : Type :=
| InvalidFile            (* "Invalid file. Expected a file path as string or a binary (not text) file pointer" *)
| EmptyFile              (* "File size equals to 0 B" *)
| TooBig (limit_mib : Z) (* "Can't upload files bigger than {file_size_limit_mib} MiB" *)
| ClosedFile.            (* "I/O operation on closed file.", raised by the io module *)

Inductive exn : Type :=
| StopTransmission              (* pyrogram.StopTransmission, a subclass of Exception *)
| ValueError (v : value_error)
| OSError                       (* open() of a missing file, seek() to a negative offset *)
| AttributeError                (* a method called on an object that lacks it *)
| UnboundLocalError
| OtherError (name : string)    (* any other subclass of Exception: RPCError, RuntimeError, ... *)
| CancelledError                (* asyncio.CancelledError: a BaseException, not an Exception *)
| KeyboardInterrupt             (* BaseException, not an Exception *)
| SystemExit.                   (* BaseException, not an Exception *)

(** [isinstance(e, Exception)] *)
Definition is_Exception (e : exn) : bool :=
  match e with
  | CancelledError | KeyboardInterrupt | SystemExit => false
  | _ => true
  end.

Definition InvalidInputError : exn := ValueError InvalidFile.
Definition EmptyFileError : exn := ValueError EmptyFile.
Definition SizeLimitExceededError (limit_mib : Z) : exn := ValueError (TooBig limit_mib).

(** ** Data *)

(** [types.User], of which only [is_premium] is read. *)
Record user : Type := User { is_premium : bool }.

(** A binary stream: [io.IOBase] with its optional [name] attribute. *)
Record stream : Type := Stream {
  s_name : option string;
  s_data : list byte;
  s_pos : Z;
  s_closed : bool
}.

(** The [path] argument of [save_file]. *)
Inductive path_arg : Type :=
| PNone                     (* None *)
| PStr (p : string)         (* str or PurePath *)
| PStream (fp : stream)     (* io.IOBase *)
| POther.                   (* anything else *)

(** [raw.functions.upload.SaveBigFilePart] and [SaveFilePart]. *)
Inductive rpc : Type :=
| SaveBigFilePart (file_id file_part file_total_parts : Z) (bytes : list byte)
| SaveFilePart (file_id file_part : Z) (bytes : list byte).

(** What travels through the queue: a request, or [None] to stop a worker. *)
Inductive item : Type :=
| Rpc (r : rpc)
| Sentinel.

(** The variable [md5_sum]: [None], a running [md5()] object (given by the
    bytes it was fed), or the joined hexadecimal string. *)
Inductive md5_var : Type :=
| MNone
| MHash (fed : list byte)
| MStr (s : string).

(** [raw.types.InputFileBig] and [raw.types.InputFile]. *)
Inductive input_file : Type :=
| InputFileBig (id parts : Z) (name : string)
| InputFile (id parts : Z) (name : string) (md5_checksum : md5_var).

(** The capacity-1 queue and the worker tasks reading from it. *)
Record pool : Type := Pool {
  slot : option item;        (* the item staged in the queue, if any *)
  running : nat;             (* worker tasks that have not returned *)
  invoked : list rpc;        (* requests passed to session.invoke, in order *)
  worker_log : list rpc      (* requests whose invoke raised, logged by a worker *)
}.

(** What the coroutine [save_file] does, in program order. *)
Inductive event : Type :=
| EvAcquire                        (* save_file_semaphore acquired *)
| EvRelease                        (* save_file_semaphore released *)
| EvOpen (p : string)              (* open(path, "rb") *)
| EvClose                          (* fp.close() *)
| EvSpawn (i : nat)                (* asyncio.create_task(..., name="upload-worker-i") *)
| EvPut (it : item)                (* await queue.put(it) *)
| EvProgress (current total : Z)   (* await progress_callback(current) *)
| EvLog (e : exn)                  (* log.exception(e) *)
| EvGather.                        (* await asyncio.gather( *workers) *)

(** A progress callback, by what a call [progress(current, total)] does:
    return ([None]) or raise. *)
Definition callback : Type := Z -> Z -> option exn.

(** The client, as far as [save_file] reads it. *)
Record client : Type := Client {
  me : option user;                 (* self.me *)
  rnd_id : Z;                       (* the value of self.rnd_id() *)
  fs : gmap string (list byte);     (* the files open() can read *)
  session_error : option exn;       (* failure of storage.dc_id() / get_media_session *)
  invoke_fails : rpc -> bool        (* whether session.invoke(rpc) raises *)
}.

Record state : Type := State {
  st_fp : option stream;
  st_pool : pool;
  st_trace : list event
}.

Definition initial : state := State None (Pool None 0 [] []) [].

(** ** Computations *)

Inductive completion (A : Type) : Type :=
| Normal (a : A)
| Returning (v : option input_file)   (* a [return] on its way out *)
| Raising (e : exn)
| Blocked                             (* an [await] that is never resumed *)
| NoFuel.
Arguments Normal {A} a.
Arguments Returning {A} v.
Arguments Raising {A} e.
Arguments Blocked {A}.
Arguments NoFuel {A}.

Definition M (A : Type) : Type := state -> completion A * state.

Definition ret {A} (a : A) : M A := fun s => (Normal a, s).

Definition bind {A B} (m : M A) (k : A -> M B) : M B := fun s =>
  match m s with
  | (Normal a, s') => k a s'
  | (Returning v, s') => (Returning v, s')
  | (Raising e, s') => (Raising e, s')
  | (Blocked, s') => (Blocked, s')
  | (NoFuel, s') => (NoFuel, s')
  end.

Declare Scope py_scope.
Delimit Scope py_scope with py.
Notation "x <- m ;; k" := (bind m (fun x => k))
  (at level 100, m at next level, k at level 200, right associativity) : py_scope.
Notation "m ;; k" := (bind m (fun _ => k))
  (at level 100, k at level 200, right associativity) : py_scope.
Local Open Scope py_scope.

Definition raise {A} (e : exn) : M A := fun s => (Raising e, s).
Definition return_ {A} (v : option input_file) : M A := fun s => (Returning v, s).

Definition emit (ev : event) : M unit := fun s =>
  (Normal tt, State (st_fp s) (st_pool s) (st_trace s ++ [ev])).

(** [try: body finally: fin] *)
Definition try_finally {A} (body : M A) (fin : M unit) : M A := fun s =>
  match body s with
  | (Blocked, s') => (Blocked, s')
  | (NoFuel, s') => (NoFuel, s')
  | (r, s') =>
      match fin s' with
      | (Normal _, s'') => (r, s'')
      | (Returning v, s'') => (Returning v, s'')
      | (Raising e, s'') => (Raising e, s'')
      | (Blocked, s'') => (Blocked, s'')
      | (NoFuel, s'') => (NoFuel, s'')
      end
  end.

(** [try: body except ...: handler else: orelse], where [handler e] is [None]
    when no [except] clause matches [e]. *)
Definition try_except_else {A B} (body : M A) (handler : exn -> option (M B))
    (orelse : A -> M B) : M B := fun s =>
  match body s with
  | (Normal a, s') => orelse a s'
  | (Raising e, s') =>
      match handler e with
      | Some h => h s'
      | None => (Raising e, s')
      end
  | (Returning v, s') => (Returning v, s')
  | (Blocked, s') => (Blocked, s')
  | (NoFuel, s') => (NoFuel, s')
  end.

(** [for x in l: f x] *)
Fixpoint for_each {X} (l : list X) (f : X -> M unit) : M unit :=
  match l with
  | [] => ret tt
  | x :: l' => f x ;; for_each l' f
  end.

(** How a call of the coroutine ends. *)
Inductive outcome : Type :=
| Returns (v : option input_file)
| Raises (e : exn)
| NeverReturns
| OutOfFuel.

Definition call {A} (m : M A) (s : state) : outcome * state :=
  match m s with
  | (Normal _, s') => (Returns None, s')
  | (Returning v, s') => (Returns v, s')
  | (Raising e, s') => (Raises e, s')
  | (Blocked, s') => (NeverReturns, s')
  | (NoFuel, s') => (OutOfFuel, s')
  end.

(** ** The stream *)

Definition with_fp {A} (f : stream -> completion A * stream) : M A := fun s =>
  match st_fp s with
  | None => (Raising UnboundLocalError, s)
  | Some fp =>
      if s_closed fp then (Raising (ValueError ClosedFile), s)
      else let '(r, fp') := f fp in (r, State (Some fp') (st_pool s) (st_trace s))
  end.

(** [open(path, "rb")] *)
Definition py_open (c : client) (p : string) : M unit := fun s =>
  match fs c !! p with
  | None => (Raising OSError, s)
  | Some data =>
      (Normal tt, State (Some (Stream (Some p) data 0 false)) (st_pool s)
                        (st_trace s ++ [EvOpen p]))
  end.

(** [fp = path] for a stream handed in by the caller. *)
Definition use_stream (fp : stream) : M unit := fun s =>
  (Normal tt, State (Some fp) (st_pool s) (st_trace s)).

(** [getattr(fp, "name", "file.jpg")] *)
Definition fp_name : M string := fun s =>
  match st_fp s with
  | None => (Raising UnboundLocalError, s)
  | Some fp => (Normal (default "file.jpg"%string (s_name fp)), s)
  end.

(** [fp.seek(0, os.SEEK_END)] *)
Definition fp_seek_end : M unit :=
  with_fp (fun fp =>
    (Normal tt, Stream (s_name fp) (s_data fp) (Z.of_nat (length (s_data fp))) (s_closed fp))).

(** [fp.tell()] *)
Definition fp_tell : M Z :=
  with_fp (fun fp => (Normal (s_pos fp), fp)).

(** [fp.seek(offset)] on a seekable stream.  A negative offset is refused:
    with [OSError] by a file, with [ValueError] by [io.BytesIO]; both are
    instances of [Exception], which is all that [save_file] distinguishes.
    An offset from 0 is accepted, also past the end of the data, as it is
    for the offsets of the parts of a file within the size limit; CPython
    refuses those from 2^63 on, and a file system those past its largest
    file offset, so the properties that state what a call returns bound
    [file_part] by the number of parts of the file. *)
Definition fp_seek (offset : Z) : M unit :=
  with_fp (fun fp =>
    if offset <? 0 then (Raising OSError, fp)
    else (Normal tt, Stream (s_name fp) (s_data fp) offset (s_closed fp))).

(** [fp.read(n)] on a file or buffered stream: [n] bytes, fewer only at the
    end of the data. *)
Definition fp_read (n : Z) : M (list byte) :=
  with_fp (fun fp =>
    let chunk := take (Z.to_nat n) (drop (Z.to_nat (s_pos fp)) (s_data fp)) in
    (Normal chunk,
     Stream (s_name fp) (s_data fp) (s_pos fp + Z.of_nat (length chunk)) (s_closed fp))).

(** [fp.close()] *)
Definition fp_close_ : M unit := fun s =>
  match st_fp s with
  | None => (Raising UnboundLocalError, s)
  | Some fp =>
      (Normal tt, State (Some (Stream (s_name fp) (s_data fp) (s_pos fp) true))
                        (st_pool s) (st_trace s ++ [EvClose]))
  end.

(** ** The queue and its workers *)

(** One turn of the loop of [file_upload_worker], for the worker that
    dequeues [data]: on [None] it returns; otherwise it invokes the request
    and logs a failure of the call. *)
Definition file_upload_worker (c : client) (data : item) (p : pool) : pool :=
  match data with
  | Sentinel => Pool None (Nat.pred (running p)) (invoked p) (worker_log p)
  | Rpc r =>
      Pool None (running p) (invoked p ++ [r])
           (if invoke_fails c r then worker_log p ++ [r] else worker_log p)
  end.

(** [await queue.get()] succeeds in a worker when an item is staged and a
    worker is still running. *)
Definition dequeue (c : client) (p : pool) : option pool :=
  match slot p, running p with
  | Some data, S _ => Some (file_upload_worker c data p)
  | _, _ => None
  end.

(** [asyncio.create_task(file_upload_worker(session, queue), name=...)] *)
Definition create_task (i : nat) : M nat := fun s =>
  let p := st_pool s in
  (Normal i, State (st_fp s) (Pool (slot p) (S (running p)) (invoked p) (worker_log p))
                   (st_trace s ++ [EvSpawn i])).

(** [[create_task(...) for i in range(n)]] *)
Fixpoint create_tasks (l : list nat) : M (list nat) :=
  match l with
  | [] => ret []
  | i :: l' => w <- create_task i ;; ws <- create_tasks l' ;; ret (w :: ws)
  end.

(** [await queue.put(it)] on the queue of capacity 1: when the queue is full
    the producer waits for a worker to take the staged item. *)
Definition queue_put (c : client) (it : item) : M unit :=
  emit (EvPut it) ;;
  fun s =>
    let p := st_pool s in
    match slot p with
    | None =>
        (Normal tt, State (st_fp s) (Pool (Some it) (running p) (invoked p) (worker_log p))
                          (st_trace s))
    | Some _ =>
        match dequeue c p with
        | Some p' =>
            (Normal tt, State (st_fp s)
                              (Pool (Some it) (running p') (invoked p') (worker_log p'))
                              (st_trace s))
        | None => (Blocked, s)
        end
    end.

(** [await asyncio.gather( *workers)]: resumed once every worker has returned. *)
Definition gather (c : client) : M unit :=
  emit EvGather ;;
  fun s =>
    let p := default (st_pool s) (dequeue c (st_pool s)) in
    match running p with
    | O => (Normal tt, State (st_fp s) p (st_trace s))
    | S _ => (Blocked, State (st_fp s) p (st_trace s))
    end.

(** ** make_progress_callback

    The wrapper calls [callback(current, file_size, ...)], directly or on
    the executor; without a callback it calls [empty_progress_callback].
    A [callback] stands for what the [await] of that call does when it is
    resumed: it returns, or it raises the exception given.  An [await]
    that is never resumed (on the executor, a plain function that raises
    [StopIteration]) has no counterpart here; the properties on the end of
    a call are about callbacks whose [await] is resumed. *)
Definition make_progress_callback (progress : option callback) (file_size : Z)
    (current : Z) : M unit :=
  emit (EvProgress current file_size) ;;
  match progress with
  | None => ret tt
  | Some f =>
      match f current file_size with
      | None => ret tt
      | Some e => raise e
      end
  end.

(** ** open_media_file *)

(** [me and me.is_premium] *)
Definition premium (me : option user) : bool :=
  match me with
  | Some u => is_premium u
  | None => false
  end.

Definition file_size_limit_mib (me : option user) : Z :=
  if premium me then 4000 else 2000.

(** The generator up to its [yield]: the values bound by [with ... as]. *)
Definition enter_media_file (c : client) (path : path_arg) : M (bool * Z * string) :=
  fp_close <- match path with
              | PStr p => py_open c p ;; ret true
              | PStream fp => use_stream fp ;; ret false
              | _ => raise (ValueError InvalidFile)
              end ;;
  file_name <- fp_name ;;
  fp_seek_end ;;
  file_size <- fp_tell ;;
  fp_seek 0 ;;
  if file_size =? 0 then raise (ValueError EmptyFile)
  else if file_size >? file_size_limit_mib (me c) * 1024 * 1024
       then raise (ValueError (TooBig (file_size_limit_mib (me c))))
       else ret (fp_close, file_size, file_name).

(** [with open_media_file(me, path) as (fp, file_size, file_name): body] *)
Definition open_media_file {A} (c : client) (path : path_arg)
    (body : Z -> string -> M A) : M A :=
  r <- enter_media_file c path ;;
  let '(fp_close, file_size, file_name) := r in
  try_finally (body file_size file_name)
              (if fp_close : bool then fp_close_ else ret tt).

(** ** save_file *)

Definition part_size : Z := 512 * 1024.

(** [math.ceil(a / b)]: the float quotient is exact here, [b] being a power
    of two and [a] below 2^53. *)
Definition ceil_div (a b : Z) : Z :=
  if a mod b =? 0 then a / b else a / b + 1.

(** [x or y] on an optional integer: [None] and [0] are falsy. *)
Definition py_or (x : option Z) (y : Z) : Z :=
  match x with
  | Some v => if v =? 0 then y else v
  | None => y
  end.

(** [md5_sum.update(chunk)] *)
Definition md5_update (md5_sum : md5_var) (chunk : list byte) : M md5_var :=
  match md5_sum with
  | MHash fed => ret (MHash (fed ++ chunk))
  | _ => raise AttributeError
  end.

(** ["".join([hex(i)[2:].zfill(2) for i in md5_sum.digest()])] *)
Definition md5_join (md5_sum : md5_var) : M md5_var :=
  match md5_sum with
  | MHash fed => ret (MStr (join_hex (md5_digest fed)))
  | _ => raise AttributeError
  end.

(** [log.exception(e)] *)
Definition log_exception (e : exn) : M unit := emit (EvLog e).

Section Transfer.

(** The locals of [save_file] that are fixed when the [try] is entered. *)
Variable c : client.
Variables (file_size : Z) (file_name : string) (progress : option callback).
Variables (file_id : Z) (is_big is_missing_part : bool) (file_total_parts : Z).
Variable workers : list nat.

Definition make_rpc (file_part : Z) (chunk : list byte) : rpc :=
  if is_big then SaveBigFilePart file_id file_part file_total_parts chunk
  else SaveFilePart file_id file_part chunk.

(** The [while True] loop; it completes normally on [break], with the
    value of [md5_sum]. *)
Fixpoint read_loop (fuel : nat) (file_part : Z) (md5_sum : md5_var) : M md5_var :=
  match fuel with
  | O => fun s => (NoFuel, s)
  | S fuel' =>
      chunk <- fp_read part_size ;;
      match chunk with
      | [] =>
          if negb is_big && negb is_missing_part
          then md5_join md5_sum
          else ret md5_sum
      | _ :: _ =>
          queue_put c (Rpc (make_rpc file_part chunk)) ;;
          if is_missing_part then return_ None
          else
            md5_sum <- (if negb (is_big || is_missing_part)
                        then md5_update md5_sum chunk
                        else ret md5_sum) ;;
            let file_part := file_part + 1 in
            make_progress_callback progress file_size
                                   (Z.min (file_part * part_size) file_size) ;;
            read_loop fuel' file_part md5_sum
      end
  end.

(** The body of the [try].  The loop reads at most [file_total_parts]
    chunks and then the end of the file, which bounds its fuel
    ([run_fuel_suffices] shows that it is never exhausted). *)
Definition producer (file_part : Z) (md5_sum : md5_var) : M md5_var :=
  fp_seek (part_size * file_part) ;;
  read_loop (S (Z.to_nat file_total_parts)) file_part md5_sum.

(** [except StopTransmission: raise] and
    [except Exception as e: log.exception(e)] *)
Definition handlers (e : exn) : option (M unit) :=
  match e with
  | StopTransmission => Some (raise StopTransmission)
  | _ => if is_Exception e then Some (log_exception e) else None
  end.

(** The [else] clause. *)
Definition result (md5_sum : md5_var) : M unit :=
  if is_big
  then return_ (Some (InputFileBig file_id file_total_parts file_name))
  else return_ (Some (InputFile file_id file_total_parts file_name md5_sum)).

(** The [finally] clause. *)
Definition shutdown : M unit :=
  for_each workers (fun _ => queue_put c Sentinel) ;;
  gather c.

(** The [try] statement. *)
Definition transfer (file_part : Z) (md5_sum : md5_var) : M unit :=
  try_finally
    (try_except_else (producer file_part md5_sum) handlers result)
    shutdown.

End Transfer.

(** [await self.storage.dc_id()] and
    [await self.session_pool.get_media_session(dc_id)] *)
Definition get_media_session (c : client) : M unit :=
  match session_error c with
  | Some e => raise e
  | None => ret tt
  end.

Definition is_big_file (file_size : Z) : bool := file_size >? 10 * 1024 * 1024.

Definition workers_count (file_size : Z) : nat :=
  if is_big_file file_size then 4%nat else 1%nat.

(** [file_id is not None] *)
Definition is_not_none (file_id : option Z) : bool :=
  match file_id with
  | Some _ => true
  | None => false
  end.

(** [md5() if not is_big and not is_missing_part else None] *)
Definition md5_initial (is_big is_missing_part : bool) : md5_var :=
  if negb is_big && negb is_missing_part then MHash [] else MNone.

(** The body of the [with open_media_file(...)] block. *)
Definition upload (c : client) (file_id : option Z) (file_part : Z)
    (progress : option callback) (file_size : Z) (file_name : string) : M unit :=
  let file_total_parts := ceil_div file_size part_size in
  let is_big := is_big_file file_size in
  let is_missing_part := is_not_none file_id in
  let file_id := py_or file_id (rnd_id c) in
  let md5_sum := md5_initial is_big is_missing_part in
  get_media_session c ;;
  workers <- create_tasks (seq 0 (workers_count file_size)) ;;
  transfer c file_size file_name progress file_id is_big is_missing_part
           file_total_parts workers file_part md5_sum.

(** [async with self.save_file_semaphore: body] *)
Definition with_semaphore {A} (body : M A) : M A :=
  emit EvAcquire ;; try_finally body (emit EvRelease).

Definition save_file (c : client) (path : path_arg) (file_id : option Z)
    (file_part : Z) (progress : option callback) : M unit :=
  with_semaphore
    match path with
    | PNone => return_ None
    | _ => open_media_file c path (upload c file_id file_part progress)
    end.

(** A call of [save_file] on a fresh state. *)
Definition run (c : client) (path : path_arg) (file_id : option Z)
    (file_part : Z) (progress : option callback) : outcome * state :=
  call (save_file c path file_id file_part progress) initial.

(** ** Specification vocabulary

    The notions in which the properties below are stated. *)

(** The requests the producer builds from a list of chunks, numbered from
    [file_part]. *)
Fixpoint requests (mk : Z -> list byte -> rpc) (file_part : Z)
    (chunks : list (list byte)) : list rpc :=
  match chunks with
  | [] => []
  | chunk :: chunks' => mk file_part chunk :: requests mk (file_part + 1) chunks'
  end.

(** The successive results of [read(part_size)] on the bytes [rest] that
    remain in the stream. *)
Fixpoint split_parts (fuel : nat) (rest : list byte) : list (list byte) :=
  match fuel with
  | O => []
  | S fuel' =>
      match take (Z.to_nat part_size) rest with
      | [] => []
      | chunk => chunk :: split_parts fuel' (drop (Z.to_nat part_size) rest)
      end
  end.

Definition rpc_file_id (r : rpc) : Z :=
  match r with
  | SaveBigFilePart i _ _ _ => i
  | SaveFilePart i _ _ => i
  end.

Definition rpc_file_part (r : rpc) : Z :=
  match r with
  | SaveBigFilePart _ k _ _ => k
  | SaveFilePart _ k _ => k
  end.

Definition rpc_bytes (r : rpc) : list byte :=
  match r with
  | SaveBigFilePart _ _ _ b => b
  | SaveFilePart _ _ b => b
  end.

(** [file_total_parts], present in [SaveBigFilePart] only. *)
Definition rpc_total_parts (r : rpc) : option Z :=
  match r with
  | SaveBigFilePart _ _ n _ => Some n
  | SaveFilePart _ _ _ => None
  end.

(** Projections of a trace. *)
Definition put_requests (t : list event) : list rpc :=
  omap (fun ev => match ev with EvPut (Rpc r) => Some r | _ => None end) t.

Definition put_sentinels (t : list event) : nat :=
  length (omap (fun ev => match ev with EvPut Sentinel => Some tt | _ => None end) t).

Definition gathers (t : list event) : nat :=
  length (omap (fun ev => match ev with EvGather => Some tt | _ => None end) t).

Definition closes (t : list event) : nat :=
  length (omap (fun ev => match ev with EvClose => Some tt | _ => None end) t).

Definition spawned (t : list event) : list nat :=
  omap (fun ev => match ev with EvSpawn i => Some i | _ => None end) t.

Definition notifications (t : list event) : list (Z * Z) :=
  omap (fun ev => match ev with EvProgress cur tot => Some (cur, tot) | _ => None end) t.

Definition logged (t : list event) : list exn :=
  omap (fun ev => match ev with EvLog e => Some e | _ => None end) t.

(** The source a [path] argument resolves to: whether [open_media_file]
    owns the stream, and the stream as it is after the size was read. *)
Definition resolve (c : client) (path : path_arg) : option (bool * stream) :=
  match path with
  | PStr p => (fun data => (true, Stream (Some p) data 0 false)) <$> fs c !! p
  | PStream fp =>
      if s_closed fp then None
      else Some (false, Stream (s_name fp) (s_data fp) 0 false)
  | _ => None
  end.

Definition size_of (fp : stream) : Z := Z.of_nat (length (s_data fp)).

Definition size_limit (c : client) : Z := file_size_limit_mib (me c) * 1024 * 1024.

(** While the producer runs, every worker is waiting or invoking, and no
    sentinel is staged. *)
Definition pool_ok (n : nat) (p : pool) : Prop :=
  running p = n /\ (0 < n)%nat /\ slot p <> Some Sentinel.

(** The requests handed to the pool so far: those invoked and the one staged. *)
Definition handed (p : pool) : list rpc :=
  invoked p ++ match slot p with Some (Rpc r) => [r] | _ => [] end.

(** What the producer does for one part of a full upload: enqueue the
    request, then report the bytes dispatched so far. *)
Definition notify (file_size : Z) (r : rpc) : list event :=
  [EvPut (Rpc r);
   EvProgress (Z.min ((rpc_file_part r + 1) * part_size) file_size) file_size].

(** What holds when the loop of a full upload has stopped. *)
Definition loop_post (file_size : Z) (progress : option callback) (is_big : bool)
    (s : state) (fp : stream) (n : nat) (acc rest : list byte)
    (all rs : list rpc) (res : completion md5_var) (s' : state) (fp' : stream) : Prop :=
  st_trace s' = st_trace s ++ flat_map (notify file_size) rs /\
  pool_ok n (st_pool s') /\
  handed (st_pool s') = handed (st_pool s) ++ rs /\
  st_fp s' = Some fp' /\ s_closed fp' = false /\
  s_data fp' = s_data fp /\ s_name fp' = s_name fp /\
  ((res = Normal (if is_big then MNone
                  else MStr (join_hex (md5_digest (acc ++ rest)))) /\ rs = all)
   \/ (exists e cb cur,
         res = Raising e /\ progress = Some cb /\ cb cur file_size = Some e /\
         rs `prefix_of` all /\ rs <> [])).

Definition open_events (path : path_arg) : list event :=
  match path with
  | PStr p => [EvOpen p]
  | _ => []
  end.

(** The source resolves to a stream whose size passes validation. *)
Definition valid_source (c : client) (path : path_arg) (owned : bool) (fp : stream) : Prop :=
  resolve c path = Some (owned, fp) /\ 0 < size_of fp <= size_limit c.

Definition name_of (fp : stream) : string := default "file.jpg"%string (s_name fp).

(** The state in which the [try] statement of [save_file] is entered. *)
Definition entry_state (c : client) (path : path_arg) (fp : stream) : state :=
  State (Some fp) (Pool None (workers_count (size_of fp)) [] [])
        ([EvAcquire] ++ open_events path ++ map EvSpawn (seq 0 (workers_count (size_of fp)))).

(** Leaving the two [with] blocks: an owned stream is closed, the semaphore
    is released. *)
Definition leave (owned : bool) (s : state) : state :=
  State (if owned
         then (fun fp => Stream (s_name fp) (s_data fp) (s_pos fp) true) <$> st_fp s
         else st_fp s)
        (st_pool s)
        (st_trace s ++ (if owned then [EvClose] else []) ++ [EvRelease]).

Definition outcome_of {A} (r : completion A) : outcome :=
  match r with
  | Normal _ => Returns None
  | Returning v => Returns v
  | Raising e => Raises e
  | Blocked => NeverReturns
  | NoFuel => OutOfFuel
  end.

Definition is_stop (e : exn) : bool :=
  match e with
  | StopTransmission => true
  | _ => false
  end.

(** The exceptions that [except Exception] logs and swallows. *)
Definition caught (e : exn) : bool := is_Exception e && negb (is_stop e).

Definition log_of (e : exn) : list event := if caught e then [EvLog e] else [].

Definition after_exception (e : exn) : completion unit :=
  if caught e then Normal tt else Raising e.

(** The value returned by the [else] clause. *)
Definition file_reference (file_id file_total_parts : Z) (file_name : string)
    (is_big : bool) (md5_sum : md5_var) : input_file :=
  if is_big then InputFileBig file_id file_total_parts file_name
  else InputFile file_id file_total_parts file_name md5_sum.

(** The state after the [finally] clause has run in [s]. *)
Definition after_shutdown (c : client) (n : nat) (extra : list event) (s : state) : state :=
  State (st_fp s)
        (Pool None 0 (handed (st_pool s))
              (worker_log (default (st_pool s) (dequeue c (st_pool s)))))
        (st_trace s ++ extra ++ replicate n (EvPut Sentinel) ++ [EvGather]).

(** What a call that is not a resumption has done when it ends: [rs] are
    the requests it enqueued, of the requests [all] of the whole upload. *)
Definition upload_post (c : client) (path : path_arg) (cb : option callback)
    (owned : bool) (fp : stream) (k : Z) (rs : list rpc) (out : outcome) (sf : state) : Prop :=
  let size := size_of fp in
  let n := workers_count size in
  let total := ceil_div size part_size in
  let rest := drop (Z.to_nat (part_size * k)) (s_data fp) in
  let all := requests (make_rpc (rnd_id c) (is_big_file size) total) k
                      (split_parts (Z.to_nat total) rest) in
  exists extra,
    st_trace sf =
      [EvAcquire] ++ open_events path ++ map EvSpawn (seq 0 n) ++
      flat_map (notify size) rs ++ extra ++
      replicate n (EvPut Sentinel) ++ [EvGather] ++
      (if owned then [EvClose] else []) ++ [EvRelease] /\
    invoked (st_pool sf) = rs /\ running (st_pool sf) = 0%nat /\
    (exists fp', st_fp sf = Some fp' /\ s_closed fp' = owned /\ s_data fp' = s_data fp) /\
    ((out = Returns (Some (file_reference (rnd_id c) total (name_of fp) (is_big_file size)
                             (MStr (join_hex (md5_digest rest))))) /\
      rs = all /\ extra = [])
     \/ (exists e f cur,
           cb = Some f /\ f cur size = Some e /\ rs `prefix_of` all /\ rs <> [] /\
           extra = log_of e /\ out = outcome_of (after_exception e))).

(** What a resumption has done when it ends. *)
Definition resume_post (c : client) (path : path_arg) (f k : Z)
    (owned : bool) (fp : stream) (out : outcome) (sf : state) : Prop :=
  let size := size_of fp in
  let n := workers_count size in
  let total := ceil_div size part_size in
  let chunk := take (Z.to_nat part_size) (drop (Z.to_nat (part_size * k)) (s_data fp)) in
  let r := make_rpc (py_or (Some f) (rnd_id c)) (is_big_file size) total k chunk in
  let sent := match chunk with [] => [] | _ => [r] end in
  st_trace sf =
    [EvAcquire] ++ open_events path ++ map EvSpawn (seq 0 n) ++
    map (fun r => EvPut (Rpc r)) sent ++
    replicate n (EvPut Sentinel) ++ [EvGather] ++
    (if owned then [EvClose] else []) ++ [EvRelease] /\
  invoked (st_pool sf) = sent /\ running (st_pool sf) = 0%nat /\
  (exists fp', st_fp sf = Some fp' /\ s_closed fp' = owned /\ s_data fp' = s_data fp) /\
  out = match chunk with
        | [] => Returns (Some (file_reference (py_or (Some f) (rnd_id c)) total (name_of fp)
                                 (is_big_file size) MNone))
        | _ => Returns None
        end.

(** A client for the examples: two small files, no failure of the session. *)
Definition demo_client : client :=
  Client None 777
         {[ "a.bin"%string := bytes_of_string "a"; "empty.bin"%string := [] ]}
         None (fun _ => false).

(** A stream of 10485761 zero bytes, one byte above the threshold. *)
Definition big_stream : stream :=
  Stream None (replicate (Z.to_nat 10485761) "000"%byte) 0 false.

(** A stream of 524289 bytes: one full part of zero bytes, then the byte
    [a] as the second part. *)
Definition two_part_stream : stream :=
  Stream None (replicate (Z.to_nat 524288) "000"%byte ++ bytes_of_string "a") 0 false.

(** The state in which [open_media_file] is entered. *)
Definition acquired : state := State None (Pool None 0 [] []) [EvAcquire].

(** The events of dispatching: requests put on the queue and progress
    notifications, in order. *)
Definition dispatch_events (t : list event) : list event :=
  omap (fun ev => match ev with
                  | EvPut (Rpc _) | EvProgress _ _ => Some ev
                  | _ => None
                  end) t.

(** A callback that never raises ([None] is the empty callback). *)
Definition never_raises (cb : option callback) : Prop :=
  forall f, cb = Some f -> forall current total, f current total = None.

(** A client whose session cannot be obtained. *)
Definition offline_client : client :=
  Client None 777 {[ "a.bin"%string := bytes_of_string "a" ]}
         (Some (OtherError "ConnectionError")) (fun _ => false).

(** The [name] of a file reference. *)
Definition reference_name (v : input_file) : string :=
  match v with
  | InputFileBig _ _ name => name
  | InputFile _ _ name _ => name
  end.

(** The [parts] of a file reference. *)
Definition reference_parts (v : input_file) : Z :=
  match v with
  | InputFileBig _ parts _ => parts
  | InputFile _ parts _ _ => parts
  end.

(** [getattr(fp, "name", "file.jpg")] by the source: a path is the name of
    the file it opens. *)
Definition source_name (path : path_arg) : string :=
  match path with
  | PStr p => p
  | PStream fp => default "file.jpg"%string (s_name fp)
  | _ => "file.jpg"%string
  end.

(** The events on the semaphore in a trace. *)
Definition semaphore_events (t : list event) : list event :=
  omap (fun ev => match ev with
                  | EvAcquire | EvRelease => Some ev
                  | _ => None
                  end) t.

(** A lowercase hexadecimal digit. *)
Definition is_lower_hex (a : ascii) : bool :=
  existsb (Ascii.eqb a) (list_ascii_of_string "0123456789abcdef").

(** What a request of a call must be, for the file [data]: it carries the
    identifier of the upload, [file_total_parts] iff the file is big, and
    the bytes of the file that start at the offset of its part. *)
Definition request_ok (id total : Z) (big : bool) (data : list byte) (r : rpc) : Prop :=
  rpc_file_id r = id /\
  rpc_total_parts r = (if big then Some total else None) /\
  rpc_bytes r <> [] /\
  rpc_bytes r =
    take (Z.to_nat part_size) (drop (Z.to_nat (part_size * rpc_file_part r)) data).

(** Two calls are in step when their states agree on everything the
    coroutine can observe (the stream, the queue, the running workers, the
    requests invoked, the trace), the log of each pool holding the requests
    whose [invoke] raised for its own client. *)
Definition in_step (c c' : client) (s s' : state) : Prop :=
  st_fp s = st_fp s' /\ st_trace s = st_trace s' /\
  slot (st_pool s) = slot (st_pool s') /\
  running (st_pool s) = running (st_pool s') /\
  invoked (st_pool s) = invoked (st_pool s') /\
  worker_log (st_pool s) = List.filter (invoke_fails c) (invoked (st_pool s)) /\
  worker_log (st_pool s') = List.filter (invoke_fails c') (invoked (st_pool s')).

(** Two computations that complete alike and stay in step. *)
Definition related {A} (c c' : client) (m m' : M A) : Prop :=
  forall s s', in_step c c' s s' ->
    (m s).1 = (m' s').1 /\ in_step c c' (m s).2 (m' s').2.

(** * Properties *)

Arguments part_size : simpl never.

(** ** hashlib.md5 on test vectors *)

Example md5_empty : join_hex (md5_digest []) = "d41d8cd98f00b204e9800998ecf8427e"%string.
Proof. vm_compute. reflexivity. Qed.

Example md5_a :
  join_hex (md5_digest (bytes_of_string "a")) = "0cc175b9c0f1b6a831c399e269772661"%string.
Proof. vm_compute. reflexivity. Qed.

Example md5_abc :
  join_hex (md5_digest (bytes_of_string "abc")) = "900150983cd24fb0d6963f7d28e17f72"%string.
Proof. vm_compute. reflexivity. Qed.

Example md5_two_blocks :
  join_hex (md5_digest (replicate 70 "a"%byte)) = "0f5c6c4e740bfcc08c3c26ccb2673d46"%string.
Proof. vm_compute. reflexivity. Qed.

Lemma part_size_val : part_size = 524288.
Proof. reflexivity. Qed.

Lemma part_size_pos : 0 < part_size.
Proof. rewrite part_size_val. lia. Qed.

(** [ceil_div] is the ceiling of the quotient. *)
Lemma ceil_div_spec (a b : Z) :
  0 < b -> (ceil_div a b - 1) * b < a <= ceil_div a b * b.
Proof.
  intros Hb. unfold ceil_div.
  pose proof (Z.div_mod a b ltac:(lia)) as Hdm.
  pose proof (Z.mod_pos_bound a b Hb) as Hm.
  destruct (Z.eqb_spec (a mod b) 0); nia.
Qed.

Lemma ceil_div_nonneg (a b : Z) : 0 < b -> 0 <= a -> 0 <= ceil_div a b.
Proof. intros Hb Ha. pose proof (ceil_div_spec a b Hb). nia. Qed.

(** ** The hexadecimal rendering *)

Lemma zfill_hex_byte (b : byte) :
  zfill 2 (py_hex_tail (byte_val b)) =
  String (hex_digit (byte_val b / 16)) (String (hex_digit (byte_val b mod 16)) EmptyString).
Proof. destruct b; reflexivity. Qed.

Lemma join_hex_hexdigest (d : list byte) : join_hex d = hexdigest d.
Proof.
  induction d as [|b d IH]; [reflexivity|].
  unfold join_hex, hexdigest in *. simpl fold_right.
  rewrite zfill_hex_byte, IH. reflexivity.
Qed.

(** ** The queue and the worker pool *)

Lemma queue_put_rpc c r n s :
  pool_ok n (st_pool s) ->
  exists p',
    queue_put c (Rpc r) s = (Normal tt, State (st_fp s) p' (st_trace s ++ [EvPut (Rpc r)])) /\
    pool_ok n p' /\ handed p' = handed (st_pool s) ++ [r].
Proof.
  intros (Hrun & Hn & Hslot). destruct s as [fp [sl rn inv wl] tr]; simpl in *.
  unfold queue_put, bind, emit, dequeue; simpl.
  destruct sl as [[r0|]|]; [| congruence |].
  - destruct rn as [|rn]; [lia|]. simpl.
    eexists; split; [reflexivity|]. unfold pool_ok, handed; simpl.
    repeat split; [done | lia | done].
  - eexists; split; [reflexivity|]. unfold pool_ok, handed; simpl.
    rewrite app_nil_r. repeat split; [done | lia | done].
Qed.

(** After the first sentinel is staged, the remaining sentinels and the
    final wait retire the workers one by one. *)
Lemma drain_sentinels c (l : list nat) : forall s,
  slot (st_pool s) = Some Sentinel ->
  running (st_pool s) = S (length l) ->
  (for_each l (fun _ => queue_put c Sentinel) ;; gather c) s =
  (Normal tt,
   State (st_fp s) (Pool None 0 (invoked (st_pool s)) (worker_log (st_pool s)))
         (st_trace s ++ replicate (length l) (EvPut Sentinel) ++ [EvGather])).
Proof.
  induction l as [|w l IH]; intros [fp [sl rn inv wl] tr] Hsl Hrn; simpl in *; subst.
  - reflexivity.
  - unfold bind at 1. unfold bind at 1.
    unfold queue_put at 1, bind at 1, emit at 1, dequeue; simpl.
    specialize (IH (State fp (Pool (Some Sentinel) (S (length l)) inv wl)
                          (tr ++ [EvPut Sentinel])) eq_refl eq_refl).
    unfold bind at 1 in IH. simpl in IH.
    destruct (for_each l (fun _ => queue_put c Sentinel) _) as [[ | | | | ] s1] eqn:E;
      rewrite IH; rewrite <- ?app_assoc; reflexivity.
Qed.

(** The [finally] clause stops every worker and returns. *)
Lemma shutdown_ok c (workers : list nat) s :
  pool_ok (length workers) (st_pool s) ->
  shutdown c workers s =
  (Normal tt,
   State (st_fp s) (Pool None 0 (handed (st_pool s)) (worker_log
            (default (st_pool s) (dequeue c (st_pool s)))))
         (st_trace s ++ replicate (length workers) (EvPut Sentinel) ++ [EvGather])).
Proof.
  intros (Hrun & Hn & Hslot). unfold shutdown.
  destruct workers as [|w l]; [simpl in Hn; lia|].
  destruct s as [fp [sl rn inv wl] tr]; simpl in *; subst.
  pose proof (drain_sentinels c l) as D.
  destruct sl as [[r0|]|]; [| congruence |].
  - specialize (D (State fp (Pool (Some Sentinel) (S (length l)) (inv ++ [r0])
                       (if invoke_fails c r0 then wl ++ [r0] else wl))
                       (tr ++ [EvPut Sentinel])) eq_refl eq_refl).
    unfold bind at 1. unfold bind at 1.
    unfold queue_put at 1, bind at 1, emit at 1, dequeue; simpl.
    unfold bind at 1 in D. simpl in D.
    destruct (for_each l (fun _ => queue_put c Sentinel) _) as [[ | | | | ] s1] eqn:E;
      rewrite D; unfold handed; simpl; rewrite <- ?app_assoc; reflexivity.
  - specialize (D (State fp (Pool (Some Sentinel) (S (length l)) inv wl)
                       (tr ++ [EvPut Sentinel])) eq_refl eq_refl).
    unfold bind at 1. unfold bind at 1.
    unfold queue_put at 1, bind at 1, emit at 1, dequeue; simpl.
    unfold bind at 1 in D. simpl in D.
    destruct (for_each l (fun _ => queue_put c Sentinel) _) as [[ | | | | ] s1] eqn:E;
      rewrite D; unfold handed; simpl; rewrite <- ?app_assoc, ?app_nil_r; reflexivity.
Qed.

Lemma create_tasks_ok (n : nat) : forall a s,
  create_tasks (seq a n) s =
  (Normal (seq a n),
   State (st_fp s)
         (Pool (slot (st_pool s)) (running (st_pool s) + n) (invoked (st_pool s))
               (worker_log (st_pool s)))
         (st_trace s ++ map EvSpawn (seq a n))).
Proof.
  induction n as [|n IH]; intros a [fp [sl rn inv wl] tr]; simpl.
  - unfold ret. rewrite Nat.add_0_r, app_nil_r. reflexivity.
  - unfold bind at 1, create_task; simpl. unfold bind at 1. rewrite IH; simpl.
    unfold ret. rewrite <- app_assoc. simpl. repeat f_equal. lia.
Qed.

(** ** Stepping through the monad *)

Lemma bind_normal {A B} (m : M A) (k : A -> M B) s a s' :
  m s = (Normal a, s') -> bind m k s = k a s'.
Proof. intros H. unfold bind. rewrite H. reflexivity. Qed.

Lemma fp_read_ok n s fp :
  st_fp s = Some fp -> s_closed fp = false ->
  fp_read n s =
  (Normal (take (Z.to_nat n) (drop (Z.to_nat (s_pos fp)) (s_data fp))),
   State (Some (Stream (s_name fp) (s_data fp)
                  (s_pos fp + Z.of_nat (length (take (Z.to_nat n)
                                   (drop (Z.to_nat (s_pos fp)) (s_data fp)))))
                  false))
         (st_pool s) (st_trace s)).
Proof.
  intros Hfp Hcl. unfold fp_read, with_fp. rewrite Hfp, Hcl. reflexivity.
Qed.

Lemma fp_seek_ok off s fp :
  st_fp s = Some fp -> s_closed fp = false -> 0 <= off ->
  fp_seek off s =
  (Normal tt, State (Some (Stream (s_name fp) (s_data fp) off false)) (st_pool s) (st_trace s)).
Proof.
  intros Hfp Hcl Hoff. unfold fp_seek, with_fp. rewrite Hfp, Hcl.
  destruct (Z.ltb_spec off 0); [lia|reflexivity].
Qed.

Lemma drop_length_take {A} (n : nat) (l : list A) :
  drop (length (take n l)) l = drop n l.
Proof.
  rewrite length_take. destruct (Nat.le_gt_cases n (length l)).
  - rewrite Nat.min_l by lia. reflexivity.
  - rewrite Nat.min_r by lia. rewrite !drop_ge by lia. reflexivity.
Qed.

Lemma take_nil_inv {A} (n : nat) (l : list A) :
  (0 < n)%nat -> take n l = [] -> l = [].
Proof. destruct n, l; simpl; intros; try lia; congruence. Qed.

Lemma split_parts_nil fuel : split_parts fuel [] = [].
Proof. destruct fuel; reflexivity. Qed.

Section Producer.

Variable c : client.
Variables (file_size : Z) (file_name : string) (progress : option callback).
Variables (file_id : Z) (is_big : bool) (file_total_parts : Z).

Local Abbreviation mk := (make_rpc file_id is_big file_total_parts).
Local Abbreviation loop :=
  (read_loop c file_size progress file_id is_big false file_total_parts).

Lemma read_loop_S fuel k m :
  loop (S fuel) k m =
  (chunk <- fp_read part_size ;;
   match chunk with
   | [] => if negb is_big && negb false then md5_join m else ret m
   | _ :: _ =>
       queue_put c (Rpc (mk k chunk)) ;;
       m' <- (if negb (is_big || false) then md5_update m chunk else ret m) ;;
       make_progress_callback progress file_size
                              (Z.min ((k + 1) * part_size) file_size) ;;
       loop fuel (k + 1) m'
   end).
Proof. reflexivity. Qed.

Lemma rpc_file_part_make k chunk : rpc_file_part (mk k chunk) = k.
Proof. unfold make_rpc. destruct is_big; reflexivity. Qed.

(** The loop of a call that is not a resumption: it enqueues the parts of
    the remaining bytes in order, each followed by its notification, until
    the bytes are exhausted or the callback raises. *)
Lemma read_loop_full (f : nat) : forall k acc s fp n,
  st_fp s = Some fp -> s_closed fp = false -> 0 <= s_pos fp ->
  Z.of_nat (length (drop (Z.to_nat (s_pos fp)) (s_data fp))) <= Z.of_nat f * part_size ->
  pool_ok n (st_pool s) ->
  let rest := drop (Z.to_nat (s_pos fp)) (s_data fp) in
  let all := requests mk k (split_parts f rest) in
  exists rs res s' fp',
    loop (S f) k (if is_big then MNone else MHash acc) s = (res, s') /\
    loop_post file_size progress is_big s fp n acc rest all rs res s' fp'.
Proof.
  induction f as [|f IH]; intros k acc s fp n Hfp Hcl Hpos Hfuel Hpool rest all;
    rewrite read_loop_S;
    (erewrite bind_normal by (apply fp_read_ok; eassumption));
    fold rest;
    destruct (take (Z.to_nat part_size) rest) as [|b chunk'] eqn:Hchunk.
  1, 3: (* end of file *)
    apply take_nil_inv in Hchunk; [|pose proof part_size_pos; lia];
    exists [], (Normal (if is_big then MNone else MStr (join_hex (md5_digest (acc ++ rest))))),
      (State (Some (Stream (s_name fp) (s_data fp) (s_pos fp + 0) false))
             (st_pool s) (st_trace s)),
      (Stream (s_name fp) (s_data fp) (s_pos fp + 0) false);
    subst all; rewrite Hchunk, split_parts_nil; simpl; rewrite !app_nil_r;
    (split; [destruct is_big; reflexivity|]);
    unfold loop_post; simpl; rewrite !app_nil_r;
    split_and!; try done; left; split; reflexivity.
  - (* no fuel was needed: nothing is left to read *)
    assert (rest = []) as Hrest by (apply length_zero_iff_nil; subst rest; lia).
    rewrite Hrest, take_nil in Hchunk. discriminate.
  - set (chunk := b :: chunk') in *.
    set (s1 := State _ _ _).
    destruct (queue_put_rpc c (mk k chunk) n s1 Hpool) as (p' & Hput & Hok' & Hhand).
    erewrite bind_normal by exact Hput.
    assert (Hmd5 : forall s0,
               (if negb (is_big || false)
                then md5_update (if is_big then MNone else MHash acc) chunk
                else ret (if is_big then MNone else MHash acc)) s0 =
               (Normal (if is_big then MNone else MHash (acc ++ chunk)), s0))
      by (intros; destruct is_big; reflexivity).
    erewrite bind_normal by apply Hmd5.
    assert (Hrest2 :
              drop (Z.to_nat (s_pos fp + Z.of_nat (length chunk))) (s_data fp) =
              drop (Z.to_nat part_size) rest).
    { rewrite <- Hchunk. rewrite Z2Nat.inj_add, Nat2Z.id by lia.
      rewrite <- drop_drop. fold rest. apply drop_length_take. }
    assert (Hlen2 : Z.of_nat (length (drop (Z.to_nat part_size) rest))
                    <= Z.of_nat f * part_size).
    { rewrite length_drop. pose proof part_size_pos.
      assert (length chunk = Nat.min (Z.to_nat part_size) (length rest)) as Hl
        by (rewrite <- Hchunk; apply length_take).
      subst chunk. simpl length in Hl. fold rest in Hfuel. lia. }
    assert (Hall : all = mk k chunk :: requests mk (k + 1)
                           (split_parts f (drop (Z.to_nat part_size) rest))).
    { subst all. simpl split_parts. rewrite Hchunk. reflexivity. }
    assert (Hacc : (acc ++ chunk) ++ drop (Z.to_nat part_size) rest = acc ++ rest).
    { rewrite <- Hchunk, <- app_assoc, take_drop. reflexivity. }
    set (cur := Z.min ((k + 1) * part_size) file_size).
    set (fp2 := Stream (s_name fp) (s_data fp) (s_pos fp + Z.of_nat (length chunk)) false).
    set (s2 := State (Some fp2) p' ((st_trace s ++ [EvPut (Rpc (mk k chunk))])
                                      ++ [EvProgress cur file_size])).
    assert (Hnot : notify file_size (mk k chunk) = [EvPut (Rpc (mk k chunk)); EvProgress cur file_size])
      by (unfold notify; rewrite rpc_file_part_make; reflexivity).
    assert (Hraise : forall e cb, progress = Some cb -> cb cur file_size = Some e ->
              exists rs res s' fp',
                (Raising e, s2) = (res, s') /\
                loop_post file_size progress is_big s fp n acc rest all rs res s' fp').
    { intros e cb Hp He.
      exists [mk k chunk], (Raising e), s2, fp2.
      split; [reflexivity|]. unfold loop_post.
      change (flat_map (notify file_size) [mk k chunk]) with (notify file_size (mk k chunk) ++ []).
      rewrite app_nil_r, Hnot. simpl. rewrite <- app_assoc.
      split_and!; try done.
      right. exists e, cb, cur. split_and!; try done.
      rewrite Hall. eexists. reflexivity. }
    assert (Hcont :
              exists rs res s' fp',
                loop (S f) (k + 1) (if is_big then MNone else MHash (acc ++ chunk)) s2 = (res, s') /\
                loop_post file_size progress is_big s fp n acc rest all rs res s' fp').
    { destruct (IH (k + 1) (acc ++ chunk) s2 fp2 n eq_refl eq_refl) as
          (rs & res & s' & fp' & Hrun & Htr & Hpl & Hhd & Hfp' & Hcl' & Hdat & Hnm & Hres).
      - simpl. lia.
      - unfold fp2. cbn [s_pos s_data]. rewrite Hrest2. exact Hlen2.
      - exact Hok'.
      - exists (mk k chunk :: rs), res, s', fp'. split; [exact Hrun|].
        unfold loop_post.
        change (flat_map (notify file_size) (mk k chunk :: rs))
          with (notify file_size (mk k chunk) ++ flat_map (notify file_size) rs).
        rewrite Hnot. unfold fp2, s2 in *. cbn [s_pos s_data s_name st_trace st_pool] in *.
        rewrite Hrest2, Hacc in Hres.
        split_and!; try done.
        + rewrite Htr, <- !app_assoc. reflexivity.
        + rewrite Hhd, Hhand, <- app_assoc. reflexivity.
        + destruct Hres as [[-> ->]|(e & cb & cur' & -> & Hp & He & Hpre & Hne)].
          * left. split; [reflexivity|]. rewrite Hall. reflexivity.
          * right. exists e, cb, cur'. split_and!; try done.
            rewrite Hall. apply prefix_cons. exact Hpre. }
    unfold bind at 1, make_progress_callback, bind at 1, emit. cbn [st_fp st_pool st_trace].
    fold s2. unfold s1; cbn [st_fp st_trace]. fold fp2. fold s2.
    destruct progress as [cb|]; [destruct (cb cur file_size) as [e|] eqn:He|].
    + apply (Hraise e cb eq_refl He).
    + exact Hcont.
    + exact Hcont.
Qed.

End Producer.

(** ** Entering and leaving the [with] blocks *)

Lemma enter_media_file_resolved c path owned fp s :
  resolve c path = Some (owned, fp) ->
  enter_media_file c path s =
  ((if size_of fp =? 0 then Raising (ValueError EmptyFile)
    else if size_of fp >? size_limit c
         then Raising (ValueError (TooBig (file_size_limit_mib (me c))))
         else Normal (owned, size_of fp, name_of fp)),
   State (Some fp) (st_pool s) (st_trace s ++ open_events path)).
Proof.
  intros Hres. unfold enter_media_file, size_limit.
  destruct path as [|p|fp0|]; simpl in Hres; try discriminate.
  - destruct (fs c !! p) as [data|] eqn:Hp; simpl in Hres; [|discriminate].
    injection Hres as <- <-.
    unfold bind at 1. unfold bind at 1. unfold py_open. rewrite Hp. cbn [ret].
    unfold bind, fp_name, fp_seek_end, fp_tell, fp_seek, with_fp, size_of, name_of; simpl.
    destruct (Z.of_nat (length data) =? 0); [reflexivity|].
    destruct (Z.of_nat (length data) >? _); reflexivity.
  - destruct (s_closed fp0) eqn:Hcl; [discriminate|]. injection Hres as <- <-.
    unfold bind, use_stream, ret, fp_name, fp_seek_end, fp_tell, fp_seek, with_fp,
      size_of, name_of; simpl. rewrite Hcl. simpl. rewrite app_nil_r.
    destruct (Z.of_nat (length (s_data fp0)) =? 0); [reflexivity|].
    destruct (Z.of_nat (length (s_data fp0)) >? _); reflexivity.
Qed.

Lemma enter_media_file_unresolved c path s :
  resolve c path = None ->
  enter_media_file c path s =
  match path with
  | PStr _ => (Raising OSError, s)
  | PStream fp => (Raising (ValueError ClosedFile), State (Some fp) (st_pool s) (st_trace s))
  | _ => (Raising (ValueError InvalidFile), s)
  end.
Proof.
  intros Hres. unfold enter_media_file.
  destruct path as [|p|fp0|]; simpl in Hres; try reflexivity.
  - destruct (fs c !! p) as [data|] eqn:Hp; simpl in Hres; [discriminate|].
    unfold bind, py_open. rewrite Hp. reflexivity.
  - destruct (s_closed fp0) eqn:Hcl; [|discriminate].
    unfold bind, use_stream, ret, fp_name, fp_seek_end, with_fp; simpl.
    rewrite Hcl. reflexivity.
Qed.

Lemma resolve_not_none c path owned fp :
  resolve c path = Some (owned, fp) -> path <> PNone.
Proof. intros H ->. discriminate. Qed.

Lemma resolve_open c path owned fp :
  resolve c path = Some (owned, fp) -> s_closed fp = false /\ s_pos fp = 0.
Proof.
  destruct path as [|p|fp0|]; simpl; try discriminate.
  - destruct (fs c !! p); simpl; [|discriminate]. intros [= <- <-]. done.
  - destruct (s_closed fp0); [discriminate|]. intros [= <- <-]. done.
Qed.

(** A call on a valid source runs the body of the [with] block on the
    resolved stream, and leaves through both [finally] clauses. *)
Lemma save_file_valid c path fid k cb owned fp :
  valid_source c path owned fp ->
  save_file c path fid k cb initial =
  try_finally
    (try_finally (upload c fid k cb (size_of fp) (name_of fp))
                 (if owned then fp_close_ else ret tt))
    (emit EvRelease)
    (State (Some fp) (Pool None 0 [] []) ([EvAcquire] ++ open_events path)).
Proof.
  intros [Hres [Hlo Hhi]]. unfold save_file, with_semaphore.
  unfold bind at 1. unfold emit at 1. cbn [initial st_fp st_pool st_trace app].
  assert (match path with
          | PNone => return_ None
          | _ => open_media_file c path (upload c fid k cb)
          end = open_media_file c path (upload c fid k cb)) as ->
    by (destruct path; [discriminate|reflexivity..]).
  unfold try_finally at 1. unfold open_media_file. unfold bind at 1.
  rewrite (enter_media_file_resolved _ _ _ _ _ Hres).
  destruct (Z.eqb_spec (size_of fp) 0); [lia|].
  destruct (Z.gtb_spec (size_of fp) (size_limit c)); [lia|].
  reflexivity.
Qed.

Lemma upload_transfer c fid k cb size name s :
  session_error c = None ->
  upload c fid k cb size name s =
  transfer c size name cb (py_or fid (rnd_id c)) (is_big_file size) (is_not_none fid)
           (ceil_div size part_size) (seq 0 (workers_count size)) k
           (md5_initial (is_big_file size) (is_not_none fid))
           (State (st_fp s)
                  (Pool (slot (st_pool s)) (running (st_pool s) + workers_count size)
                        (invoked (st_pool s)) (worker_log (st_pool s)))
                  (st_trace s ++ map EvSpawn (seq 0 (workers_count size)))).
Proof.
  intros Hsess. unfold upload, get_media_session. rewrite Hsess.
  unfold bind at 1, ret at 1. unfold bind at 1. rewrite create_tasks_ok. reflexivity.
Qed.

(** The outcome of a call, from the completion of its [try] statement. *)
Lemma run_of_transfer c path fid k cb owned fp res s' fp' :
  valid_source c path owned fp ->
  session_error c = None ->
  transfer c (size_of fp) (name_of fp) cb (py_or fid (rnd_id c))
           (is_big_file (size_of fp)) (is_not_none fid)
           (ceil_div (size_of fp) part_size) (seq 0 (workers_count (size_of fp))) k
           (md5_initial (is_big_file (size_of fp)) (is_not_none fid))
           (entry_state c path fp) = (res, s') ->
  st_fp s' = Some fp' ->
  res <> Blocked -> res <> NoFuel ->
  run c path fid k cb = (outcome_of res, leave owned s').
Proof.
  intros Hv Hsess Htr Hfp' Hnb Hnf. unfold run, call.
  rewrite (save_file_valid _ _ _ _ _ _ _ Hv).
  unfold try_finally at 1. unfold try_finally at 1.
  rewrite upload_transfer by exact Hsess. cbn [st_fp st_pool st_trace slot running invoked worker_log].
  unfold entry_state in Htr. rewrite !app_assoc in Htr. simpl Nat.add.
  rewrite Htr.
  unfold leave. destruct s' as [fpo pl tr]. simpl in Hfp'. subst fpo.
  destruct res, owned; try congruence; unfold fp_close_, ret, emit; simpl;
    rewrite <- ?app_assoc, ?app_nil_r; reflexivity.
Qed.

(** ** The [try] statement *)

Section TryStatement.

Variable c : client.
Variables (file_size : Z) (file_name : string) (progress : option callback).
Variables (file_id : Z) (is_big is_missing_part : bool) (file_total_parts : Z).
Variable workers : list nat.

Local Abbreviation prod :=
  (producer c file_size progress file_id is_big is_missing_part file_total_parts).
Local Abbreviation trans :=
  (transfer c file_size file_name progress file_id is_big is_missing_part
            file_total_parts workers).

Lemma transfer_raising k m s e s1 :
  prod k m s = (Raising e, s1) ->
  pool_ok (length workers) (st_pool s1) ->
  trans k m s = (after_exception e, after_shutdown c (length workers) (log_of e) s1).
Proof.
  intros Hp Hok. unfold transfer, try_finally, try_except_else.
  rewrite Hp.
  unfold after_exception, log_of, after_shutdown, caught.
  destruct e; simpl; unfold raise, log_exception, emit;
    rewrite shutdown_ok by exact Hok; simpl; rewrite <- ?app_assoc; reflexivity.
Qed.

Lemma transfer_normal k m s m' s1 :
  prod k m s = (Normal m', s1) ->
  pool_ok (length workers) (st_pool s1) ->
  trans k m s =
  (Returning (Some (file_reference file_id file_total_parts file_name is_big m')),
   after_shutdown c (length workers) [] s1).
Proof.
  intros Hp Hok. unfold transfer, try_finally, try_except_else.
  rewrite Hp. unfold result, file_reference, after_shutdown.
  destruct is_big; unfold return_; rewrite shutdown_ok by exact Hok; reflexivity.
Qed.

Lemma transfer_returning k m s v s1 :
  prod k m s = (Returning v, s1) ->
  pool_ok (length workers) (st_pool s1) ->
  trans k m s = (Returning v, after_shutdown c (length workers) [] s1).
Proof.
  intros Hp Hok. unfold transfer, try_finally, try_except_else.
  rewrite Hp. rewrite shutdown_ok by exact Hok. reflexivity.
Qed.

(** A seek to a negative offset fails before anything is read. *)
Lemma producer_negative k m s fp :
  st_fp s = Some fp -> s_closed fp = false -> k < 0 ->
  prod k m s = (Raising OSError, s).
Proof.
  intros Hfp Hcl Hk. destruct s as [fpo pl tr]; simpl in Hfp; subst fpo.
  unfold producer, bind, fp_seek, with_fp. cbn [st_fp st_pool st_trace].
  rewrite Hcl. pose proof part_size_pos.
  destruct (Z.ltb_spec (part_size * k) 0); [reflexivity|nia].
Qed.

End TryStatement.

Section Resumption.

Variable c : client.
Variables (file_size : Z) (file_name : string) (progress : option callback).
Variables (file_id : Z) (is_big : bool) (file_total_parts : Z).

(** The producer of a resumption reads one chunk; it enqueues it and
    returns, or finds the end of the file. *)
Lemma producer_resume k m s fp n :
  st_fp s = Some fp -> s_closed fp = false -> 0 <= k ->
  pool_ok n (st_pool s) ->
  let chunk := take (Z.to_nat part_size) (drop (Z.to_nat (part_size * k)) (s_data fp)) in
  let r := make_rpc file_id is_big file_total_parts k chunk in
  let fp' := Stream (s_name fp) (s_data fp) (part_size * k + Z.of_nat (length chunk)) false in
  exists p',
    producer c file_size progress file_id is_big true file_total_parts k m s =
    (match chunk with [] => Normal m | _ => Returning None end,
     State (Some fp') p'
           (st_trace s ++ match chunk with [] => [] | _ => [EvPut (Rpc r)] end)) /\
    pool_ok n p' /\
    handed p' = handed (st_pool s) ++ match chunk with [] => [] | _ => [r] end.
Proof.
  intros Hfp Hcl Hk Hok chunk r fp'. unfold producer.
  pose proof part_size_pos.
  erewrite bind_normal by (apply fp_seek_ok; [eassumption..|nia]).
  cbn [read_loop].
  erewrite bind_normal by (apply fp_read_ok; reflexivity).
  cbn [s_pos s_data s_name st_pool st_trace]. fold chunk. fold fp'.
  destruct chunk as [|b chunk'] eqn:Hchunk.
  - exists (st_pool s). rewrite !app_nil_r. rewrite andb_false_r.
    split; [reflexivity|]. split; [exact Hok|reflexivity].
  - set (s1 := State _ _ _).
    destruct (queue_put_rpc c r n s1 Hok) as (p' & Hput & Hok' & Hhand).
    exists p'. erewrite bind_normal by exact Hput. split; [reflexivity|].
    split; [exact Hok'|exact Hhand].
Qed.

End Resumption.

Section FullUpload.

Variable c : client.
Variables (file_size : Z) (file_name : string) (progress : option callback).
Variables (file_id : Z) (is_big : bool) (file_total_parts : Z).

(** The producer of a call that is not a resumption, from part [k]. *)
Lemma producer_full k acc s fp n :
  st_fp s = Some fp -> s_closed fp = false -> 0 <= k ->
  pool_ok n (st_pool s) ->
  0 <= file_total_parts ->
  Z.of_nat (length (s_data fp)) <= file_total_parts * part_size ->
  let rest := drop (Z.to_nat (part_size * k)) (s_data fp) in
  let all := requests (make_rpc file_id is_big file_total_parts) k
                      (split_parts (Z.to_nat file_total_parts) rest) in
  exists rs res s' fp',
    producer c file_size progress file_id is_big false file_total_parts k
             (if is_big then MNone else MHash acc) s = (res, s') /\
    loop_post file_size progress is_big s fp n acc rest all rs res s' fp'.
Proof.
  intros Hfp Hcl Hk Hok Htot Hlen rest all. unfold producer.
  pose proof part_size_pos.
  erewrite bind_normal by (apply fp_seek_ok; [eassumption..|nia]).
  set (fp0 := Stream (s_name fp) (s_data fp) (part_size * k) false).
  set (s0 := State (Some fp0) (st_pool s) (st_trace s)).
  destruct (read_loop_full c file_size progress file_id is_big file_total_parts
              (Z.to_nat file_total_parts) k acc s0 fp0 n eq_refl eq_refl)
    as (rs & res & s' & fp' & Hrun & Hpost).
  - simpl. nia.
  - simpl. rewrite length_drop. rewrite Z2Nat.id by lia. lia.
  - exact Hok.
  - exists rs, res, s', fp'. split; [exact Hrun|]. exact Hpost.
Qed.

End FullUpload.

Lemma workers_count_pos size : (0 < workers_count size)%nat.
Proof. unfold workers_count. destruct (is_big_file size); lia. Qed.

Lemma entry_pool_ok c path fp :
  pool_ok (length (seq 0 (workers_count (size_of fp)))) (st_pool (entry_state c path fp)).
Proof.
  rewrite length_seq. unfold pool_ok, entry_state; simpl.
  pose proof (workers_count_pos (size_of fp)). done.
Qed.

Lemma md5_initial_full is_big :
  md5_initial is_big false = if is_big then MNone else MHash [].
Proof. destruct is_big; reflexivity. Qed.

Lemma size_of_total_parts fp :
  0 <= ceil_div (size_of fp) part_size /\
  Z.of_nat (length (s_data fp)) <= ceil_div (size_of fp) part_size * part_size.
Proof.
  pose proof part_size_pos as Hp.
  pose proof (ceil_div_spec (size_of fp) part_size Hp).
  assert (0 <= size_of fp) by (unfold size_of; lia).
  split; [apply ceil_div_nonneg; lia|]. unfold size_of in *. lia.
Qed.

(** A call without [file_id], on a valid source, from a part [k >= 0]. *)
Lemma full_upload_run c path k cb owned fp :
  valid_source c path owned fp ->
  session_error c = None ->
  0 <= k ->
  exists rs out sf,
    run c path None k cb = (out, sf) /\ upload_post c path cb owned fp k rs out sf.
Proof.
  intros Hv Hsess Hk.
  destruct (resolve_open _ _ _ _ (proj1 Hv)) as [Hcl Hpos0].
  destruct (size_of_total_parts fp) as [Htot Hlen].
  destruct (producer_full c (size_of fp) cb (rnd_id c) (is_big_file (size_of fp))
              (ceil_div (size_of fp) part_size) k [] (entry_state c path fp) fp
              _ eq_refl Hcl Hk (entry_pool_ok c path fp) Htot Hlen)
    as (rs & res & s1 & fp1 & Hprod & Htr & Hok & Hhand & Hfp1 & Hcl1 & Hdat & Hnm & Hres).
  rewrite app_nil_l in Hres.
  assert (Hfile : forall m, file_reference (rnd_id c) (ceil_div (size_of fp) part_size)
                   (name_of fp) (is_big_file (size_of fp))
                   (if is_big_file (size_of fp) then MNone else m) =
                 file_reference (rnd_id c) (ceil_div (size_of fp) part_size)
                   (name_of fp) (is_big_file (size_of fp)) m)
    by (intros; unfold file_reference; destruct (is_big_file (size_of fp)); reflexivity).
  destruct Hres as [[-> ->]|(e & f & cur & -> & Hcb & He & Hpre & Hne)].
  - pose proof (transfer_normal c (size_of fp) (name_of fp) cb (rnd_id c)
                  (is_big_file (size_of fp)) false (ceil_div (size_of fp) part_size)
                  (seq 0 (workers_count (size_of fp))) k _ _ _ _ Hprod Hok) as Ht.
    rewrite <- md5_initial_full in Ht.
    eexists _, _, _. split.
    + eapply (run_of_transfer c path None k cb owned fp); try eassumption; try done.
    + unfold upload_post. exists []. rewrite length_seq. simpl outcome_of. rewrite Hfile.
      unfold leave, after_shutdown. cbn [st_trace st_pool st_fp invoked running].
      rewrite Htr, Hhand, Hfp1. unfold entry_state. cbn [st_trace st_pool handed invoked slot].
      split_and!.
      * rewrite <- !app_assoc. reflexivity.
      * reflexivity.
      * reflexivity.
      * destruct owned; eexists; (split; [reflexivity|]); simpl; split; congruence.
      * left. done.
  - pose proof (transfer_raising c (size_of fp) (name_of fp) cb (rnd_id c)
                  (is_big_file (size_of fp)) false (ceil_div (size_of fp) part_size)
                  (seq 0 (workers_count (size_of fp))) k _ _ _ _ Hprod Hok) as Ht.
    rewrite <- md5_initial_full in Ht.
    eexists _, _, _. split.
    + eapply (run_of_transfer c path None k cb owned fp); try eassumption;
        unfold after_exception; destruct (caught e); done.
    + unfold upload_post. exists (log_of e). rewrite length_seq.
      unfold leave, after_shutdown. cbn [st_trace st_pool st_fp invoked running].
      rewrite Htr, Hhand, Hfp1. unfold entry_state. cbn [st_trace st_pool handed invoked slot].
      split_and!.
      * rewrite <- !app_assoc. reflexivity.
      * reflexivity.
      * reflexivity.
      * destruct owned; eexists; (split; [reflexivity|]); simpl; split; congruence.
      * right. exists e, f, cur. done.
Qed.

Lemma md5_initial_resume is_big : md5_initial is_big true = MNone.
Proof. destruct is_big; reflexivity. Qed.

(** A call with a [file_id], on a valid source, for a part [k >= 0]. *)
Lemma resume_run c path f k cb owned fp :
  valid_source c path owned fp ->
  session_error c = None ->
  0 <= k ->
  exists out sf,
    run c path (Some f) k cb = (out, sf) /\ resume_post c path f k owned fp out sf.
Proof.
  intros Hv Hsess Hk.
  destruct (resolve_open _ _ _ _ (proj1 Hv)) as [Hcl Hpos0].
  destruct (producer_resume c (size_of fp) cb (py_or (Some f) (rnd_id c))
              (is_big_file (size_of fp)) (ceil_div (size_of fp) part_size) k
              (md5_initial (is_big_file (size_of fp)) true)
              (entry_state c path fp) fp _ eq_refl Hcl Hk (entry_pool_ok c path fp))
    as (p' & Hprod & Hok & Hhand).
  cbv zeta in Hprod.
  set (chunk := take (Z.to_nat part_size) (drop (Z.to_nat (part_size * k)) (s_data fp))) in *.
  destruct chunk as [|b chunk'] eqn:Hchunk.
  - pose proof (transfer_normal c (size_of fp) (name_of fp) cb (py_or (Some f) (rnd_id c))
                  (is_big_file (size_of fp)) true (ceil_div (size_of fp) part_size)
                  (seq 0 (workers_count (size_of fp))) k _ _ _ _ Hprod Hok) as Ht.
    eexists _, _. split.
    + eapply (run_of_transfer c path (Some f) k cb owned fp); try eassumption; try done.
    + unfold resume_post. cbv zeta. fold chunk. rewrite Hchunk, length_seq.
      rewrite md5_initial_resume.
      unfold leave, after_shutdown. cbn [st_trace st_pool st_fp invoked running].
      rewrite Hhand. unfold entry_state. cbn [st_trace st_pool handed invoked slot map].
      split_and!; try reflexivity.
      * rewrite <- !app_assoc. reflexivity.
      * destruct owned; eexists; (split; [reflexivity|]); simpl; split; congruence.
  - pose proof (transfer_returning c (size_of fp) (name_of fp) cb (py_or (Some f) (rnd_id c))
                  (is_big_file (size_of fp)) true (ceil_div (size_of fp) part_size)
                  (seq 0 (workers_count (size_of fp))) k _ _ _ _ Hprod Hok) as Ht.
    eexists _, _. split.
    + eapply (run_of_transfer c path (Some f) k cb owned fp); try eassumption; try done.
    + unfold resume_post. cbv zeta. fold chunk. rewrite Hchunk, length_seq.
      unfold leave, after_shutdown. cbn [st_trace st_pool st_fp invoked running].
      rewrite Hhand. unfold entry_state. cbn [st_trace st_pool handed invoked slot map].
      split_and!; try reflexivity.
      * rewrite <- !app_assoc. reflexivity.
      * destruct owned; eexists; (split; [reflexivity|]); simpl; split; congruence.
Qed.

(** A call for a negative part: the seek fails, the failure is logged. *)
Lemma negative_part_run c path fid k cb owned fp :
  valid_source c path owned fp ->
  session_error c = None ->
  k < 0 ->
  exists sf,
    run c path fid k cb = (Returns None, sf) /\
    st_trace sf =
      [EvAcquire] ++ open_events path ++ map EvSpawn (seq 0 (workers_count (size_of fp))) ++
      [EvLog OSError] ++
      replicate (workers_count (size_of fp)) (EvPut Sentinel) ++ [EvGather] ++
      (if owned then [EvClose] else []) ++ [EvRelease] /\
    invoked (st_pool sf) = [] /\ running (st_pool sf) = 0%nat /\
    (exists fp', st_fp sf = Some fp' /\ s_closed fp' = owned /\ s_data fp' = s_data fp).
Proof.
  intros Hv Hsess Hk.
  destruct (resolve_open _ _ _ _ (proj1 Hv)) as [Hcl Hpos0].
  pose proof (producer_negative c (size_of fp) cb (py_or fid (rnd_id c))
                (is_big_file (size_of fp)) (is_not_none fid) (ceil_div (size_of fp) part_size)
                k (md5_initial (is_big_file (size_of fp)) (is_not_none fid))
                (entry_state c path fp) fp eq_refl Hcl Hk) as Hprod.
  pose proof (transfer_raising c (size_of fp) (name_of fp) cb (py_or fid (rnd_id c))
                (is_big_file (size_of fp)) (is_not_none fid) (ceil_div (size_of fp) part_size)
                (seq 0 (workers_count (size_of fp))) k _ _ _ _ Hprod
                (entry_pool_ok c path fp)) as Ht.
  eexists. split.
  - change (Returns None) with (outcome_of (after_exception OSError)).
    eapply (run_of_transfer c path fid k cb owned fp); try eassumption; try done.
  - rewrite length_seq.
    unfold leave, after_shutdown, entry_state.
    cbn [st_trace st_pool st_fp invoked running handed slot log_of caught is_Exception is_stop
         negb andb].
    split_and!; try reflexivity.
    + rewrite <- !app_assoc. reflexivity.
    + destruct owned; eexists; (split; [reflexivity|]); simpl; split; congruence.
Qed.

(** ** Projections of traces *)

Lemma omap_map_none {A B C} (f : B -> option C) (g : A -> B) (l : list A) :
  (forall x, f (g x) = None) -> omap f (map g l) = [].
Proof. intros H. induction l as [|x l IH]; simpl; [done|]. rewrite H. exact IH. Qed.

Lemma omap_map_some {A B C} (f : B -> option C) (g : A -> B) (h : A -> C) (l : list A) :
  (forall x, f (g x) = Some (h x)) -> omap f (map g l) = map h l.
Proof. intros H. induction l as [|x l IH]; simpl; [done|]. rewrite H. f_equal. exact IH. Qed.

Lemma omap_replicate_none {B C} (f : B -> option C) (n : nat) (x : B) :
  f x = None -> omap f (replicate n x) = [].
Proof. intros H. induction n as [|n IH]; simpl; [done|]. rewrite H. exact IH. Qed.

Lemma omap_replicate_some {B C} (f : B -> option C) (n : nat) (x : B) (y : C) :
  f x = Some y -> omap f (replicate n x) = replicate n y.
Proof. intros H. induction n as [|n IH]; simpl; [done|]. rewrite H. f_equal. exact IH. Qed.

Lemma omap_open_events {C} (f : event -> option C) path :
  (forall p, f (EvOpen p) = None) -> omap f (open_events path) = [].
Proof. intros H. destruct path; simpl; rewrite ?H; reflexivity. Qed.

Lemma omap_close_events {C} (f : event -> option C) (owned : bool) :
  f EvClose = None -> omap f (if owned then [EvClose] else []) = [].
Proof. intros H. destruct owned; simpl; rewrite ?H; reflexivity. Qed.

Lemma omap_notify_requests size rs :
  omap (fun ev => match ev with EvPut (Rpc r) => Some r | _ => None end)
       (flat_map (notify size) rs) = rs.
Proof. induction rs as [|r rs IH]; simpl; [done|]. f_equal. exact IH. Qed.

Lemma omap_log_of {C} (f : event -> option C) e :
  (forall e, f (EvLog e) = None) -> omap f (log_of e) = [].
Proof. intros H. unfold log_of. destruct (caught e); simpl; rewrite ?H; reflexivity. Qed.

(** Rewrites a projection of a trace given segment by segment. *)
Ltac project_trace :=
  rewrite ?omap_app;
  rewrite ?(omap_map_none _ EvSpawn) by done;
  rewrite ?(omap_map_some _ EvSpawn (fun i => i)) by done;
  rewrite ?(omap_replicate_none _ _ (EvPut Sentinel)) by done;
  rewrite ?(omap_replicate_some _ _ (EvPut Sentinel) tt) by done;
  rewrite ?omap_open_events by done;
  rewrite ?omap_close_events by done;
  rewrite ?omap_log_of by done;
  rewrite ?omap_notify_requests;
  cbn [omap list_omap app].

Lemma chunk_in_range (data : list byte) (k : Z) :
  0 <= k -> part_size * k < Z.of_nat (length data) ->
  take (Z.to_nat part_size) (drop (Z.to_nat (part_size * k)) data) <> [].
Proof.
  intros Hk Hlt Hnil. pose proof part_size_pos.
  apply take_nil_inv in Hnil; [|lia].
  apply (f_equal length) in Hnil. rewrite length_drop in Hnil. simpl in Hnil. lia.
Qed.

(** ** Resumption *)

(** C1, as stated, fails: a resumption does put the sentinels on the queue
    and does wait for the workers (the [finally] clause runs on [return]).
    Resuming part 0 of the one-byte file [a.bin] enqueues the request, then
    one sentinel, then gathers. *)
Lemma resume_runs_finally_counterexample :
  let t := st_trace (run demo_client (PStr "a.bin") (Some 42) 0 None).2 in
  t = [EvAcquire; EvOpen "a.bin"; EvSpawn 0;
       EvPut (Rpc (SaveFilePart 42 0 (bytes_of_string "a")));
       EvPut Sentinel; EvGather; EvClose; EvRelease] /\
  put_sentinels t <> 0%nat /\ gathers t <> 0%nat.
Proof. vm_compute. split_and!; [reflexivity|discriminate..]. Qed.

(** C1, amended: a resumption for a part inside the file enqueues the single
    request, emits no progress notification, then runs the [finally]
    clause (one sentinel per worker, then the wait for the workers, after
    which no worker is running) and returns no result. *)
Theorem resume_enqueues_and_shuts_down c path f k cb owned fp :
  valid_source c path owned fp ->
  session_error c = None ->
  0 <= k ->
  part_size * k < size_of fp ->
  exists r sf,
    run c path (Some f) k cb = (Returns None, sf) /\
    st_trace sf =
      [EvAcquire] ++ open_events path ++
      map EvSpawn (seq 0 (workers_count (size_of fp))) ++
      [EvPut (Rpc r)] ++
      replicate (workers_count (size_of fp)) (EvPut Sentinel) ++ [EvGather] ++
      (if owned then [EvClose] else []) ++ [EvRelease] /\
    notifications (st_trace sf) = [] /\
    put_sentinels (st_trace sf) = workers_count (size_of fp) /\
    gathers (st_trace sf) = 1%nat /\
    invoked (st_pool sf) = [r] /\
    running (st_pool sf) = 0%nat.
Proof.
  intros Hv Hsess Hk Hin.
  destruct (resume_run c path f k cb owned fp Hv Hsess Hk)
    as (out & sf & Hrun & Htr & Hinv & Hrunning & _ & Hout).
  pose proof (chunk_in_range (s_data fp) k Hk Hin) as Hne.
  cbv zeta in Htr, Hinv, Hout.
  destruct (take (Z.to_nat part_size) (drop (Z.to_nat (part_size * k)) (s_data fp)))
    as [|b chunk'] eqn:Hchunk; [done|].
  subst out. eexists _, sf. split; [exact Hrun|].
  split; [exact Htr|].
  unfold notifications, put_sentinels, gathers. rewrite Htr.
  split_and!; try done; project_trace; simpl;
    rewrite ?app_nil_r, ?length_replicate; try reflexivity.
Qed.

Lemma resume_enqueues_and_shuts_down_witness :
  exists r sf,
    run demo_client (PStr "a.bin") (Some 42) 0 None = (Returns None, sf) /\
    put_requests (st_trace sf) = [r] /\ running (st_pool sf) = 0%nat.
Proof.
  destruct (resume_enqueues_and_shuts_down demo_client (PStr "a.bin") 42 0 None true
              (Stream (Some "a.bin"%string) (bytes_of_string "a") 0 false))
    as (r & sf & Hrun & Htr & _ & _ & _ & _ & Hrunning).
  - split; [reflexivity|]. vm_compute. split; [reflexivity|discriminate].
  - reflexivity.
  - lia.
  - vm_compute. reflexivity.
  - exists r, sf. split; [exact Hrun|]. split; [|exact Hrunning].
    rewrite Htr. reflexivity.
Defined.

(** C6, as stated, fails: a resumption for a part at or past the end of the
    file enqueues no request at all.  Resuming part 1 of the one-byte file
    [a.bin] reads nothing at offset 524288. *)
Lemma resume_past_end_counterexample :
  put_requests (st_trace (run demo_client (PStr "a.bin") (Some 42) 1 None).2) = [].
Proof. vm_compute. reflexivity. Qed.

(** C6, amended: a resumption with a nonzero [file_id] [f], for a part [k]
    inside the file, enqueues exactly one request; it carries [f], the part
    index [k], the bytes of the file from offset [k * 524288] (at most
    524288 of them), and [file_total_parts] iff the file is big. *)
Theorem resume_request c path f k cb owned fp :
  valid_source c path owned fp ->
  session_error c = None ->
  f <> 0 ->
  0 <= k ->
  part_size * k < size_of fp ->
  exists r,
    put_requests (st_trace (run c path (Some f) k cb).2) = [r] /\
    rpc_file_id r = f /\
    rpc_file_part r = k /\
    rpc_bytes r = take (Z.to_nat part_size) (drop (Z.to_nat (part_size * k)) (s_data fp)) /\
    rpc_total_parts r =
      (if size_of fp >? 10485760 then Some (ceil_div (size_of fp) part_size) else None).
Proof.
  intros Hv Hsess Hf Hk Hin.
  destruct (resume_run c path f k cb owned fp Hv Hsess Hk)
    as (out & sf & Hrun & Htr & _).
  pose proof (chunk_in_range (s_data fp) k Hk Hin) as Hne.
  cbv zeta in Htr. rewrite Hrun. cbn [snd].
  set (chunk := take (Z.to_nat part_size) (drop (Z.to_nat (part_size * k)) (s_data fp))) in *.
  destruct chunk as [|b chunk'] eqn:Hchunk; [done|].
  assert (py_or (Some f) (rnd_id c) = f) as Hor
    by (unfold py_or; destruct (Z.eqb_spec f 0); [done|reflexivity]).
  rewrite Hor in Htr.
  eexists. unfold put_requests. rewrite Htr. project_trace.
  cbn [map omap list_omap app]. rewrite ?app_nil_r. split; [reflexivity|].
  unfold make_rpc, is_big_file. change (10 * 1024 * 1024) with 10485760.
  destruct (size_of fp >? 10485760); simpl; done.
Qed.

Lemma resume_request_witness :
  exists r,
    put_requests (st_trace (run demo_client (PStr "a.bin") (Some 42) 0 None).2) = [r] /\
    rpc_file_id r = 42 /\ rpc_file_part r = 0.
Proof.
  destruct (resume_request demo_client (PStr "a.bin") 42 0 None true
              (Stream (Some "a.bin"%string) (bytes_of_string "a") 0 false))
    as (r & Hput & Hid & Hpart & _).
  - split; [reflexivity|]. vm_compute. split; [reflexivity|discriminate].
  - reflexivity.
  - lia.
  - lia.
  - vm_compute. reflexivity.
  - exists r. split; [exact Hput|]. split; [exact Hid|exact Hpart].
Defined.

(** The same resumption with [file_id = 0] carries a fresh identifier:
    [file_id or self.rnd_id()] takes [0] for a missing value. *)
Example resume_with_zero_id :
  put_requests (st_trace (run demo_client (PStr "a.bin") (Some 0) 0 None).2) =
  [SaveFilePart 777 0 (bytes_of_string "a")].
Proof. vm_compute. reflexivity. Qed.

(** ** The worker pool *)

Lemma omap_notify_none {C} (f : event -> option C) size rs :
  (forall r, f (EvPut (Rpc r)) = None) -> (forall a b, f (EvProgress a b) = None) ->
  omap f (flat_map (notify size) rs) = [].
Proof.
  intros H1 H2. induction rs as [|r rs IH]; simpl; [done|]. rewrite H1, H2. exact IH.
Qed.

Lemma omap_put_none {C} (f : event -> option C) (l : list rpc) :
  (forall r, f (EvPut (Rpc r)) = None) ->
  omap f (map (fun r => EvPut (Rpc r)) l) = [].
Proof. intros H. apply omap_map_none. intros. apply H. Qed.

(** Every call that passes validation and obtains a session creates its
    workers once, before the [try] statement, and nowhere else. *)
Lemma run_spawned c path fid k cb owned fp :
  valid_source c path owned fp ->
  session_error c = None ->
  spawned (st_trace (run c path fid k cb).2) = seq 0 (workers_count (size_of fp)).
Proof.
  intros Hv Hsess. unfold spawned.
  destruct (Z.lt_ge_cases k 0) as [Hk|Hk].
  - destruct (negative_part_run c path fid k cb owned fp Hv Hsess Hk)
      as (sf & Hrun & Htr & _).
    rewrite Hrun. cbn [snd]. rewrite Htr. project_trace.
    rewrite map_id. rewrite ?app_nil_r. reflexivity.
  - destruct fid as [f|].
    + destruct (resume_run c path f k cb owned fp Hv Hsess Hk)
        as (out & sf & Hrun & Htr & _).
      rewrite Hrun. cbn [snd]. cbv zeta in Htr.
      destruct (take (Z.to_nat part_size) (drop (Z.to_nat (part_size * k)) (s_data fp)));
        rewrite Htr; project_trace;
        rewrite ?omap_put_none by (intros; reflexivity); rewrite map_id;
        rewrite ?app_nil_r; reflexivity.
    + destruct (full_upload_run c path k cb owned fp Hv Hsess Hk)
        as (rs & out & sf & Hrun & extra & Htr & _ & _ & _ & Hcase).
      rewrite Hrun. cbn [snd]. rewrite Htr. project_trace.
      rewrite omap_notify_none by (intros; reflexivity). rewrite map_id.
      assert (omap (fun ev => match ev with EvSpawn i => Some i | _ => None end) extra = [])
        as -> by (destruct Hcase as [(_ & _ & ->)|(e & f & cur & _ & _ & _ & _ & -> & _)];
                  [reflexivity|apply omap_log_of; intros; reflexivity]).
      rewrite ?app_nil_r. reflexivity.
Qed.

Lemma big_stream_size : size_of big_stream = 10485761.
Proof. unfold size_of, big_stream. cbn [s_data]. rewrite length_replicate. lia. Qed.

Lemma big_stream_valid : valid_source demo_client (PStream big_stream) false big_stream.
Proof.
  split; [reflexivity|]. rewrite big_stream_size.
  change (size_limit demo_client) with 2097152000. lia.
Qed.

(** C5, as stated, fails: a resumption on a big file creates four workers,
    not one. *)
Lemma resume_big_file_workers_counterexample :
  spawned (st_trace (run demo_client (PStream big_stream) (Some 42) 0 None).2)
  = [0; 1; 2; 3]%nat.
Proof.
  rewrite (run_spawned demo_client (PStream big_stream) (Some 42) 0 None false big_stream
             big_stream_valid eq_refl).
  rewrite big_stream_size. reflexivity.
Qed.

(** C5, amended: the worker tasks of a call are created once; they are 4
    when the file is larger than 10485760 bytes and 1 otherwise, whether or
    not the call is a resumption. *)
Theorem workers_by_size c path fid k cb owned fp :
  valid_source c path owned fp ->
  session_error c = None ->
  spawned (st_trace (run c path fid k cb).2) =
  seq 0 (if size_of fp >? 10485760 then 4 else 1).
Proof.
  intros Hv Hsess. rewrite (run_spawned c path fid k cb owned fp Hv Hsess).
  reflexivity.
Qed.

Lemma workers_by_size_witness :
  spawned (st_trace (run demo_client (PStr "a.bin") (Some 42) 0 None).2) = [0%nat].
Proof.
  apply (workers_by_size demo_client (PStr "a.bin") (Some 42) 0 None true
           (Stream (Some "a.bin"%string) (bytes_of_string "a") 0 false)).
  - split; [reflexivity|]. vm_compute. split; [reflexivity|discriminate].
  - reflexivity.
Defined.

(** ** Failures of the producer *)

(** Whatever the producer does before it raises, the pool is as it was
    created: every worker is still running and no sentinel is staged. *)
Lemma producer_raising_state c path fid k cb owned fp e s1 :
  valid_source c path owned fp ->
  producer c (size_of fp) cb (py_or fid (rnd_id c)) (is_big_file (size_of fp))
           (is_not_none fid) (ceil_div (size_of fp) part_size) k
           (md5_initial (is_big_file (size_of fp)) (is_not_none fid))
           (entry_state c path fp) = (Raising e, s1) ->
  pool_ok (length (seq 0 (workers_count (size_of fp)))) (st_pool s1) /\
  exists fp', st_fp s1 = Some fp'.
Proof.
  intros Hv Hprod.
  destruct (resolve_open _ _ _ _ (proj1 Hv)) as [Hcl Hpos0].
  destruct (Z.lt_ge_cases k 0) as [Hk|Hk].
  - rewrite (producer_negative c (size_of fp) cb _ _ _ _ k _ (entry_state c path fp) fp
               eq_refl Hcl Hk) in Hprod.
    injection Hprod as _ <-. split; [apply entry_pool_ok|]. eexists; reflexivity.
  - destruct fid as [f|].
    + destruct (producer_resume c (size_of fp) cb (py_or (Some f) (rnd_id c))
                  (is_big_file (size_of fp)) (ceil_div (size_of fp) part_size) k
                  (md5_initial (is_big_file (size_of fp)) true)
                  (entry_state c path fp) fp _ eq_refl Hcl Hk (entry_pool_ok c path fp))
        as (p' & Hp & _).
      cbv zeta in Hp. cbn [is_not_none] in Hprod. rewrite Hp in Hprod.
      destruct (take (Z.to_nat part_size) (drop (Z.to_nat (part_size * k)) (s_data fp)));
        discriminate.
    + destruct (size_of_total_parts fp) as [Htot Hlen].
      destruct (producer_full c (size_of fp) cb (rnd_id c) (is_big_file (size_of fp))
                  (ceil_div (size_of fp) part_size) k [] (entry_state c path fp) fp
                  _ eq_refl Hcl Hk (entry_pool_ok c path fp) Htot Hlen)
        as (rs & res & s' & fp' & Hp & _ & Hok & _ & Hfp' & _).
      cbn [is_not_none py_or] in Hprod. rewrite md5_initial_full in Hprod.
      rewrite Hp in Hprod. injection Hprod as _ <-.
      split; [exact Hok|]. eexists; exact Hfp'.
Qed.

(** C2, as stated, fails: an exception that is not an [Exception] is not
    matched by [except Exception]; it is neither logged nor swallowed, and
    is raised to the caller after the [finally] clause.  Here the task is
    cancelled while it awaits the progress callback of the first part:
    [asyncio.CancelledError] comes out of the [await]. *)
Lemma cancelled_error_counterexample :
  let r := run demo_client (PStr "a.bin") None 0 (Some (fun _ _ => Some CancelledError)) in
  r.1 = Raises CancelledError /\ logged (st_trace r.2) = [] /\ r.1 <> Returns None.
Proof. vm_compute. split_and!; [reflexivity..|discriminate]. Qed.

(** C2, amended: when the producer raises an exception [e], the call puts
    one sentinel per worker on the queue and waits for the workers (none is
    running afterwards), whatever [e] is.  If [e] is an instance of
    [Exception] other than [StopTransmission], it is logged first and the
    call returns no result; otherwise ([StopTransmission], or an exception
    that is not an [Exception]) it is not logged and is raised to the
    caller after that cleanup. *)
Theorem producer_failure_cleanup c path fid k cb owned fp e s1 :
  valid_source c path owned fp ->
  session_error c = None ->
  producer c (size_of fp) cb (py_or fid (rnd_id c)) (is_big_file (size_of fp))
           (is_not_none fid) (ceil_div (size_of fp) part_size) k
           (md5_initial (is_big_file (size_of fp)) (is_not_none fid))
           (entry_state c path fp) = (Raising e, s1) ->
  let swallowed := is_Exception e && negb (is_stop e) in
  exists sf,
    run c path fid k cb = (if swallowed then Returns None else Raises e, sf) /\
    st_trace sf =
      st_trace s1 ++ (if swallowed then [EvLog e] else []) ++
      replicate (workers_count (size_of fp)) (EvPut Sentinel) ++ [EvGather] ++
      (if owned then [EvClose] else []) ++ [EvRelease] /\
    running (st_pool sf) = 0%nat.
Proof.
  intros Hv Hsess Hprod swallowed.
  destruct (producer_raising_state c path fid k cb owned fp e s1 Hv Hprod)
    as (Hok & fp' & Hfp').
  pose proof (transfer_raising c (size_of fp) (name_of fp) cb (py_or fid (rnd_id c))
                (is_big_file (size_of fp)) (is_not_none fid) (ceil_div (size_of fp) part_size)
                (seq 0 (workers_count (size_of fp))) k _ _ _ _ Hprod Hok) as Ht.
  assert (Hne : after_exception e <> Blocked /\ after_exception e <> NoFuel)
    by (unfold after_exception; destruct (caught e); split; discriminate).
  pose proof (run_of_transfer c path fid k cb owned fp _ _ fp' Hv Hsess Ht Hfp'
                (proj1 Hne) (proj2 Hne)) as Hrun.
  eexists. split; [|split].
  - rewrite Hrun. f_equal. unfold after_exception. fold swallowed.
    change (caught e) with swallowed. destruct swallowed; reflexivity.
  - unfold leave, after_shutdown. cbn [st_trace]. rewrite length_seq.
    unfold log_of. change (caught e) with swallowed.
    rewrite <- !app_assoc. reflexivity.
  - reflexivity.
Qed.

Lemma producer_failure_cleanup_witness :
  exists sf,
    run demo_client (PStr "a.bin") None 0 (Some (fun _ _ => Some (OtherError "boom"))) =
      (Returns None, sf) /\
    running (st_pool sf) = 0%nat.
Proof.
  pose (cb := Some (fun _ _ : Z => Some (OtherError "boom"))).
  pose (fp := Stream (Some "a.bin"%string) (bytes_of_string "a") 0 false).
  destruct (producer_failure_cleanup demo_client (PStr "a.bin") None 0 cb true fp
              (OtherError "boom")
              (producer demo_client (size_of fp) cb (py_or None (rnd_id demo_client))
                 (is_big_file (size_of fp)) (is_not_none None)
                 (ceil_div (size_of fp) part_size) 0
                 (md5_initial (is_big_file (size_of fp)) (is_not_none None))
                 (entry_state demo_client (PStr "a.bin") fp)).2)
    as (sf & Hrun & _ & Hrunning).
  - split; [reflexivity|]. vm_compute. split; [reflexivity|discriminate].
  - reflexivity.
  - vm_compute. reflexivity.
  - exists sf. split; [exact Hrun|exact Hrunning].
Defined.

(** ** Validation *)

Lemma run_none c fid k cb :
  run c PNone fid k cb = (Returns None, State None (Pool None 0 [] []) [EvAcquire; EvRelease]).
Proof. reflexivity. Qed.

(** A failure of the validation is the outcome of the call; only the
    semaphore is released after it. *)
Lemma run_enter_failure c path fid k cb e s1 :
  path <> PNone ->
  enter_media_file c path acquired = (Raising e, s1) ->
  run c path fid k cb =
  (Raises e, State (st_fp s1) (st_pool s1) (st_trace s1 ++ [EvRelease])).
Proof.
  intros Hp He. unfold run, call, save_file, with_semaphore.
  unfold bind at 1. unfold emit at 1. cbn [initial st_fp st_pool st_trace app].
  assert (match path with
          | PNone => return_ None
          | _ => open_media_file c path (upload c fid k cb)
          end = open_media_file c path (upload c fid k cb)) as ->
    by (destruct path; [done|reflexivity..]).
  unfold try_finally, open_media_file. unfold bind at 1.
  fold acquired. rewrite He. reflexivity.
Qed.

Lemma size_limit_values c :
  size_limit c = if premium (me c) then 4194304000 else 2097152000.
Proof. unfold size_limit, file_size_limit_mib. destruct (premium (me c)); reflexivity. Qed.

(** How [enter_media_file] ends, by the source. *)
Lemma enter_media_file_cases c path s :
  (enter_media_file c path s).1 =
  match resolve c path with
  | Some (owned, fp) =>
      if size_of fp =? 0 then Raising (ValueError EmptyFile)
      else if size_of fp >? size_limit c
           then Raising (ValueError (TooBig (file_size_limit_mib (me c))))
           else Normal (owned, size_of fp, name_of fp)
  | None =>
      match path with
      | PStr _ => Raising OSError
      | PStream _ => Raising (ValueError ClosedFile)
      | _ => Raising (ValueError InvalidFile)
      end
  end.
Proof.
  destruct (resolve c path) as [[owned fp]|] eqn:Hres.
  - rewrite (enter_media_file_resolved _ _ _ _ _ Hres). reflexivity.
  - rewrite (enter_media_file_unresolved _ _ _ Hres). destruct path; reflexivity.
Qed.

(** A failure to obtain the session leaves through both [with] blocks. *)
Lemma session_failure_run c path fid k cb owned fp e :
  valid_source c path owned fp ->
  session_error c = Some e ->
  run c path fid k cb =
  (Raises e, leave owned (State (Some fp) (Pool None 0 [] []) ([EvAcquire] ++ open_events path))).
Proof.
  intros Hv Hsess. unfold run, call.
  rewrite (save_file_valid _ _ _ _ _ _ _ Hv).
  unfold try_finally, upload, get_media_session. rewrite Hsess.
  unfold bind, raise, leave. destruct owned; unfold fp_close_, ret, emit; simpl;
    rewrite <- ?app_assoc; reflexivity.
Qed.

(** How validation ends, and what a failure of it does to the call. *)
Lemma validation_cases c path fid k cb :
  let v := (enter_media_file c path acquired).1 in
  run c PNone fid k cb =
    (Returns None, State None (Pool None 0 [] []) [EvAcquire; EvRelease]) /\
  (v = Raising InvalidInputError <-> path = PNone \/ path = POther) /\
  (v = Raising EmptyFileError <->
     exists owned fp, resolve c path = Some (owned, fp) /\ size_of fp = 0) /\
  (forall lim, v = Raising (SizeLimitExceededError lim) <->
     exists owned fp, resolve c path = Some (owned, fp) /\
                      size_limit c < size_of fp /\ lim = file_size_limit_mib (me c)) /\
  ((exists r, v = Normal r) <->
     exists owned fp, resolve c path = Some (owned, fp) /\ 0 < size_of fp <= size_limit c) /\
  size_limit c = (if premium (me c) then 4194304000 else 2097152000) /\
  (forall e, path <> PNone -> v = Raising e ->
     (run c path fid k cb).1 = Raises e /\
     spawned (st_trace (run c path fid k cb).2) = [] /\
     put_requests (st_trace (run c path fid k cb).2) = [] /\
     running (st_pool (run c path fid k cb).2) = 0%nat).
Proof.
  intros v. subst v. rewrite enter_media_file_cases.
  assert (Hsz : forall fp : stream, 0 <= size_of fp) by (intros; unfold size_of; lia).
  split; [apply run_none|].
  split; [|split; [|split; [|split; [|split; [apply size_limit_values|]]]]].
  - destruct (resolve c path) as [[owned fp]|] eqn:Hres.
    + split.
      * destruct (size_of fp =? 0); [discriminate|].
        destruct (size_of fp >? size_limit c); discriminate.
      * intros [-> | ->]; discriminate.
    + destruct path;
        (split; [intros Heq; try discriminate Heq; auto
                |intros [Hq|Hq]; try discriminate Hq; reflexivity]).
  - destruct (resolve c path) as [[owned fp]|] eqn:Hres.
    + destruct (Z.eqb_spec (size_of fp) 0) as [Hz|Hz].
      * split; [intros _; exists owned, fp; done|reflexivity].
      * split.
        -- destruct (size_of fp >? size_limit c); discriminate.
        -- intros (o & fp0 & [= <- <-] & Hz0). done.
    + split; [destruct path; discriminate|]. intros (o & fp0 & Habs & _). discriminate.
  - intros lim. destruct (resolve c path) as [[owned fp]|] eqn:Hres.
    + destruct (Z.eqb_spec (size_of fp) 0) as [Hz|Hz].
      * split; [discriminate|]. intros (o & fp0 & [= <- <-] & Hgt & _).
        rewrite size_limit_values in Hgt. destruct (premium (me c)); lia.
      * destruct (Z.gtb_spec (size_of fp) (size_limit c)) as [Hgt|Hle].
        -- split.
           ++ intros [= <-]. exists owned, fp. split_and!; [done|lia|done].
           ++ intros (o & fp0 & [= <- <-] & _ & ->). reflexivity.
        -- split; [discriminate|]. intros (o & fp0 & [= <- <-] & Hgt & _). lia.
    + split; [destruct path; discriminate|]. intros (o & fp0 & Habs & _). discriminate.
  - destruct (resolve c path) as [[owned fp]|] eqn:Hres.
    + destruct (Z.eqb_spec (size_of fp) 0) as [Hz|Hz].
      * split; [intros [r Hr]; discriminate|]. intros (o & fp0 & [= <- <-] & Hr). lia.
      * destruct (Z.gtb_spec (size_of fp) (size_limit c)) as [Hgt|Hle].
        -- split; [intros [r Hr]; discriminate|]. intros (o & fp0 & [= <- <-] & Hr). lia.
        -- split; [|intros _; eexists; reflexivity].
           intros _. exists owned, fp. specialize (Hsz fp). split; [done|lia].
    + split; [intros [r Hr]; destruct path; discriminate|].
      intros (o & fp0 & Habs & _). discriminate.
  - intros e Hp He. rewrite <- enter_media_file_cases with (s := acquired) in He.
    destruct (enter_media_file c path acquired) as [r s1] eqn:Hent. simpl in He. subst r.
    rewrite (run_enter_failure c path fid k cb e s1 Hp Hent). cbn [fst snd st_trace st_pool].
    split; [reflexivity|].
    destruct (resolve c path) as [[owned fp]|] eqn:Hres.
    + rewrite (enter_media_file_resolved _ _ _ _ _ Hres) in Hent.
      injection Hent as _ <-. cbn [st_trace st_pool acquired running].
      destruct path; try discriminate Hres; done.
    + rewrite (enter_media_file_unresolved _ _ _ Hres) in Hent.
      destruct path; injection Hent as _ <-; done.
Qed.

(** Once validation has passed, the call raises no [ValueError], unless the
    session itself fails with one. *)
Lemma valid_run_no_value_error c path fid k cb owned fp v :
  valid_source c path owned fp ->
  (forall v', session_error c <> Some (ValueError v')) ->
  (run c path fid k cb).1 <> Raises (ValueError v).
Proof.
  intros Hv Hsess Hrun.
  destruct (session_error c) as [e|] eqn:He.
  - rewrite (session_failure_run c path fid k cb owned fp e Hv He) in Hrun.
    injection Hrun as ->. exact (Hsess v eq_refl).
  - destruct (Z.lt_ge_cases k 0) as [Hk|Hk].
    + destruct (negative_part_run c path fid k cb owned fp Hv He Hk) as (sf & Hr & _).
      rewrite Hr in Hrun. discriminate Hrun.
    + destruct fid as [f|].
      * destruct (resume_run c path f k cb owned fp Hv He Hk)
          as (out & sf & Hr & _ & _ & _ & _ & Hout).
        rewrite Hr in Hrun. cbn [fst] in Hrun. cbv zeta in Hout. rewrite Hout in Hrun.
        destruct (take (Z.to_nat part_size) (drop (Z.to_nat (part_size * k)) (s_data fp)));
          discriminate Hrun.
      * destruct (full_upload_run c path k cb owned fp Hv He Hk)
          as (rs & out & sf & Hr & extra & _ & _ & _ & _ & Hcase).
        rewrite Hr in Hrun. cbn [fst] in Hrun.
        destruct Hcase as [(-> & _)|(e & g & cur & _ & _ & _ & _ & _ & ->)];
          [discriminate Hrun|].
        unfold after_exception in Hrun. destruct (caught e) eqn:Hc; [discriminate Hrun|].
        injection Hrun as ->. discriminate Hc.
Qed.

Lemma enter_media_file_completes c path s :
  (exists r, (enter_media_file c path s).1 = Normal r) \/
  (exists e, (enter_media_file c path s).1 = Raising e).
Proof.
  rewrite enter_media_file_cases.
  destruct (resolve c path) as [[owned fp]|].
  - destruct (size_of fp =? 0); [right; eexists; reflexivity|].
    destruct (size_of fp >? size_limit c); [right|left]; eexists; reflexivity.
  - right. destruct path; eexists; reflexivity.
Qed.

(** The call raises a [ValueError] exactly when validation raises it. *)
Lemma run_value_error c path fid k cb v :
  (forall v', session_error c <> Some (ValueError v')) ->
  (run c path fid k cb).1 = Raises (ValueError v) <->
  path <> PNone /\ (enter_media_file c path acquired).1 = Raising (ValueError v).
Proof.
  intros Hsess.
  destruct (validation_cases c path fid k cb) as (Hnone & _ & _ & _ & Hpass & _ & Hfail).
  cbv zeta in Hpass, Hfail. split.
  - intros Hrun.
    assert (path <> PNone) as Hp
      by (intros ->; rewrite Hnone in Hrun; discriminate Hrun).
    split; [exact Hp|].
    destruct (enter_media_file_completes c path acquired) as [[r Hr]|[e He]].
    + destruct (proj1 Hpass (ex_intro _ r Hr)) as (owned & fp & Hv).
      exfalso. exact (valid_run_no_value_error c path fid k cb owned fp v Hv Hsess Hrun).
    + destruct (Hfail e Hp He) as (Hr & _).
      rewrite Hr in Hrun. injection Hrun as ->. exact He.
  - intros [Hp Hent]. exact (proj1 (Hfail _ Hp Hent)).
Qed.

(** C7, as stated, fails: for a [None] source [save_file] returns no result
    and raises nothing. *)
Lemma none_source_counterexample :
  (run demo_client PNone None 0 None).1 = Returns None /\
  (run demo_client PNone None 0 None).1 <> Raises InvalidInputError.
Proof. split; [reflexivity|discriminate]. Qed.

(** C7, amended: for a [None] source [save_file] returns no result without
    raising.  Otherwise it fails with [InvalidInputError] iff the source is
    neither a path nor a stream, with [EmptyFileError] iff the source is
    readable and its size is 0, and with [SizeLimitExceededError] iff the
    source is readable and its size strictly exceeds the limit (2097152000
    bytes, 4194304000 for a premium account): a source of exactly the limit
    passes.  These errors are raised before any worker is created.  (The
    session is assumed not to fail with a [ValueError] of its own.) *)
Theorem validation_outcomes c path fid k cb :
  (forall v, session_error c <> Some (ValueError v)) ->
  let out := (run c path fid k cb).1 in
  let t := st_trace (run c path fid k cb).2 in
  (path = PNone -> out = Returns None) /\
  (out = Raises InvalidInputError <-> path = POther) /\
  (out = Raises EmptyFileError <->
     exists owned fp, resolve c path = Some (owned, fp) /\ size_of fp = 0) /\
  (forall lim, out = Raises (SizeLimitExceededError lim) <->
     exists owned fp, resolve c path = Some (owned, fp) /\
                      size_limit c < size_of fp /\ lim = file_size_limit_mib (me c)) /\
  size_limit c = (if premium (me c) then 4194304000 else 2097152000) /\
  (forall v, out = Raises (ValueError v) ->
     spawned t = [] /\ put_requests t = [] /\
     running (st_pool (run c path fid k cb).2) = 0%nat).
Proof.
  intros Hsess out t. subst out t.
  destruct (validation_cases c path fid k cb)
    as (Hnone & Hinv & Hempty & Hbig & _ & Hlim & Hfail).
  cbv zeta in Hinv, Hempty, Hbig, Hfail.
  split; [intros ->; rewrite Hnone; reflexivity|].
  split; [|split; [|split; [|split; [exact Hlim|]]]].
  - unfold InvalidInputError. rewrite (run_value_error c path fid k cb _ Hsess).
    fold InvalidInputError. rewrite Hinv. split.
    + intros [Hp [?|?]]; done.
    + intros ->. split; [discriminate|]. right. reflexivity.
  - unfold EmptyFileError. rewrite (run_value_error c path fid k cb _ Hsess).
    fold EmptyFileError. rewrite Hempty. split.
    + intros [_ H]. exact H.
    + intros (owned & fp & Hres & Hz). split; [|eauto].
      intros ->. discriminate Hres.
  - intros lim. unfold SizeLimitExceededError.
    rewrite (run_value_error c path fid k cb _ Hsess).
    fold (SizeLimitExceededError lim). rewrite Hbig. split.
    + intros [_ H]. exact H.
    + intros (owned & fp & Hres & Hz). split; [|eauto].
      intros ->. discriminate Hres.
  - intros v Hrun. apply (run_value_error c path fid k cb _ Hsess) in Hrun.
    destruct Hrun as [Hp Hent]. exact (proj2 (Hfail _ Hp Hent)).
Qed.

Lemma validation_outcomes_witness :
  (run demo_client (PStr "empty.bin") None 0 None).1 = Raises EmptyFileError.
Proof.
  apply (proj1 (proj2 (proj2
           (validation_outcomes demo_client (PStr "empty.bin") None 0 None
              ltac:(intros v; discriminate))))).
  exists true, (Stream (Some "empty.bin"%string) [] 0 false).
  split; reflexivity.
Defined.

(** ** Termination and shutdown *)

(** The fuel of the read loop is never exhausted, whatever the call. *)
Lemma run_fuel_suffices c path fid k cb :
  (run c path fid k cb).1 <> OutOfFuel.
Proof.
  destruct (validation_cases c path fid k cb) as (Hnone & _ & _ & _ & Hpass & _ & Hfail).
  cbv zeta in Hpass, Hfail.
  assert (path = PNone \/ path <> PNone) as [->|Hp]
    by (destruct path; [left; reflexivity|right; discriminate..]).
  { rewrite Hnone. discriminate. }
  destruct (enter_media_file_completes c path acquired) as [[r Hr]|[e He]].
  2: { rewrite (proj1 (Hfail e Hp He)). discriminate. }
  destruct (proj1 Hpass (ex_intro _ r Hr)) as (owned & fp & Hv).
  destruct (session_error c) as [e|] eqn:Hsess.
  { rewrite (session_failure_run c path fid k cb owned fp e Hv Hsess). discriminate. }
  destruct (Z.lt_ge_cases k 0) as [Hk|Hk].
  { destruct (negative_part_run c path fid k cb owned fp Hv Hsess Hk) as (sf & Hrun & _).
    rewrite Hrun. discriminate. }
  destruct fid as [f|].
  - destruct (resume_run c path f k cb owned fp Hv Hsess Hk)
      as (out & sf & Hrun & _ & _ & _ & _ & Hout).
    rewrite Hrun. cbn [fst]. cbv zeta in Hout. rewrite Hout.
    destruct (take (Z.to_nat part_size) (drop (Z.to_nat (part_size * k)) (s_data fp)));
      discriminate.
  - destruct (full_upload_run c path k cb owned fp Hv Hsess Hk)
      as (rs & out & sf & Hrun & extra & _ & _ & _ & _ & Hcase).
    rewrite Hrun. cbn [fst].
    destruct Hcase as [(-> & _)|(e & g & cur & _ & _ & _ & _ & _ & ->)].
    + discriminate.
    + unfold after_exception. destruct (caught e); discriminate.
Qed.

(** A call of [save_file] whose progress callback returns whenever it is
    called (or that has none) returns or raises, whatever the source, the
    mode and the part: the producer is never left waiting on the queue of
    capacity 1, the wait for the workers ends, and the loop stops at the
    end of the file. *)
Lemma run_completes c path fid k cb :
  never_raises cb ->
  (exists v, (run c path fid k cb).1 = Returns v) \/
  (exists e, (run c path fid k cb).1 = Raises e).
Proof.
  intros Hcb.
  destruct (validation_cases c path fid k cb) as (Hnone & _ & _ & _ & Hpass & _ & Hfail).
  cbv zeta in Hpass, Hfail.
  assert (path = PNone \/ path <> PNone) as [->|Hp]
    by (destruct path; [left; reflexivity|right; discriminate..]).
  { left. rewrite Hnone. eexists. reflexivity. }
  destruct (enter_media_file_completes c path acquired) as [[r Hr]|[e He]].
  2: { right. exists e. exact (proj1 (Hfail e Hp He)). }
  destruct (proj1 Hpass (ex_intro _ r Hr)) as (owned & fp & Hv).
  destruct (session_error c) as [e|] eqn:Hsess.
  { right. exists e. rewrite (session_failure_run c path fid k cb owned fp e Hv Hsess).
    reflexivity. }
  left.
  destruct (Z.lt_ge_cases k 0) as [Hk|Hk].
  { destruct (negative_part_run c path fid k cb owned fp Hv Hsess Hk) as (sf & Hrun & _).
    rewrite Hrun. eexists. reflexivity. }
  destruct fid as [f|].
  - destruct (resume_run c path f k cb owned fp Hv Hsess Hk)
      as (out & sf & Hrun & _ & _ & _ & _ & Hout).
    rewrite Hrun. cbn [fst]. cbv zeta in Hout. rewrite Hout.
    destruct (take (Z.to_nat part_size) (drop (Z.to_nat (part_size * k)) (s_data fp)));
      eexists; reflexivity.
  - destruct (full_upload_run c path k cb owned fp Hv Hsess Hk)
      as (rs & out & sf & Hrun & extra & _ & _ & _ & _ & Hcase).
    rewrite Hrun. cbn [fst].
    destruct Hcase as [(-> & _)|(e & g & cur & Hg & He & _)].
    + eexists. reflexivity.
    + rewrite (Hcb g Hg cur (size_of fp)) in He. discriminate He.
Qed.

Lemma run_completes_witness :
  (exists v, (run demo_client (PStream two_part_stream) None 0 None).1 = Returns v) \/
  (exists e, (run demo_client (PStream two_part_stream) None 0 None).1 = Raises e).
Proof.
  apply (run_completes demo_client (PStream two_part_stream) None 0 None).
  intros f Hf. discriminate Hf.
Defined.

(** Whenever the workers were created, the call has put one sentinel per
    worker on the queue and waited once; at its end no worker is running
    and every request that was enqueued has been invoked, in order. *)
Lemma pool_drained c path fid k cb owned fp :
  valid_source c path owned fp ->
  session_error c = None ->
  let sf := (run c path fid k cb).2 in
  put_sentinels (st_trace sf) = workers_count (size_of fp) /\
  gathers (st_trace sf) = 1%nat /\
  running (st_pool sf) = 0%nat /\
  invoked (st_pool sf) = put_requests (st_trace sf).
Proof.
  intros Hv Hsess sf. subst sf. unfold put_sentinels, gathers, put_requests.
  destruct (Z.lt_ge_cases k 0) as [Hk|Hk].
  - destruct (negative_part_run c path fid k cb owned fp Hv Hsess Hk)
      as (sf & Hrun & Htr & Hinv & Hrn & _).
    rewrite Hrun. cbn [snd]. rewrite Htr, Hinv, Hrn.
    split_and!; project_trace; rewrite ?app_nil_r, ?length_replicate; reflexivity.
  - destruct fid as [f|].
    + destruct (resume_run c path f k cb owned fp Hv Hsess Hk)
        as (out & sf & Hrun & Htr & Hinv & Hrn & _).
      rewrite Hrun. cbn [snd]. cbv zeta in Htr, Hinv. rewrite Hinv, Hrn.
      destruct (take (Z.to_nat part_size) (drop (Z.to_nat (part_size * k)) (s_data fp)));
        rewrite Htr; split_and!; project_trace; cbn [map omap list_omap app length];
        rewrite ?app_nil_r, ?length_replicate; reflexivity.
    + destruct (full_upload_run c path k cb owned fp Hv Hsess Hk)
        as (rs & out & sf & Hrun & extra & Htr & Hinv & Hrn & _ & Hcase).
      rewrite Hrun. cbn [snd]. rewrite Htr, Hinv, Hrn.
      assert (Hextra : forall C (g : event -> option C),
                 (forall e, g (EvLog e) = None) -> omap g extra = []).
      { intros C g Hg.
        destruct Hcase as [(_ & _ & ->)|(e & f & cur & _ & _ & _ & _ & -> & _)];
          [reflexivity|apply omap_log_of; exact Hg]. }
      split_and!; project_trace; rewrite ?omap_notify_none by (intros; reflexivity);
        rewrite ?Hextra by (intros; reflexivity); cbn [app length];
        rewrite ?app_nil_r, ?length_replicate; reflexivity.
Qed.

(** ** Closing the stream *)

(** C8 at its failing input: the empty file [empty.bin] is opened by
    [open_media_file], which raises outside its [try ... finally]; the
    stream it opened is left open when the call has ended. *)
Theorem empty_file_left_open :
  let r := run demo_client (PStr "empty.bin") None 0 None in
  r.1 = Raises EmptyFileError /\
  st_fp r.2 = Some (Stream (Some "empty.bin"%string) [] 0 false) /\
  st_trace r.2 = [EvAcquire; EvOpen "empty.bin"; EvRelease] /\
  closes (st_trace r.2) = 0%nat.
Proof. vm_compute. split_and!; reflexivity. Qed.

(** The same for every file that fails the size checks. *)
Lemma rejected_file_left_open c p fid k cb fp :
  resolve c (PStr p) = Some (true, fp) ->
  size_of fp = 0 \/ size_limit c < size_of fp ->
  exists e,
    run c (PStr p) fid k cb =
    (Raises e, State (Some fp) (Pool None 0 [] []) [EvAcquire; EvOpen p; EvRelease]) /\
    s_closed fp = false.
Proof.
  intros Hres Hsize.
  pose proof (enter_media_file_resolved c (PStr p) true fp acquired Hres) as Hent.
  destruct (resolve_open _ _ _ _ Hres) as [Hcl _].
  assert (0 <= size_limit c) by (rewrite size_limit_values; destruct (premium (me c)); lia).
  destruct (Z.eqb_spec (size_of fp) 0) as [Hz|Hz].
  - eexists. split; [|exact Hcl].
    rewrite (run_enter_failure c (PStr p) fid k cb _ _ ltac:(discriminate) Hent). reflexivity.
  - destruct (Z.gtb_spec (size_of fp) (size_limit c)) as [Hgt|Hle]; [|lia].
    eexists. split; [|exact Hcl].
    rewrite (run_enter_failure c (PStr p) fid k cb _ _ ltac:(discriminate) Hent). reflexivity.
Qed.

(** Once validation has passed, the stream is closed at the end of the call
    iff [open_media_file] opened it itself, however the call ends. *)
Lemma stream_closed_iff_owned c path fid k cb owned fp :
  valid_source c path owned fp ->
  exists fp',
    st_fp (run c path fid k cb).2 = Some fp' /\
    s_closed fp' = owned /\ s_data fp' = s_data fp.
Proof.
  intros Hv.
  destruct (resolve_open _ _ _ _ (proj1 Hv)) as [Hcl _].
  destruct (session_error c) as [e|] eqn:Hsess.
  - rewrite (session_failure_run c path fid k cb owned fp e Hv Hsess).
    unfold leave. cbn [snd st_fp]. destruct owned; eexists; simpl; done.
  - destruct (Z.lt_ge_cases k 0) as [Hk|Hk].
    + destruct (negative_part_run c path fid k cb owned fp Hv Hsess Hk)
        as (sf & Hrun & _ & _ & _ & Hfp).
      rewrite Hrun. exact Hfp.
    + destruct fid as [f|].
      * destruct (resume_run c path f k cb owned fp Hv Hsess Hk)
          as (out & sf & Hrun & _ & _ & _ & Hfp & _).
        rewrite Hrun. exact Hfp.
      * destruct (full_upload_run c path k cb owned fp Hv Hsess Hk)
          as (rs & out & sf & Hrun & extra & _ & _ & _ & Hfp & _).
        rewrite Hrun. exact Hfp.
Qed.

(** A stream handed in by the caller is never closed by the call. *)
Lemma caller_stream_not_closed c fp0 fid k cb :
  exists fp',
    st_fp (run c (PStream fp0) fid k cb).2 = Some fp' /\ s_closed fp' = s_closed fp0.
Proof.
  destruct (resolve c (PStream fp0)) as [[owned fp]|] eqn:Hres.
  - pose proof Hres as Hres'. simpl in Hres'.
    destruct (s_closed fp0) eqn:Hcl0; simpl in Hres'; [discriminate Hres'|].
    injection Hres' as <- <-.
    set (fp := Stream (s_name fp0) (s_data fp0) 0 false) in *.
    destruct (Z.eqb_spec (size_of fp) 0) as [Hz|Hz];
      [|destruct (Z.gtb_spec (size_of fp) (size_limit c)) as [Hgt|Hle]].
    + pose proof (enter_media_file_resolved c _ _ _ acquired Hres) as Hent.
      destruct (Z.eqb_spec (size_of fp) 0); [|done].
      rewrite (run_enter_failure c (PStream fp0) fid k cb _ _ ltac:(discriminate) Hent).
      eexists. split; reflexivity.
    + pose proof (enter_media_file_resolved c _ _ _ acquired Hres) as Hent.
      destruct (Z.eqb_spec (size_of fp) 0); [done|].
      destruct (Z.gtb_spec (size_of fp) (size_limit c)); [|lia].
      rewrite (run_enter_failure c (PStream fp0) fid k cb _ _ ltac:(discriminate) Hent).
      eexists. split; reflexivity.
    + assert (valid_source c (PStream fp0) false fp) as Hv.
      { split; [exact Hres|]. unfold size_of in *. lia. }
      destruct (stream_closed_iff_owned c _ fid k cb _ _ Hv) as (fp' & Hfp & Hcl & _).
      exists fp'. split; [exact Hfp|exact Hcl].
  - pose proof (enter_media_file_unresolved c _ acquired Hres) as Hent.
    simpl in Hres. destruct (s_closed fp0) eqn:Hcl0; simpl in Hres; [|discriminate Hres].
    rewrite (run_enter_failure c (PStream fp0) fid k cb _ _ ltac:(discriminate) Hent).
    eexists. split; [reflexivity|]. exact Hcl0.
Qed.

(** ** The result *)

(** C3 at its failing input: a resumption for part 1 of the one-byte file
    [a.bin] finds the end of the file at once, leaves the loop by [break]
    and returns an [InputFile] whose checksum is [None]. *)
Theorem resume_past_end_returns_reference :
  (run demo_client (PStr "a.bin") (Some 42) 1 None).1 =
  Returns (Some (InputFile 42 1 "a.bin" MNone)).
Proof. vm_compute. reflexivity. Qed.

(** The same for every resumption for the part just past the last one of a
    valid source. *)
Lemma resume_past_end_run c path f k cb owned fp :
  valid_source c path owned fp ->
  session_error c = None ->
  size_of fp <= part_size * k ->
  k <= ceil_div (size_of fp) part_size ->
  (run c path (Some f) k cb).1 =
  Returns (Some (file_reference (py_or (Some f) (rnd_id c)) (ceil_div (size_of fp) part_size)
                   (name_of fp) (is_big_file (size_of fp)) MNone)).
Proof.
  intros Hv Hsess Hout _. pose proof part_size_pos.
  assert (0 <= k) as Hk by (destruct Hv as [_ [? _]]; nia).
  destruct (resume_run c path f k cb owned fp Hv Hsess Hk)
    as (out & sf & Hrun & _ & _ & _ & _ & Hres).
  rewrite Hrun. cbn [fst]. cbv zeta in Hres.
  rewrite drop_ge in Hres by (unfold size_of in Hout; lia).
  rewrite take_nil in Hres. exact Hres.
Qed.

(** Every result of a call on a valid source has the shape of the mode:
    [InputFileBig] without checksum in Big mode, [InputFile] otherwise, with
    the number of parts of the whole file. *)
Lemma result_shape c path fid k cb owned fp v :
  valid_source c path owned fp ->
  session_error c = None ->
  (run c path fid k cb).1 = Returns (Some v) ->
  exists id m,
    v = (if size_of fp >? 10485760
         then InputFileBig id (ceil_div (size_of fp) part_size) (name_of fp)
         else InputFile id (ceil_div (size_of fp) part_size) (name_of fp) m).
Proof.
  intros Hv Hsess Hret.
  destruct (Z.lt_ge_cases k 0) as [Hk|Hk].
  - destruct (negative_part_run c path fid k cb owned fp Hv Hsess Hk) as (sf & Hrun & _).
    rewrite Hrun in Hret. discriminate Hret.
  - destruct fid as [f|].
    + destruct (resume_run c path f k cb owned fp Hv Hsess Hk)
        as (out & sf & Hrun & _ & _ & _ & _ & Hres).
      rewrite Hrun in Hret. cbn [fst] in Hret. cbv zeta in Hres. rewrite Hres in Hret.
      destruct (take (Z.to_nat part_size) (drop (Z.to_nat (part_size * k)) (s_data fp)));
        [|discriminate Hret].
      injection Hret as <-. eexists _, _. reflexivity.
    + destruct (full_upload_run c path k cb owned fp Hv Hsess Hk)
        as (rs & out & sf & Hrun & extra & _ & _ & _ & _ & Hcase).
      rewrite Hrun in Hret. cbn [fst] in Hret.
      destruct Hcase as [(-> & _)|(e & g & cur & _ & _ & _ & _ & _ & ->)].
      * injection Hret as <-. eexists _, _. reflexivity.
      * unfold after_exception in Hret. destruct (caught e); discriminate Hret.
Qed.

(** ** The parts of a full upload *)

Lemma make_rpc_file_part id big total k chunk :
  rpc_file_part (make_rpc id big total k chunk) = k.
Proof. unfold make_rpc. destruct big; reflexivity. Qed.

Lemma make_rpc_bytes id big total k chunk :
  rpc_bytes (make_rpc id big total k chunk) = chunk.
Proof. unfold make_rpc. destruct big; reflexivity. Qed.

Lemma make_rpc_file_id id big total k chunk :
  rpc_file_id (make_rpc id big total k chunk) = id.
Proof. unfold make_rpc. destruct big; reflexivity. Qed.

(** The requests are numbered consecutively from the first part. *)
Lemma requests_prefix_parts id big total (chunks : list (list byte)) :
  forall k rs,
    rs `prefix_of` requests (make_rpc id big total) k chunks ->
    map rpc_file_part rs = map (fun i => k + Z.of_nat i) (seq 0 (length rs)).
Proof.
  induction chunks as [|chunk chunks IH]; intros k rs Hpre.
  - apply prefix_nil_inv in Hpre. subst rs. reflexivity.
  - destruct rs as [|r rs]; [reflexivity|].
    cbn [requests] in Hpre.
    pose proof (prefix_cons_inv_1 _ _ _ _ Hpre) as Hr.
    pose proof (prefix_cons_inv_2 _ _ _ _ Hpre) as Hrs.
    cbn [map length seq]. rewrite Hr, make_rpc_file_part.
    f_equal; [lia|].
    rewrite (IH (k + 1) rs Hrs). rewrite <- seq_shift, map_map.
    apply map_ext. intros i. lia.
Qed.




Lemma split_parts_sizes (fuel : nat) :
  forall rest : list byte,
    Forall (fun chunk : list byte => 0 < Z.of_nat (length chunk) <= part_size)
           (split_parts fuel rest).
Proof.
  pose proof part_size_pos as Hp.
  induction fuel as [|fuel IH]; intros rest; [constructor|].
  cbn [split_parts].
  destruct (take (Z.to_nat part_size) rest) as [|b chunk'] eqn:Hchunk; [constructor|].
  constructor; [|apply IH].
  rewrite <- Hchunk. rewrite length_take.
  assert (length (take (Z.to_nat part_size) rest) <> 0%nat) as Hne
    by (rewrite Hchunk; discriminate).
  rewrite length_take in Hne. lia.
Qed.

Lemma dispatch_notify size rs :
  dispatch_events (flat_map (notify size) rs) = flat_map (notify size) rs.
Proof. induction rs as [|r rs IH]; [reflexivity|]. simpl. f_equal. f_equal. exact IH. Qed.

(** ** Progress notifications *)

(** C9, as stated, fails: a resumption enqueues its part and returns before
    any notification. *)
Lemma resume_notifies_nothing_counterexample :
  let t := st_trace (run demo_client (PStr "a.bin") (Some 42) 0 None).2 in
  put_requests t = [SaveFilePart 42 0 (bytes_of_string "a")] /\ notifications t = [].
Proof. vm_compute. split; reflexivity. Qed.

(** C9, amended: in a call that is not a resumption, every enqueued part is
    followed by exactly one progress notification, with
    [current = min ((i + 1) * 524288, fileSize)] for the part of index [i],
    the parts being numbered consecutively from the first one (so that
    [i + 1] counts the parts dispatched so far when the upload starts at
    part 0); a resumption emits no notification. *)
Theorem notifications_follow_requests c path fid k cb owned fp :
  valid_source c path owned fp ->
  session_error c = None ->
  let t := st_trace (run c path fid k cb).2 in
  match fid with
  | None =>
      dispatch_events t =
        flat_map (fun r => [EvPut (Rpc r);
                            EvProgress (Z.min ((rpc_file_part r + 1) * part_size) (size_of fp))
                                       (size_of fp)])
                 (put_requests t) /\
      map rpc_file_part (put_requests t) =
        map (fun i => k + Z.of_nat i) (seq 0 (length (put_requests t)))
  | Some _ => notifications t = []
  end.
Proof.
  intros Hv Hsess t. subst t.
  destruct (Z.lt_ge_cases k 0) as [Hk|Hk].
  - destruct (negative_part_run c path fid k cb owned fp Hv Hsess Hk)
      as (sf & Hrun & Htr & _).
    rewrite Hrun. cbn [snd].
    assert (dispatch_events (st_trace sf) = [] /\ put_requests (st_trace sf) = [] /\
            notifications (st_trace sf) = []) as (Hd & Hp & Hn).
    { unfold dispatch_events, put_requests, notifications. rewrite Htr.
      split_and!; project_trace; reflexivity. }
    destruct fid; [exact Hn|]. rewrite Hd, Hp. split; reflexivity.
  - destruct fid as [f|].
    + destruct (resume_run c path f k cb owned fp Hv Hsess Hk)
        as (out & sf & Hrun & Htr & _).
      rewrite Hrun. cbn [snd]. cbv zeta in Htr. unfold notifications.
      destruct (take (Z.to_nat part_size) (drop (Z.to_nat (part_size * k)) (s_data fp)));
        rewrite Htr; project_trace; reflexivity.
    + destruct (full_upload_run c path k cb owned fp Hv Hsess Hk)
        as (rs & out & sf & Hrun & extra & Htr & _ & _ & _ & Hcase).
      rewrite Hrun. cbn [snd].
      assert (Hextra : forall C (g : event -> option C),
                 (forall e, g (EvLog e) = None) -> omap g extra = []).
      { intros C g Hg.
        destruct Hcase as [(_ & _ & ->)|(e & f & cur & _ & _ & _ & _ & -> & _)];
          [reflexivity|apply omap_log_of; exact Hg]. }
      assert (Hput : put_requests (st_trace sf) = rs).
      { unfold put_requests. rewrite Htr. project_trace.
        rewrite Hextra by (intros; reflexivity). cbn [app]. apply app_nil_r. }
      assert (Hdis : dispatch_events (st_trace sf) = flat_map (notify (size_of fp)) rs).
      { unfold dispatch_events. rewrite Htr. project_trace.
        rewrite Hextra by (intros; reflexivity). cbn [app]. rewrite app_nil_r.
        apply dispatch_notify. }
      rewrite Hput, Hdis. split; [reflexivity|].
      destruct Hcase as [(_ & -> & _)|(e & f & cur & _ & _ & Hpre & _)].
      * eapply requests_prefix_parts. reflexivity.
      * eapply requests_prefix_parts. exact Hpre.
Qed.

Lemma notifications_follow_requests_witness :
  dispatch_events (st_trace (run demo_client (PStr "a.bin") None 0 None).2) =
  [EvPut (Rpc (SaveFilePart 777 0 (bytes_of_string "a"))); EvProgress 1 1].
Proof.
  pose proof (notifications_follow_requests demo_client (PStr "a.bin") None 0 None true
                (Stream (Some "a.bin"%string) (bytes_of_string "a") 0 false)) as H.
  destruct H as [Hd _].
  - split; [reflexivity|]. vm_compute. split; [reflexivity|discriminate].
  - reflexivity.
  - rewrite Hd. vm_compute. reflexivity.
Defined.

(** ** The checksum and the upload of a suffix *)

Lemma is_big_file_spec size : is_big_file size = (size >? 10485760).
Proof. reflexivity. Qed.

(** A call without [file_id] whose callback never raises uploads every part
    from [k] on and returns the file reference. *)
Lemma complete_upload_run c path k cb owned fp :
  valid_source c path owned fp ->
  session_error c = None ->
  0 <= k ->
  never_raises cb ->
  let suffix := drop (Z.to_nat (part_size * k)) (s_data fp) in
  let total := ceil_div (size_of fp) part_size in
  exists sf,
    run c path None k cb =
      (Returns (Some (file_reference (rnd_id c) total (name_of fp) (is_big_file (size_of fp))
                        (MStr (hexdigest (md5_digest suffix))))), sf) /\
    put_requests (st_trace sf) =
      requests (make_rpc (rnd_id c) (is_big_file (size_of fp)) total) k
               (split_parts (Z.to_nat total) suffix) /\
    invoked (st_pool sf) = put_requests (st_trace sf).
Proof.
  intros Hv Hsess Hk Hcb suffix total.
  destruct (full_upload_run c path k cb owned fp Hv Hsess Hk)
    as (rs & out & sf & Hrun & extra & Htr & Hinv & _ & _ & Hcase).
  destruct Hcase as [(-> & Hrs & ->)|(e & f & cur & Hf & He & _)].
  - exists sf. rewrite <- join_hex_hexdigest.
    assert (put_requests (st_trace sf) = rs) as Hput
      by (unfold put_requests; rewrite Htr; project_trace; apply app_nil_r).
    split; [exact Hrun|]. rewrite Hput. split; [exact Hrs|exact Hinv].
  - rewrite (Hcb f Hf cur (size_of fp)) in He. discriminate He.
Qed.







(** C4, as stated, fails: in Small mode without [file_id] but with
    [file_part = 1], the checksum returned for the one-byte file [a.bin] is
    the MD5 of the empty suffix, not that of the byte stream from offset 0. *)
Lemma suffix_checksum_counterexample :
  (run demo_client (PStr "a.bin") None 1 None).1 =
    Returns (Some (InputFile 777 1 "a.bin" (MStr "d41d8cd98f00b204e9800998ecf8427e"))) /\
  hexdigest (md5_digest (bytes_of_string "a")) = "0cc175b9c0f1b6a831c399e269772661"%string /\
  MStr "d41d8cd98f00b204e9800998ecf8427e" <> MStr (hexdigest (md5_digest (bytes_of_string "a"))).
Proof. vm_compute. split_and!; [reflexivity..|discriminate]. Qed.

(** C4, amended: the checksum accumulator is created iff the file is in
    Small mode and the call is not a resumption; in that case the checksum
    of the [InputFile] returned is the canonical lowercase hexadecimal MD5
    digest of the bytes read sequentially from offset [file_part * 524288]
    in part-size chunks, which is the full byte stream when [file_part = 0];
    this for a [file_part] from 0 to the number of parts of the file,
    [ceil (fileSize / 524288)]. *)
Theorem checksum_of_stream c path fid k cb owned fp :
  valid_source c path owned fp ->
  session_error c = None ->
  0 <= k ->
  k <= ceil_div (size_of fp) part_size ->
  let suffix := drop (Z.to_nat (part_size * k)) (s_data fp) in
  let reference :=
    InputFile (rnd_id c) (ceil_div (size_of fp) part_size) (name_of fp)
              (MStr (hexdigest (md5_digest suffix))) in
  (md5_initial (is_big_file (size_of fp)) (is_not_none fid) = MHash [] <->
     size_of fp <= 10485760 /\ fid = None) /\
  (size_of fp <= 10485760 ->
     (forall v, (run c path None k cb).1 = Returns (Some v) -> v = reference) /\
     (never_raises cb -> (run c path None k cb).1 = Returns (Some reference))) /\
  (k = 0 -> suffix = s_data fp).
Proof.
  intros Hv Hsess Hk _ suffix reference. split; [|split].
  - unfold md5_initial, is_big_file. change (10 * 1024 * 1024) with 10485760.
    destruct (Z.gtb_spec (size_of fp) 10485760) as [Hgt|Hle]; destruct fid as [f|];
      cbn [is_not_none negb andb]; split; try discriminate; try (intros [? ?]; lia || discriminate).
    + intros _. done.
    + intros _. reflexivity.
  - intros Hsmall.
    assert (is_big_file (size_of fp) = false) as Hbig.
    { unfold is_big_file. change (10 * 1024 * 1024) with 10485760.
      destruct (Z.gtb_spec (size_of fp) 10485760); [lia|reflexivity]. }
    split.
    + intros v Hret.
      destruct (full_upload_run c path k cb owned fp Hv Hsess Hk)
        as (rs & out & sf & Hrun & extra & _ & _ & _ & _ & Hcase).
      rewrite Hrun in Hret. cbn [fst] in Hret.
      destruct Hcase as [(-> & _)|(e & g & cur & _ & _ & _ & _ & _ & ->)].
      * injection Hret as <-. subst reference suffix. unfold file_reference.
        rewrite Hbig, <- join_hex_hexdigest. reflexivity.
      * unfold after_exception in Hret. destruct (caught e); discriminate Hret.
    + intros Hcb.
      destruct (complete_upload_run c path k cb owned fp Hv Hsess Hk Hcb)
        as (sf & Hrun & _).
      rewrite Hrun. cbn [fst]. unfold file_reference. rewrite Hbig. reflexivity.
  - intros ->. subst suffix. rewrite Z.mul_0_r. reflexivity.
Qed.

Lemma checksum_of_stream_witness :
  (run demo_client (PStr "a.bin") None 0 None).1 =
  Returns (Some (InputFile 777 1 "a.bin" (MStr "0cc175b9c0f1b6a831c399e269772661"))).
Proof.
  pose proof (checksum_of_stream demo_client (PStr "a.bin") None 0 None true
                (Stream (Some "a.bin"%string) (bytes_of_string "a") 0 false)) as H.
  destruct H as (_ & Hsum & _).
  - split; [reflexivity|]. vm_compute. split; [reflexivity|discriminate].
  - reflexivity.
  - lia.
  - vm_compute. discriminate.
  - destruct Hsum as [_ Hret].
    + vm_compute. discriminate.
    + rewrite Hret; [vm_compute; reflexivity|]. intros f Hf. discriminate Hf.
Defined.

(** * Further properties of the upload *)

(** ** The stream and the session *)

(** A file that [open_media_file] opened from a path and accepted is closed
    when the call ends, however it ends: with a result, without one, with
    [StopTransmission], with a failure of the session or of the callback. *)
Theorem opened_file_closed c p fid k cb owned fp :
  valid_source c (PStr p) owned fp ->
  exists fp',
    st_fp (run c (PStr p) fid k cb).2 = Some fp' /\
    s_closed fp' = true /\ s_data fp' = s_data fp /\ s_name fp' = Some p.
Proof.
  intros Hv.
  assert (owned = true /\ s_name fp = Some p) as [-> Hname].
  { destruct Hv as [Hres _]. simpl in Hres.
    destruct (fs c !! p); simpl in Hres; [|discriminate Hres].
    injection Hres as <- <-. split; reflexivity. }
  destruct (resolve_open _ _ _ _ (proj1 Hv)) as [Hcl _].
  assert (forall sf fp',
             st_fp sf = Some fp' ->
             st_fp (leave true sf) =
             Some (Stream (s_name fp') (s_data fp') (s_pos fp') true)) as Hleave
    by (intros sf fp' H; unfold leave; cbn [st_fp]; rewrite H; reflexivity).
  destruct (session_error c) as [e|] eqn:Hsess.
  - rewrite (session_failure_run c _ fid k cb true fp e Hv Hsess). cbn [snd].
    eexists. split; [apply Hleave; reflexivity|]. cbn. done.
  - destruct (Z.lt_ge_cases k 0) as [Hk|Hk].
    + pose proof (producer_negative c (size_of fp) cb (py_or fid (rnd_id c))
                    (is_big_file (size_of fp)) (is_not_none fid)
                    (ceil_div (size_of fp) part_size)
                    k (md5_initial (is_big_file (size_of fp)) (is_not_none fid))
                    (entry_state c (PStr p) fp) fp eq_refl Hcl Hk) as Hprod.
      pose proof (transfer_raising c (size_of fp) (name_of fp) cb (py_or fid (rnd_id c))
                    (is_big_file (size_of fp)) (is_not_none fid)
                    (ceil_div (size_of fp) part_size)
                    (seq 0 (workers_count (size_of fp))) k _ _ _ _ Hprod
                    (entry_pool_ok c (PStr p) fp)) as Ht.
      rewrite (run_of_transfer c (PStr p) fid k cb true fp _ _ fp Hv Hsess Ht eq_refl
                 ltac:(discriminate) ltac:(discriminate)).
      cbn [snd]. eexists. split; [apply Hleave; reflexivity|]. cbn. done.
    + destruct fid as [f|].
      * destruct (producer_resume c (size_of fp) cb (py_or (Some f) (rnd_id c))
                    (is_big_file (size_of fp)) (ceil_div (size_of fp) part_size) k
                    (md5_initial (is_big_file (size_of fp)) true)
                    (entry_state c (PStr p) fp) fp _ eq_refl Hcl Hk
                    (entry_pool_ok c (PStr p) fp))
          as (p' & Hprod & Hok & _).
        cbv zeta in Hprod.
        destruct (take (Z.to_nat part_size)
                       (drop (Z.to_nat (part_size * k)) (s_data fp))) eqn:Hchunk.
        -- pose proof (transfer_normal c (size_of fp) (name_of fp) cb
                         (py_or (Some f) (rnd_id c)) (is_big_file (size_of fp)) true
                         (ceil_div (size_of fp) part_size)
                         (seq 0 (workers_count (size_of fp))) k _ _ _ _ Hprod Hok) as Ht.
           rewrite (run_of_transfer c (PStr p) (Some f) k cb true fp _ _ _ Hv Hsess Ht
                      eq_refl ltac:(discriminate) ltac:(discriminate)).
           cbn [snd]. eexists. split; [apply Hleave; reflexivity|]. cbn. done.
        -- pose proof (transfer_returning c (size_of fp) (name_of fp) cb
                         (py_or (Some f) (rnd_id c)) (is_big_file (size_of fp)) true
                         (ceil_div (size_of fp) part_size)
                         (seq 0 (workers_count (size_of fp))) k _ _ _ _ Hprod Hok) as Ht.
           rewrite (run_of_transfer c (PStr p) (Some f) k cb true fp _ _ _ Hv Hsess Ht
                      eq_refl ltac:(discriminate) ltac:(discriminate)).
           cbn [snd]. eexists. split; [apply Hleave; reflexivity|]. cbn. done.
      * destruct (size_of_total_parts fp) as [Htot Hlen].
        destruct (producer_full c (size_of fp) cb (rnd_id c) (is_big_file (size_of fp))
                    (ceil_div (size_of fp) part_size) k [] (entry_state c (PStr p) fp) fp
                    _ eq_refl Hcl Hk (entry_pool_ok c (PStr p) fp) Htot Hlen)
          as (rs & res & s1 & fp1 & Hprod & _ & Hok & _ & Hfp1 & _ & Hdat & Hnm & Hres).
        rewrite <- md5_initial_full in Hprod.
        destruct Hres as [[-> _]|(e & f & cur & -> & _)].
        -- pose proof (transfer_normal c (size_of fp) (name_of fp) cb (rnd_id c)
                         (is_big_file (size_of fp)) false (ceil_div (size_of fp) part_size)
                         (seq 0 (workers_count (size_of fp))) k _ _ _ _ Hprod Hok) as Ht.
           rewrite (run_of_transfer c (PStr p) None k cb true fp _ _ fp1 Hv Hsess Ht
                      Hfp1 ltac:(discriminate) ltac:(discriminate)).
           cbn [snd]. eexists. split; [apply Hleave; exact Hfp1|].
           cbn [s_closed s_data s_name]. rewrite Hdat, Hnm. done.
        -- pose proof (transfer_raising c (size_of fp) (name_of fp) cb (rnd_id c)
                         (is_big_file (size_of fp)) false (ceil_div (size_of fp) part_size)
                         (seq 0 (workers_count (size_of fp))) k _ _ _ _ Hprod Hok) as Ht.
           assert (after_exception e <> Blocked /\ after_exception e <> NoFuel) as [H1 H2]
             by (unfold after_exception; destruct (caught e); split; discriminate).
           rewrite (run_of_transfer c (PStr p) None k cb true fp _ _ fp1 Hv Hsess Ht
                      Hfp1 H1 H2).
           cbn [snd]. eexists. split; [apply Hleave; exact Hfp1|].
           cbn [s_closed s_data s_name]. rewrite Hdat, Hnm. done.
Qed.

Lemma opened_file_closed_witness :
  exists fp',
    st_fp (run demo_client (PStr "a.bin") None 0
               (Some (fun _ _ => Some StopTransmission))).2 = Some fp' /\
    s_closed fp' = true.
Proof.
  destruct (opened_file_closed demo_client "a.bin" None 0
              (Some (fun _ _ => Some StopTransmission)) true
              (Stream (Some "a.bin"%string) (bytes_of_string "a") 0 false))
    as (fp' & Hfp & Hcl & _).
  - split; [reflexivity|]. vm_compute. split; [reflexivity|discriminate].
  - exists fp'. split; [exact Hfp|exact Hcl].
Defined.

(** When the media session cannot be obtained the error is raised to the
    caller as it is; no worker task has been created, nothing was read or
    enqueued, and the call leaves through both [with] blocks: a file opened
    from a path is closed, the semaphore is released. *)
Theorem session_failure_outcome c path fid k cb owned fp e :
  valid_source c path owned fp ->
  session_error c = Some e ->
  let r := run c path fid k cb in
  r.1 = Raises e /\
  st_trace r.2 =
    [EvAcquire] ++ open_events path ++ (if owned then [EvClose] else []) ++ [EvRelease] /\
  st_pool r.2 = Pool None 0 [] [] /\
  exists fp', st_fp r.2 = Some fp' /\ s_closed fp' = owned /\ s_pos fp' = 0.
Proof.
  intros Hv Hsess r. subst r.
  destruct (resolve_open _ _ _ _ (proj1 Hv)) as [Hcl Hpos].
  rewrite (session_failure_run c path fid k cb owned fp e Hv Hsess).
  unfold leave. cbn [fst snd st_trace st_pool st_fp fmap option_fmap option_map].
  split; [reflexivity|]. split; [rewrite <- app_assoc; reflexivity|].
  split; [reflexivity|].
  destruct owned; eexists; (split; [reflexivity|]); cbn [s_closed s_pos]; done.
Qed.

Lemma session_failure_outcome_witness :
  (run offline_client (PStr "a.bin") None 0 None).1 = Raises (OtherError "ConnectionError").
Proof.
  refine (proj1 (session_failure_outcome offline_client (PStr "a.bin") None 0 None true
                   (Stream (Some "a.bin"%string) (bytes_of_string "a") 0 false)
                   (OtherError "ConnectionError") _ _)).
  - split; [reflexivity|]. vm_compute. split; [reflexivity|discriminate].
  - reflexivity.
Defined.

(** ** Edge values of [file_id] and [file_part] *)

(** With a negative [file_part] the seek fails: the call logs one exception
    and returns no result; it reads nothing, enqueues no request, emits no
    notification, and still stops its workers. *)
Theorem negative_part_outcome c path fid k cb owned fp :
  valid_source c path owned fp ->
  session_error c = None ->
  k < 0 ->
  let r := run c path fid k cb in
  r.1 = Returns None /\
  length (logged (st_trace r.2)) = 1%nat /\
  put_requests (st_trace r.2) = [] /\
  notifications (st_trace r.2) = [] /\
  invoked (st_pool r.2) = [] /\
  running (st_pool r.2) = 0%nat.
Proof.
  intros Hv Hsess Hk r. subst r.
  destruct (negative_part_run c path fid k cb owned fp Hv Hsess Hk)
    as (sf & Hrun & Htr & Hinv & Hrn & _).
  rewrite Hrun. cbn [fst snd]. unfold logged, put_requests, notifications.
  rewrite Htr, Hinv, Hrn.
  split_and!; try reflexivity; project_trace; reflexivity.
Qed.

Lemma negative_part_outcome_witness :
  (run demo_client (PStr "a.bin") None (-1) None).1 = Returns None.
Proof.
  refine (proj1 (negative_part_outcome demo_client (PStr "a.bin") None (-1) None true
                   (Stream (Some "a.bin"%string) (bytes_of_string "a") 0 false) _ _ _)).
  - split; [reflexivity|]. vm_compute. split; [reflexivity|discriminate].
  - reflexivity.
  - lia.
Defined.

(** A resumption with [file_id = 0] does not reuse the caller's identifier:
    [0] is not [None], so the call is a resumption, but [file_id or
    self.rnd_id()] takes [0] for a missing value and the single request
    carries the fresh identifier. *)
Theorem resume_zero_id c path k cb owned fp :
  valid_source c path owned fp ->
  session_error c = None ->
  0 <= k ->
  part_size * k < size_of fp ->
  let r := run c path (Some 0) k cb in
  r.1 = Returns None /\
  exists q, put_requests (st_trace r.2) = [q] /\
            rpc_file_id q = rnd_id c /\ rpc_file_part q = k.
Proof.
  intros Hv Hsess Hk Hin r. subst r.
  destruct (resume_run c path 0 k cb owned fp Hv Hsess Hk)
    as (out & sf & Hrun & Htr & _ & _ & _ & Hout).
  pose proof (chunk_in_range (s_data fp) k Hk Hin) as Hne.
  cbv zeta in Htr, Hout. rewrite Hrun. cbn [fst snd].
  change (py_or (Some 0) (rnd_id c)) with (rnd_id c) in Htr.
  destruct (take (Z.to_nat part_size) (drop (Z.to_nat (part_size * k)) (s_data fp)))
    as [|b chunk'] eqn:Hchunk; [contradiction Hne; reflexivity|].
  split; [exact Hout|].
  eexists. unfold put_requests. rewrite Htr. project_trace.
  cbn [map omap list_omap app]. rewrite ?app_nil_r. split; [reflexivity|].
  split; [apply make_rpc_file_id|apply make_rpc_file_part].
Qed.

Lemma resume_zero_id_witness :
  exists q,
    put_requests (st_trace (run demo_client (PStr "a.bin") (Some 0) 0 None).2) = [q] /\
    rpc_file_id q = 777.
Proof.
  destruct (resume_zero_id demo_client (PStr "a.bin") 0 None true
              (Stream (Some "a.bin"%string) (bytes_of_string "a") 0 false))
    as (_ & q & Hput & Hid & _).
  - split; [reflexivity|]. vm_compute. split; [reflexivity|discriminate].
  - reflexivity.
  - lia.
  - vm_compute. reflexivity.
  - exists q. split; [exact Hput|exact Hid].
Defined.

(** ** The file reference *)

Lemma name_of_source c path owned fp :
  resolve c path = Some (owned, fp) -> name_of fp = source_name path.
Proof.
  destruct path as [|p|fp0|]; simpl; try discriminate.
  - destruct (fs c !! p); simpl; [|discriminate]. intros [= <- <-]. reflexivity.
  - destruct (s_closed fp0); [discriminate|]. intros [= <- <-]. reflexivity.
Qed.

(** Every file reference that a call returns is named after the source:
    the path for a file opened from a path, the [name] attribute of a
    stream handed in by the caller, and ["file.jpg"] for a stream without
    that attribute; its number of parts is that of the whole file. *)
Theorem reference_names_source c path fid k cb owned fp v :
  valid_source c path owned fp ->
  session_error c = None ->
  (run c path fid k cb).1 = Returns (Some v) ->
  reference_name v = source_name path /\
  reference_parts v = ceil_div (size_of fp) part_size.
Proof.
  intros Hv Hsess Hret.
  destruct (result_shape c path fid k cb owned fp v Hv Hsess Hret) as (id & m & ->).
  rewrite <- (name_of_source c path owned fp (proj1 Hv)).
  destruct (size_of fp >? 10485760); split; reflexivity.
Qed.

Lemma reference_names_source_witness :
  reference_name (InputFile 777 1 "file.jpg" (MStr "0cc175b9c0f1b6a831c399e269772661"))
    = "file.jpg"%string /\
  reference_parts (InputFile 777 1 "file.jpg" (MStr "0cc175b9c0f1b6a831c399e269772661"))
    = 1.
Proof.
  apply (reference_names_source demo_client
           (PStream (Stream None (bytes_of_string "a") 0 false)) None 0 None false
           (Stream None (bytes_of_string "a") 0 false)).
  - split; [reflexivity|]. vm_compute. split; [reflexivity|discriminate].
  - reflexivity.
  - vm_compute. reflexivity.
Defined.

(** ** The semaphore *)

Lemma semaphore_frame (t mid : list event) :
  t = [EvAcquire] ++ mid ++ [EvRelease] ->
  semaphore_events mid = [] ->
  semaphore_events t = [EvAcquire; EvRelease] /\
  head t = Some EvAcquire /\ last t = Some EvRelease.
Proof.
  intros -> Hmid. unfold semaphore_events in *. rewrite !omap_app, Hmid.
  split; [reflexivity|]. split; [reflexivity|].
  rewrite app_assoc. apply last_snoc.
Qed.

(** Every call of [save_file] acquires [save_file_semaphore] first and
    releases it last, exactly once each, on every exit path: for a [None]
    source, after a validation error, after a failure of the session, and
    whatever the upload itself does. *)
Theorem semaphore_balanced c path fid k cb :
  let t := st_trace (run c path fid k cb).2 in
  semaphore_events t = [EvAcquire; EvRelease] /\
  head t = Some EvAcquire /\ last t = Some EvRelease.
Proof.
  intros t. subst t.
  destruct (validation_cases c path fid k cb) as (Hnone & _ & _ & _ & Hpass & _ & _).
  cbv zeta in Hpass.
  assert (path = PNone \/ path <> PNone) as [->|Hp]
    by (destruct path; [left; reflexivity|right; discriminate..]).
  { rewrite Hnone. apply (semaphore_frame _ []); reflexivity. }
  destruct (enter_media_file_completes c path acquired) as [[r Hr]|[e He]].
  2: { destruct (enter_media_file c path acquired) as [r0 s1] eqn:Hent.
       cbn [fst] in He. subst r0.
       rewrite (run_enter_failure c path fid k cb e s1 Hp Hent). cbn [snd st_trace].
       destruct (resolve c path) as [[owned fp]|] eqn:Hres.
       - rewrite (enter_media_file_resolved _ _ _ _ _ Hres) in Hent.
         injection Hent as _ <-. cbn [st_trace acquired].
         apply (semaphore_frame _ (open_events path)).
         + rewrite <- ?app_assoc. reflexivity.
         + unfold semaphore_events. apply omap_open_events. reflexivity.
       - rewrite (enter_media_file_unresolved _ _ _ Hres) in Hent.
         apply (semaphore_frame _ []); [|reflexivity].
         destruct path; injection Hent as _ <-; reflexivity. }
  destruct (proj1 Hpass (ex_intro _ r Hr)) as (owned & fp & Hv).
  destruct (session_error c) as [e|] eqn:Hsess.
  { rewrite (session_failure_run c path fid k cb owned fp e Hv Hsess).
    unfold leave. cbn [snd st_trace].
    apply (semaphore_frame _ (open_events path ++ (if owned then [EvClose] else []))).
    - rewrite <- ?app_assoc. reflexivity.
    - unfold semaphore_events. project_trace. reflexivity. }
  destruct (Z.lt_ge_cases k 0) as [Hk|Hk].
  { destruct (negative_part_run c path fid k cb owned fp Hv Hsess Hk)
      as (sf & Hrun & Htr & _).
    rewrite Hrun. cbn [snd].
    apply (semaphore_frame _
             (open_events path ++ map EvSpawn (seq 0 (workers_count (size_of fp))) ++
              [EvLog OSError] ++
              replicate (workers_count (size_of fp)) (EvPut Sentinel) ++ [EvGather] ++
              (if owned then [EvClose] else []))).
    - rewrite Htr, <- ?app_assoc. reflexivity.
    - unfold semaphore_events. project_trace. reflexivity. }
  destruct fid as [f|].
  - destruct (resume_run c path f k cb owned fp Hv Hsess Hk)
      as (out & sf & Hrun & Htr & _).
    rewrite Hrun. cbn [snd]. cbv zeta in Htr.
    destruct (take (Z.to_nat part_size) (drop (Z.to_nat (part_size * k)) (s_data fp)))
      as [|b chunk'].
    + apply (semaphore_frame _
               (open_events path ++ map EvSpawn (seq 0 (workers_count (size_of fp))) ++
                replicate (workers_count (size_of fp)) (EvPut Sentinel) ++ [EvGather] ++
                (if owned then [EvClose] else []))).
      * rewrite Htr, <- ?app_assoc. reflexivity.
      * unfold semaphore_events. project_trace. reflexivity.
    + apply (semaphore_frame _
               (open_events path ++ map EvSpawn (seq 0 (workers_count (size_of fp))) ++
                [EvPut (Rpc (make_rpc (py_or (Some f) (rnd_id c)) (is_big_file (size_of fp))
                               (ceil_div (size_of fp) part_size) k (b :: chunk')))] ++
                replicate (workers_count (size_of fp)) (EvPut Sentinel) ++ [EvGather] ++
                (if owned then [EvClose] else []))).
      * rewrite Htr, <- ?app_assoc. reflexivity.
      * unfold semaphore_events. project_trace. reflexivity.
  - destruct (full_upload_run c path k cb owned fp Hv Hsess Hk)
      as (rs & out & sf & Hrun & extra & Htr & _ & _ & _ & Hcase).
    rewrite Hrun. cbn [snd].
    apply (semaphore_frame _
             (open_events path ++ map EvSpawn (seq 0 (workers_count (size_of fp))) ++
              flat_map (notify (size_of fp)) rs ++ extra ++
              replicate (workers_count (size_of fp)) (EvPut Sentinel) ++ [EvGather] ++
              (if owned then [EvClose] else []))).
    + rewrite Htr, <- ?app_assoc. reflexivity.
    + unfold semaphore_events. project_trace.
      rewrite omap_notify_none by (intros; reflexivity).
      assert (omap (fun ev => match ev with
                              | EvAcquire | EvRelease => Some ev
                              | _ => None
                              end) extra = []) as ->
        by (destruct Hcase as [(_ & _ & ->)|(e & f & cur & _ & _ & _ & _ & -> & _)];
            [reflexivity|apply omap_log_of; intros; reflexivity]).
      reflexivity.
Qed.

(** ** The checksum string *)

Lemma le_bytes_length n w : length (MD5.le_bytes n w) = n.
Proof. revert w. induction n as [|n IH]; intros w; simpl; [reflexivity|]. rewrite IH. done. Qed.

Lemma md5_digest_length data : length (md5_digest data) = 16%nat.
Proof.
  unfold md5_digest, MD5.digest_values. cbv zeta.
  rewrite length_map, !length_app, !le_bytes_length. reflexivity.
Qed.

Lemma hex_byte_lower (b : byte) :
  is_lower_hex (hex_digit (byte_val b / 16)) = true /\
  is_lower_hex (hex_digit (byte_val b mod 16)) = true.
Proof. destruct b; split; reflexivity. Qed.

(** The expression that joins [hex(i)[2:].zfill(2)] over the digest gives
    the canonical hexadecimal form: two lowercase digits for every byte,
    high nibble first, so 32 characters for an MD5 digest. *)
Theorem checksum_rendering (d data : list byte) :
  join_hex d = hexdigest d /\
  String.length (join_hex d) = (2 * length d)%nat /\
  forallb is_lower_hex (list_ascii_of_string (join_hex d)) = true /\
  String.length (join_hex (md5_digest data)) = 32%nat.
Proof.
  assert (Hlen : forall l : list byte, String.length (hexdigest l) = (2 * length l)%nat).
  { induction l as [|b l IH]; [reflexivity|].
    unfold hexdigest in *. cbn [fold_right String.length length]. rewrite IH. lia. }
  split; [apply join_hex_hexdigest|]. rewrite !join_hex_hexdigest.
  split; [apply Hlen|]. split.
  - induction d as [|b d IH]; [reflexivity|].
    unfold hexdigest in *. cbn [fold_right list_ascii_of_string forallb].
    destruct (hex_byte_lower b) as [-> ->]. exact IH.
  - rewrite Hlen, md5_digest_length. reflexivity.
Qed.

(** ** The parts of the file *)

Lemma ceil_div_unique a b q :
  0 < b -> (q - 1) * b < a <= q * b -> ceil_div a b = q.
Proof. intros Hb Hq. pose proof (ceil_div_spec a b Hb). nia. Qed.

(** With enough fuel the number of chunks is the ceiling of the quotient. *)
Lemma split_parts_length (fuel : nat) :
  forall rest : list byte,
    Z.of_nat (length rest) <= Z.of_nat fuel * part_size ->
    Z.of_nat (length (split_parts fuel rest)) = ceil_div (Z.of_nat (length rest)) part_size.
Proof.
  pose proof part_size_pos as Hp.
  induction fuel as [|fuel IH]; intros rest Hlen.
  - assert (rest = []) as -> by (apply length_zero_iff_nil; lia). reflexivity.
  - cbn [split_parts].
    destruct (take (Z.to_nat part_size) rest) as [|b chunk'] eqn:Hchunk.
    + apply take_nil_inv in Hchunk; [|lia]. subst rest. reflexivity.
    + assert (rest <> []) as Hne by (intros ->; rewrite take_nil in Hchunk; discriminate).
      assert (0 < length rest)%nat by (destruct rest; [done|simpl; lia]).
      cbn [length]. rewrite Nat2Z.inj_succ, IH by (rewrite length_drop; lia).
      rewrite length_drop. symmetry. apply ceil_div_unique; [exact Hp|].
      pose proof (ceil_div_spec (Z.of_nat (length rest - Z.to_nat part_size)) part_size Hp).
      destruct (Nat.le_gt_cases (length rest) (Z.to_nat part_size)).
      * replace (length rest - Z.to_nat part_size)%nat with 0%nat in * by lia.
        change (ceil_div (Z.of_nat 0) part_size) with (ceil_div 0 part_size) in *.
        assert (ceil_div 0 part_size = 0) as Hz
          by (apply ceil_div_unique; [exact Hp|lia]).
        rewrite Hz in *. lia.
      * lia.
Qed.

Lemma split_parts_S fuel (rest : list byte) :
  split_parts (S fuel) rest =
  match take (Z.to_nat part_size) rest with
  | [] => []
  | chunk => chunk :: split_parts fuel (drop (Z.to_nat part_size) rest)
  end.
Proof. reflexivity. Qed.

(** The chunk of index [i] is the bytes from offset [i * part_size]. *)
Lemma split_parts_lookup (fuel : nat) :
  forall (rest : list byte) i chunk,
    split_parts fuel rest !! i = Some chunk ->
    chunk = take (Z.to_nat part_size) (drop (i * Z.to_nat part_size) rest).
Proof.
  induction fuel as [|fuel IH]; intros rest i chunk Hi; [discriminate Hi|].
  rewrite split_parts_S in Hi.
  destruct (take (Z.to_nat part_size) rest) as [|b chunk'] eqn:Hchunk; [discriminate Hi|].
  destruct i as [|i].
  - injection Hi as <-. rewrite <- Hchunk. reflexivity.
  - change ((b :: chunk') :: split_parts fuel (drop (Z.to_nat part_size) rest))
      with ([b :: chunk'] ++ split_parts fuel (drop (Z.to_nat part_size) rest)) in Hi.
    rewrite lookup_app_r in Hi by (simpl; lia).
    replace (S i - length [b :: chunk'])%nat with i in Hi by (simpl; lia).
    apply IH in Hi. rewrite Hi, drop_drop.
    rewrite (Nat.mul_succ_l i), (Nat.add_comm (i * _)). reflexivity.
Qed.

Lemma requests_lookup id big total (chunks : list (list byte)) :
  forall k i r,
    requests (make_rpc id big total) k chunks !! i = Some r ->
    exists chunk, chunks !! i = Some chunk /\
                  r = make_rpc id big total (k + Z.of_nat i) chunk.
Proof.
  induction chunks as [|chunk chunks IH]; intros k i r Hi; [discriminate Hi|].
  cbn [requests] in Hi. destruct i as [|i].
  - injection Hi as <-. exists chunk. rewrite Z.add_0_r. done.
  - cbn [lookup list_lookup] in Hi. destruct (IH _ _ _ Hi) as (ch & Hch & ->).
    exists ch. split; [exact Hch|]. f_equal. lia.
Qed.

Lemma make_rpc_total_parts id big total k chunk :
  rpc_total_parts (make_rpc id big total k chunk) = if big then Some total else None.
Proof. unfold make_rpc. destruct big; reflexivity. Qed.

(** The requests of an upload from part [k] are the requests of the file. *)
Lemma requests_ok id big total (data : list byte) k fuel :
  0 <= k ->
  Forall (request_ok id total big data)
         (requests (make_rpc id big total) k
                   (split_parts fuel (drop (Z.to_nat (part_size * k)) data))).
Proof.
  intros Hk. pose proof part_size_pos as Hp.
  apply Forall_lookup. intros i r Hi.
  destruct (requests_lookup _ _ _ _ _ _ _ Hi) as (chunk & Hch & ->).
  pose proof (split_parts_sizes fuel (drop (Z.to_nat (part_size * k)) data)) as Hsz.
  rewrite Forall_lookup in Hsz. specialize (Hsz i chunk Hch).
  apply split_parts_lookup in Hch.
  unfold request_ok.
  rewrite make_rpc_file_id, make_rpc_total_parts, make_rpc_bytes, make_rpc_file_part.
  split_and!; try reflexivity.
  - intros ->. simpl in Hsz. lia.
  - assert (Z.to_nat (part_size * (k + Z.of_nat i)) =
            (Z.to_nat (part_size * k) + i * Z.to_nat part_size)%nat) as ->.
    { apply Nat2Z.inj. rewrite Nat2Z.inj_add, Nat2Z.inj_mul.
      rewrite !Z2Nat.id by nia. lia. }
    rewrite Hch, drop_drop. reflexivity.
Qed.

(** Whatever the mode and the callback, every request that a call enqueues
    is a request of the file: it carries the identifier of the upload,
    [file_total_parts] iff the file is big, and, non-empty, the bytes of the
    file at the offset [file_part * 524288] of its own part index; so the
    parts can be sent and stored in any order. *)
Theorem requests_carry_their_bytes c path fid k cb owned fp :
  valid_source c path owned fp ->
  session_error c = None ->
  Forall (request_ok (py_or fid (rnd_id c)) (ceil_div (size_of fp) part_size)
                     (is_big_file (size_of fp)) (s_data fp))
         (put_requests (st_trace (run c path fid k cb).2)).
Proof.
  intros Hv Hsess. unfold put_requests.
  destruct (Z.lt_ge_cases k 0) as [Hk|Hk].
  - destruct (negative_part_run c path fid k cb owned fp Hv Hsess Hk)
      as (sf & Hrun & Htr & _).
    rewrite Hrun. cbn [snd]. rewrite Htr. project_trace. constructor.
  - destruct fid as [f|].
    + destruct (resume_run c path f k cb owned fp Hv Hsess Hk)
        as (out & sf & Hrun & Htr & _).
      rewrite Hrun. cbn [snd]. cbv zeta in Htr.
      destruct (take (Z.to_nat part_size) (drop (Z.to_nat (part_size * k)) (s_data fp)))
        as [|b chunk'] eqn:Hchunk; rewrite Htr; project_trace;
        cbn [map omap list_omap app]; rewrite ?app_nil_r; constructor; [|constructor].
      unfold request_ok.
      rewrite make_rpc_file_id, make_rpc_total_parts, make_rpc_bytes, make_rpc_file_part.
      split_and!; try reflexivity; [discriminate|]. symmetry. exact Hchunk.
    + destruct (full_upload_run c path k cb owned fp Hv Hsess Hk)
        as (rs & out & sf & Hrun & extra & Htr & _ & _ & _ & Hcase).
      rewrite Hrun. cbn [snd]. rewrite Htr. project_trace.
      assert (omap (fun ev => match ev with EvPut (Rpc r) => Some r | _ => None end) extra
              = []) as ->
        by (destruct Hcase as [(_ & _ & ->)|(e & f & cur & _ & _ & _ & _ & -> & _)];
            [reflexivity|apply omap_log_of; intros; reflexivity]).
      cbn [app]. rewrite app_nil_r. cbn [py_or].
      pose proof (requests_ok (rnd_id c) (is_big_file (size_of fp))
                    (ceil_div (size_of fp) part_size) (s_data fp) k
                    (Z.to_nat (ceil_div (size_of fp) part_size)) Hk) as Hall.
      destruct Hcase as [(_ & -> & _)|(e & f & cur & _ & _ & [rest Hpre] & _)].
      * exact Hall.
      * rewrite Hpre in Hall. apply Forall_app in Hall. exact (proj1 Hall).
Qed.

Lemma requests_carry_their_bytes_witness :
  Forall (request_ok 777 1 false (bytes_of_string "a"))
         (put_requests (st_trace (run demo_client (PStr "a.bin") None 0 None).2)).
Proof.
  apply (requests_carry_their_bytes demo_client (PStr "a.bin") None 0 None true
           (Stream (Some "a.bin"%string) (bytes_of_string "a") 0 false)).
  - split; [reflexivity|]. vm_compute. split; [reflexivity|discriminate].
  - reflexivity.
Defined.

Lemma requests_length id big total (chunks : list (list byte)) :
  forall k, length (requests (make_rpc id big total) k chunks) = length chunks.
Proof.
  induction chunks as [|chunk chunks IH]; intros k; [reflexivity|].
  cbn [requests length]. rewrite IH. reflexivity.
Qed.

Lemma reference_parts_file_reference id total name big m :
  reference_parts (file_reference id total name big m) = total.
Proof. unfold file_reference. destruct big; reflexivity. Qed.

(** Every chunk but the last is full. *)
Lemma split_parts_full (fuel : nat) (rest : list byte) i chunk :
  split_parts fuel rest !! i = Some chunk ->
  (S i < length (split_parts fuel rest))%nat ->
  Z.of_nat (length chunk) = part_size.
Proof.
  intros Hi Hlt. pose proof part_size_pos as Hp.
  destruct (lookup_lt_is_Some_2 _ _ Hlt) as [next Hnext].
  pose proof (split_parts_sizes fuel rest) as Hsz.
  rewrite Forall_lookup in Hsz. specialize (Hsz _ _ Hnext).
  apply split_parts_lookup in Hnext. apply split_parts_lookup in Hi.
  rewrite Hnext, length_take, length_drop in Hsz.
  rewrite Hi, length_take, length_drop. lia.
Qed.

(** A complete upload, from a part [k] between 0 and the number of parts
    of the file, announces as many parts as it is going to send when it
    starts at part 0: the requests enqueued are as many as the
    [file_total_parts] of the returned reference (fewer when it starts at a
    later part: the ceiling of the suffix over 524288), every request but
    the last carries exactly 524288 bytes, and every one is invoked. *)
Theorem complete_upload_parts c path k cb owned fp :
  valid_source c path owned fp ->
  session_error c = None ->
  0 <= k ->
  k <= ceil_div (size_of fp) part_size ->
  never_raises cb ->
  let suffix := drop (Z.to_nat (part_size * k)) (s_data fp) in
  exists v sf,
    run c path None k cb = (Returns (Some v), sf) /\
    let rs := put_requests (st_trace sf) in
    Z.of_nat (length rs) = ceil_div (Z.of_nat (length suffix)) part_size /\
    (k = 0 -> Z.of_nat (length rs) = reference_parts v) /\
    (forall i r, rs !! i = Some r -> (S i < length rs)%nat ->
                 Z.of_nat (length (rpc_bytes r)) = part_size) /\
    invoked (st_pool sf) = rs.
Proof.
  intros Hv Hsess Hk _ Hcb suffix.
  destruct (complete_upload_run c path k cb owned fp Hv Hsess Hk Hcb)
    as (sf & Hrun & Hput & Hinv).
  destruct (size_of_total_parts fp) as [Htot Hlen].
  eexists _, sf. split; [exact Hrun|]. cbv zeta. rewrite Hput in *.
  assert (Hfuel : Z.of_nat (length suffix)
                  <= Z.of_nat (Z.to_nat (ceil_div (size_of fp) part_size)) * part_size)
    by (subst suffix; rewrite length_drop, Z2Nat.id by exact Htot; lia).
  rewrite requests_length, reference_parts_file_reference.
  split_and!.
  - apply split_parts_length. exact Hfuel.
  - intros ->. rewrite split_parts_length by exact Hfuel.
    subst suffix. rewrite Z.mul_0_r. reflexivity.
  - intros i r Hi Hlt. destruct (requests_lookup _ _ _ _ _ _ _ Hi) as (chunk & Hch & ->).
    rewrite make_rpc_bytes. exact (split_parts_full _ _ _ _ Hch Hlt).
  - exact Hinv.
Qed.

Lemma complete_upload_parts_witness :
  exists v sf,
    run demo_client (PStr "a.bin") None 0 None = (Returns (Some v), sf) /\
    Z.of_nat (length (put_requests (st_trace sf))) = reference_parts v.
Proof.
  destruct (complete_upload_parts demo_client (PStr "a.bin") 0 None true
              (Stream (Some "a.bin"%string) (bytes_of_string "a") 0 false))
    as (v & sf & Hrun & _ & Hparts & _).
  - split; [reflexivity|]. vm_compute. split; [reflexivity|discriminate].
  - reflexivity.
  - lia.
  - vm_compute. discriminate.
  - intros f Hf. discriminate Hf.
  - exists v, sf. split; [exact Hrun|exact (Hparts eq_refl)].
Defined.

(** ** Progress *)

Lemma omap_notify_notifications size rs :
  omap (fun ev => match ev with EvProgress cur tot => Some (cur, tot) | _ => None end)
       (flat_map (notify size) rs) =
  map (fun r => (Z.min ((rpc_file_part r + 1) * part_size) size, size)) rs.
Proof. induction rs as [|r rs IH]; simpl; [done|]. f_equal. exact IH. Qed.

Lemma last_map {A B} (f : A -> B) (l : list A) :
  last (map f l) = option_map f (last l).
Proof.
  induction l as [|x l IH]; [reflexivity|].
  destruct l as [|y l]; [reflexivity|].
  cbn [map] in *. rewrite !last_cons_cons. exact IH.
Qed.

(** Progress of a complete upload: the callback is notified once for each
    part, always with the size of the file as total and a current value
    from 1 to that size, and the last notification reports the whole file
    ([current = total]), also when the last part is short. *)
Theorem progress_reaches_total c path k cb owned fp :
  valid_source c path owned fp ->
  session_error c = None ->
  0 <= k ->
  part_size * k < size_of fp ->
  never_raises cb ->
  let t := st_trace (run c path None k cb).2 in
  notifications t =
    map (fun r => (Z.min ((rpc_file_part r + 1) * part_size) (size_of fp), size_of fp))
        (put_requests t) /\
  Forall (fun n : Z * Z => 0 < n.1 <= size_of fp /\ n.2 = size_of fp) (notifications t) /\
  last (notifications t) = Some (size_of fp, size_of fp).
Proof.
  intros Hv Hsess Hk Hin Hcb t. subst t.
  pose proof part_size_pos as Hp.
  destruct (size_of_total_parts fp) as [Htot Hlen].
  destruct (full_upload_run c path k cb owned fp Hv Hsess Hk)
    as (rs & out & sf & Hrun & extra & Htr & _ & _ & _ & Hcase).
  destruct Hcase as [(_ & Hrs & ->)|(e & f & cur & Hf & He & _)];
    [|rewrite (Hcb f Hf cur (size_of fp)) in He; discriminate He].
  rewrite Hrun. cbn [snd].
  assert (Hput : put_requests (st_trace sf) = rs)
    by (unfold put_requests; rewrite Htr; project_trace; apply app_nil_r).
  assert (Hnot : notifications (st_trace sf) =
                 map (fun r => (Z.min ((rpc_file_part r + 1) * part_size) (size_of fp),
                                size_of fp)) rs).
  { unfold notifications. rewrite Htr. project_trace.
    rewrite omap_notify_notifications. apply app_nil_r. }
  rewrite Hput, Hnot. split; [reflexivity|].
  pose proof (requests_prefix_parts (rnd_id c) (is_big_file (size_of fp))
                (ceil_div (size_of fp) part_size) _ k rs
                ltac:(rewrite Hrs; reflexivity)) as Hparts.
  assert (Hsize : 0 < size_of fp) by (destruct Hv as [_ [? _]]; lia).
  split.
  - apply Forall_forall. intros n Hn. apply list_elem_of_In, in_map_iff in Hn.
    destruct Hn as (r & <- & Hr). cbn [fst snd]. split; [|reflexivity].
    assert (0 <= rpc_file_part r).
    { assert (In (rpc_file_part r) (map rpc_file_part rs)) as Hm
        by (apply in_map; exact Hr).
      rewrite Hparts in Hm. apply in_map_iff in Hm. destruct Hm as (i & <- & _). lia. }
    split; [apply Z.min_glb_lt; nia|apply Z.le_min_r].
  - rewrite last_map.
    set (suffix := drop (Z.to_nat (part_size * k)) (s_data fp)) in *.
    set (chunks := split_parts (Z.to_nat (ceil_div (size_of fp) part_size)) suffix) in *.
    assert (Hsuf : Z.of_nat (length suffix) = size_of fp - part_size * k)
      by (subst suffix; rewrite length_drop; unfold size_of in *; lia).
    assert (Hn : Z.of_nat (length chunks) = ceil_div (Z.of_nat (length suffix)) part_size)
      by (apply split_parts_length; rewrite Z2Nat.id by exact Htot; unfold size_of in *; lia).
    pose proof (ceil_div_spec (Z.of_nat (length suffix)) part_size Hp) as Hceil.
    assert (Hlen_rs : length rs = length chunks)
      by (rewrite Hrs; apply requests_length).
    assert (0 < length chunks)%nat by nia.
    rewrite last_lookup.
    destruct (lookup_lt_is_Some_2 rs (pred (length rs)) ltac:(lia)) as [r Hr].
    rewrite Hr. cbn [option_map]. f_equal. f_equal.
    rewrite Hrs in Hr. destruct (requests_lookup _ _ _ _ _ _ _ Hr) as (chunk & _ & ->).
    rewrite make_rpc_file_part. apply Z.min_r. rewrite <- Hrs in *. nia.
Qed.

Lemma progress_reaches_total_witness :
  last (notifications (st_trace (run demo_client (PStr "a.bin") None 0 None).2))
  = Some (1, 1).
Proof.
  refine (proj2 (proj2 (progress_reaches_total demo_client (PStr "a.bin") 0 None true
                          (Stream (Some "a.bin"%string) (bytes_of_string "a") 0 false)
                          _ _ _ _ _))).
  - split; [reflexivity|]. vm_compute. split; [reflexivity|discriminate].
  - reflexivity.
  - lia.
  - vm_compute. reflexivity.
  - intros f Hf. discriminate Hf.
Defined.

(** ** Failures of [session.invoke] in the workers *)

Section WorkerFailures.

(** Two clients that differ at most in which requests fail. *)
Variables (me0 : option user) (id0 : Z) (files : gmap string (list byte)).
Variables (se : option exn) (f g : rpc -> bool).

Local Abbreviation cf := (Client me0 id0 files se f).
Local Abbreviation cg := (Client me0 id0 files se g).

Ltac open_states :=
  intros [fp [sl rn inv wl] tr] [fp' [sl' rn' inv' wl'] tr']
         (Hfp & Htr & Hsl & Hrn & Hinv & Hwl & Hwl');
  cbn [st_fp st_trace st_pool slot running invoked worker_log invoke_fails]
    in Hfp, Htr, Hsl, Hrn, Hinv, Hwl, Hwl';
  subst fp' tr' sl' rn' inv'.

Ltac close_states :=
  cbn [fst snd st_fp st_trace st_pool slot running invoked worker_log invoke_fails];
  repeat split; try reflexivity; try assumption.

Lemma related_ret {A} (a : A) : related cf cg (ret a) (ret a).
Proof. intros s s' Hs. split; [reflexivity|exact Hs]. Qed.

Lemma related_raise {A} (e : exn) : related cf cg (@raise A e) (raise e).
Proof. intros s s' Hs. split; [reflexivity|exact Hs]. Qed.

Lemma related_return {A} (v : option input_file) :
  related cf cg (@return_ A v) (return_ v).
Proof. intros s s' Hs. split; [reflexivity|exact Hs]. Qed.

Lemma related_emit (ev : event) : related cf cg (emit ev) (emit ev).
Proof. open_states. unfold emit. close_states. Qed.

Lemma related_bind {A B} (m m' : M A) (k k' : A -> M B) :
  related cf cg m m' ->
  (forall a, related cf cg (k a) (k' a)) ->
  related cf cg (bind m k) (bind m' k').
Proof.
  intros Hm Hk s s' Hs. unfold bind.
  destruct (Hm s s' Hs) as [H1 H2].
  destruct (m s) as [r t], (m' s') as [r' t']. cbn [fst snd] in H1, H2. subst r'.
  destruct r; try (split; [reflexivity|exact H2]).
  apply Hk. exact H2.
Qed.

Lemma related_try_finally {A} (body body' : M A) (fin fin' : M unit) :
  related cf cg body body' ->
  related cf cg fin fin' ->
  related cf cg (try_finally body fin) (try_finally body' fin').
Proof.
  intros Hb Hf s s' Hs. unfold try_finally.
  destruct (Hb s s' Hs) as [H1 H2].
  destruct (body s) as [r t], (body' s') as [r' t']. cbn [fst snd] in H1, H2. subst r'.
  destruct (Hf t t' H2) as [H3 H4].
  destruct (fin t) as [q u], (fin' t') as [q' u']. cbn [fst snd] in H3, H4. subst q'.
  destruct r, q; split; try reflexivity; assumption.
Qed.

Lemma related_try_except_else {A B} (body body' : M A) (h : exn -> option (M B))
    (orelse orelse' : A -> M B) :
  related cf cg body body' ->
  (forall e x, h e = Some x -> related cf cg x x) ->
  (forall a, related cf cg (orelse a) (orelse' a)) ->
  related cf cg (try_except_else body h orelse) (try_except_else body' h orelse').
Proof.
  intros Hb Hh Ho s s' Hs. unfold try_except_else.
  destruct (Hb s s' Hs) as [H1 H2].
  destruct (body s) as [r t], (body' s') as [r' t']. cbn [fst snd] in H1, H2. subst r'.
  destruct r; try (split; [reflexivity|exact H2]).
  - apply Ho. exact H2.
  - destruct (h e) as [x|] eqn:He; [|split; [reflexivity|exact H2]].
    apply (Hh e x He). exact H2.
Qed.

Lemma related_for_each {X} (l : list X) (fn fn' : X -> M unit) :
  (forall x, related cf cg (fn x) (fn' x)) ->
  related cf cg (for_each l fn) (for_each l fn').
Proof.
  intros Hfn. induction l as [|x l IH]; cbn [for_each].
  - apply related_ret.
  - apply related_bind; [apply Hfn|intros _; exact IH].
Qed.

Lemma related_with_fp {A} (fn : stream -> completion A * stream) :
  related cf cg (with_fp fn) (with_fp fn).
Proof.
  open_states. unfold with_fp. cbn [st_fp st_pool st_trace].
  destruct fp as [fp|]; [|close_states].
  destruct (s_closed fp); [close_states|].
  destruct (fn fp) as [r fp2]. close_states.
Qed.

Lemma related_py_open (p : string) : related cf cg (py_open cf p) (py_open cg p).
Proof.
  open_states. unfold py_open. cbn [fs].
  destruct (files !! p); close_states.
Qed.

Lemma related_use_stream (fp0 : stream) : related cf cg (use_stream fp0) (use_stream fp0).
Proof. open_states. unfold use_stream. close_states. Qed.

Lemma related_fp_name : related cf cg fp_name fp_name.
Proof. open_states. unfold fp_name. cbn [st_fp]. destruct fp; close_states. Qed.

Lemma related_fp_close : related cf cg fp_close_ fp_close_.
Proof. open_states. unfold fp_close_. cbn [st_fp]. destruct fp; close_states. Qed.

Lemma related_create_task (i : nat) : related cf cg (create_task i) (create_task i).
Proof. open_states. unfold create_task. close_states. Qed.

Lemma related_create_tasks (l : list nat) :
  related cf cg (create_tasks l) (create_tasks l).
Proof.
  induction l as [|i l IH]; cbn [create_tasks].
  - apply related_ret.
  - apply related_bind; [apply related_create_task|intros w].
    apply related_bind; [exact IH|intros ws]. apply related_ret.
Qed.

(** A worker that takes an item keeps the two pools in step: a failing
    [invoke] changes the log only. *)
Lemma filter_snoc (h : rpc -> bool) (l : list rpc) (r : rpc) :
  (if h r then List.filter h l ++ [r] else List.filter h l) = List.filter h (l ++ [r]).
Proof.
  rewrite List.filter_app. cbn [List.filter].
  destruct (h r); [reflexivity|rewrite app_nil_r; reflexivity].
Qed.

Lemma related_queue_put (it : item) : related cf cg (queue_put cf it) (queue_put cg it).
Proof.
  unfold queue_put. apply related_bind; [apply related_emit|intros _].
  open_states. cbn [st_pool slot].
  destruct sl as [data|]; [|close_states].
  unfold dequeue. cbn [slot running].
  destruct rn as [|rn]; [close_states|].
  destruct data as [r|]; unfold file_upload_worker;
    cbn [invoked worker_log running invoke_fails]; close_states;
    subst wl wl'; apply filter_snoc.
Qed.

Lemma related_gather : related cf cg (gather cf) (gather cg).
Proof.
  unfold gather. apply related_bind; [apply related_emit|intros _].
  open_states. cbn [st_pool]. unfold dequeue. cbn [slot running].
  destruct sl as [data|].
  - destruct rn as [|rn]; [cbn [default running]; close_states|].
    destruct data as [r|]; unfold file_upload_worker;
      cbn [default invoked worker_log running invoke_fails Nat.pred].
    + close_states; subst wl wl'; apply filter_snoc.
    + destruct rn; close_states.
  - cbn [default running]. destruct rn; close_states.
Qed.

Lemma related_progress (progress : option callback) (file_size current : Z) :
  related cf cg (make_progress_callback progress file_size current)
                (make_progress_callback progress file_size current).
Proof.
  unfold make_progress_callback. apply related_bind; [apply related_emit|intros _].
  destruct progress as [cb|]; [|apply related_ret].
  destruct (cb current file_size); [apply related_raise|apply related_ret].
Qed.

Lemma related_md5_update m chunk : related cf cg (md5_update m chunk) (md5_update m chunk).
Proof. destruct m; first [apply related_ret|apply related_raise]. Qed.

Lemma related_md5_join m : related cf cg (md5_join m) (md5_join m).
Proof. destruct m; first [apply related_ret|apply related_raise]. Qed.

Lemma related_enter_media_file (path : path_arg) :
  related cf cg (enter_media_file cf path) (enter_media_file cg path).
Proof.
  unfold enter_media_file. cbn [me].
  apply related_bind.
  { destruct path; try apply related_raise.
    - apply related_bind; [apply related_py_open|intros _; apply related_ret].
    - apply related_bind; [apply related_use_stream|intros _; apply related_ret]. }
  intros fp_close. apply related_bind; [apply related_fp_name|intros file_name].
  apply related_bind; [apply related_with_fp|intros _].
  apply related_bind; [apply related_with_fp|intros file_size].
  apply related_bind; [apply related_with_fp|intros _].
  destruct (file_size =? 0); [apply related_raise|].
  destruct (file_size >? file_size_limit_mib me0 * 1024 * 1024);
    [apply related_raise|apply related_ret].
Qed.

Lemma related_open_media_file {A} (path : path_arg) (body body' : Z -> string -> M A) :
  (forall file_size file_name, related cf cg (body file_size file_name) (body' file_size file_name)) ->
  related cf cg (open_media_file cf path body) (open_media_file cg path body').
Proof.
  intros Hbody. unfold open_media_file.
  apply related_bind; [apply related_enter_media_file|intros [[fp_close file_size] file_name]].
  apply related_try_finally; [apply Hbody|].
  destruct fp_close; [apply related_fp_close|apply related_ret].
Qed.

Lemma related_read_loop file_size progress file_id is_big is_missing_part total fuel :
  forall file_part md5_sum,
    related cf cg
      (read_loop cf file_size progress file_id is_big is_missing_part total fuel
                 file_part md5_sum)
      (read_loop cg file_size progress file_id is_big is_missing_part total fuel
                 file_part md5_sum).
Proof.
  induction fuel as [|fuel IH]; intros file_part md5_sum; cbn [read_loop].
  - intros s s' Hs. split; [reflexivity|exact Hs].
  - apply related_bind; [apply related_with_fp|intros chunk].
    destruct chunk as [|b chunk].
    + destruct (negb is_big && negb is_missing_part);
        [apply related_md5_join|apply related_ret].
    + apply related_bind; [apply related_queue_put|intros _].
      destruct is_missing_part; [apply related_return|].
      apply related_bind.
      { destruct (negb (is_big || false)); [apply related_md5_update|apply related_ret]. }
      intros md5_sum'.
      apply related_bind; [apply related_progress|intros _]. apply IH.
Qed.

Lemma related_transfer file_size file_name progress file_id is_big is_missing_part total
    workers file_part md5_sum :
  related cf cg
    (transfer cf file_size file_name progress file_id is_big is_missing_part total
              workers file_part md5_sum)
    (transfer cg file_size file_name progress file_id is_big is_missing_part total
              workers file_part md5_sum).
Proof.
  unfold transfer. apply related_try_finally.
  - apply related_try_except_else.
    + unfold producer. apply related_bind; [apply related_with_fp|intros _].
      apply related_read_loop.
    + intros e x He. unfold handlers in He.
      destruct e; cbn [is_Exception] in He; try discriminate He;
        injection He as <-; first [apply related_raise|apply related_emit].
    + intros m. unfold result. destruct is_big; apply related_return.
  - unfold shutdown. apply related_bind; [|intros _; apply related_gather].
    apply related_for_each. intros _. apply related_queue_put.
Qed.

Lemma related_save_file path fid k cb :
  related cf cg (save_file cf path fid k cb) (save_file cg path fid k cb).
Proof.
  unfold save_file, with_semaphore.
  apply related_bind; [apply related_emit|intros _].
  apply related_try_finally; [|apply related_emit].
  assert (related cf cg (open_media_file cf path (upload cf fid k cb))
                        (open_media_file cg path (upload cg fid k cb))) as Hopen.
  { apply related_open_media_file. intros file_size file_name.
    unfold upload, get_media_session. cbn [session_error rnd_id].
    apply related_bind; [destruct se; [apply related_raise|apply related_ret]|intros _].
    apply related_bind; [apply related_create_tasks|intros workers].
    apply related_transfer. }
  destruct path; [apply related_return|exact Hopen..].
Qed.

(** Two calls that differ only in which requests fail stay in step. *)
Lemma run_in_step path fid k cb :
  (run cf path fid k cb).1 = (run cg path fid k cb).1 /\
  in_step cf cg (run cf path fid k cb).2 (run cg path fid k cb).2.
Proof.
  assert (in_step cf cg initial initial) as H0 by (unfold initial; close_states).
  destruct (related_save_file path fid k cb initial initial H0) as [H1 H2].
  unfold run, call.
  destruct (save_file cf path fid k cb initial) as [r t],
           (save_file cg path fid k cb initial) as [r' t'].
  cbn [fst snd] in H1, H2. subst r'.
  destruct r; split; first [reflexivity|exact H2].
Qed.

End WorkerFailures.

(** An [Exception] raised by [session.invoke] in a worker never reaches the
    call: the worker logs it and takes the next item.  So two calls on
    clients that differ only in which requests fail end alike,
    with the same result or exception, the same trace (requests enqueued,
    notifications, exceptions logged by [save_file]), the same stream, and
    the same requests invoked; no request is retried or skipped because an
    earlier one failed. *)
Theorem worker_failures_contained (me0 : option user) (id0 : Z)
    (files : gmap string (list byte)) (se : option exn) (f g : rpc -> bool)
    path fid k cb :
  let r := run (Client me0 id0 files se f) path fid k cb in
  let r' := run (Client me0 id0 files se g) path fid k cb in
  r.1 = r'.1 /\
  st_trace r.2 = st_trace r'.2 /\
  st_fp r.2 = st_fp r'.2 /\
  invoked (st_pool r.2) = invoked (st_pool r'.2) /\
  running (st_pool r.2) = running (st_pool r'.2).
Proof.
  cbv zeta.
  destruct (run_in_step me0 id0 files se f g path fid k cb)
    as (H1 & Hfp & Htr & _ & Hrn & Hinv & _).
  split_and!; assumption.
Qed.


(** ** Sources that cannot be read *)



(** A stream that the caller has already closed: the [ValueError] of the
    first [seek] is raised to the caller, before the size is read; the
    stream is left as it was, no worker was created, and the semaphore is
    released. *)
Theorem closed_stream_outcome c fp0 fid k cb :
  s_closed fp0 = true ->
  run c (PStream fp0) fid k cb =
  (Raises (ValueError ClosedFile),
   State (Some fp0) (Pool None 0 [] []) [EvAcquire; EvRelease]).
Proof.
  intros Hcl.
  assert (resolve c (PStream fp0) = None) as Hres by (unfold resolve; rewrite Hcl; reflexivity).
  rewrite (run_enter_failure c (PStream fp0) fid k cb (ValueError ClosedFile)
             (State (Some fp0) (st_pool acquired) (st_trace acquired)));
    [reflexivity|discriminate|].
  exact (enter_media_file_unresolved c (PStream fp0) acquired Hres).
Qed.

Lemma closed_stream_outcome_witness :
  (run demo_client (PStream (Stream None (bytes_of_string "a") 0 true)) None 0 None).1 =
  Raises (ValueError ClosedFile).
Proof.
  rewrite (closed_stream_outcome demo_client (Stream None (bytes_of_string "a") 0 true)
             None 0 None eq_refl).
  reflexivity.
Defined.

(** ** The position of the caller's stream *)

Lemma open_media_file_rewinds {A} c name data pos (body : Z -> string -> M A) s :
  open_media_file c (PStream (Stream name data pos false)) body s =
  open_media_file c (PStream (Stream name data 0 false)) body s.
Proof.
  unfold open_media_file, bind.
  rewrite (enter_media_file_resolved c (PStream (Stream name data pos false)) false
             (Stream name data 0 false) s eq_refl).
  rewrite (enter_media_file_resolved c (PStream (Stream name data 0 false)) false
             (Stream name data 0 false) s eq_refl).
  reflexivity.
Qed.

(** The call does not depend on where the caller's stream is positioned
    when it is handed in: [open_media_file] seeks to the end to read the
    size and back to the start, and the producer seeks to the offset of
    [file_part]; two calls on open streams that differ only in their
    position do the same and end in the same state. *)
Theorem stream_position_ignored c name data pos pos' fid k cb :
  run c (PStream (Stream name data pos false)) fid k cb =
  run c (PStream (Stream name data pos' false)) fid k cb.
Proof.
  unfold run, call, save_file, with_semaphore, bind, try_finally.
  destruct (emit EvAcquire initial) as [r s]. destruct r; [|reflexivity..].
  rewrite (open_media_file_rewinds c name data pos),
          (open_media_file_rewinds c name data pos').
  reflexivity.
Qed.

(** ** Witnesses of the lemmas on shutdown and on rejected files *)

Lemma pool_drained_witness :
  running (st_pool (run demo_client (PStr "a.bin") None 0 None).2) = 0%nat.
Proof.
  refine (proj1 (proj2 (proj2 (pool_drained demo_client (PStr "a.bin") None 0 None true
                   (Stream (Some "a.bin"%string) (bytes_of_string "a") 0 false) _ _)))).
  - split; [reflexivity|]. vm_compute. split; [reflexivity|discriminate].
  - reflexivity.
Defined.

Lemma rejected_file_left_open_witness :
  exists e fp,
    run demo_client (PStr "empty.bin") None 0 None =
    (Raises e, State (Some fp) (Pool None 0 [] []) [EvAcquire; EvOpen "empty.bin"; EvRelease]) /\
    s_closed fp = false.
Proof.
  destruct (rejected_file_left_open demo_client "empty.bin" None 0 None
              (Stream (Some "empty.bin"%string) [] 0 false)) as (e & Hrun & Hcl).
  - reflexivity.
  - left. reflexivity.
  - exists e, (Stream (Some "empty.bin"%string) [] 0 false). split; [exact Hrun|exact Hcl].
Defined.
